(** * Student decision support: the recommendation pipeline

    A shallow embedding of the scoring and re-ranking code of
    [course_selection_assistant.py] and [student_data_analyzer.py]
    (with the request handler of [app.py] that drives them), the
    properties of it that the specification states, and further
    properties that the code shows.

    Conventions of the embedding.
    - Python floats are exact rationals ([Q]); a theorem on numbers is
      stated up to [==].  The cohort index needs a square root and lives
      on the reals ([R]), in its own module.
    - A pandas cell is a [value]: a number, NaN, a string or None.
    - A row is a finite map from column names to cells, a frame is the
      list of its labelled rows, in order.  The frames of the pipeline
      have one row per label.
    - A Python exception is the [Raise] outcome of the [res] monad.
    - Frames are objects: the re-ranking stages take and return
      references into a [heap], so that copying and aliasing show. *)

From Stdlib Require Import QArith Qround Qminmax ZArith Reals Qreals Psatz Lia.
From Stdlib Require Import Ascii String.
From stdpp Require Import base option list gmap strings sorting.

Local Open Scope Q_scope.

(** ** Numbers *)

Module Num.

(** Python's [max(a, b)] keeps [a] unless [b > a]; [min(a, b)] keeps [a]
    unless [b < a]. *)
Definition py_max (a b : Q) : Q := if Qlt_le_dec a b then b else a.
Definition py_min (a b : Q) : Q := if Qlt_le_dec b a then b else a.

(** [min(1.0, max(0.0, x))] *)
Definition clamp01 (x : Q) : Q := py_min 1 (py_max 0 x).

(** Rounding to the nearest integer, ties to the even one. *)
Definition round_half_even (x : Q) : Z :=
  let f := Qfloor x in
  match Qcompare (x - inject_Z f) (1 # 2) with
  | Lt => f
  | Gt => (f + 1)%Z
  | Eq => if Z.even f then f else (f + 1)%Z
  end.

(** [round(x, 1)], and numpy's [x.round(1)]. *)
Definition round1 (x : Q) : Q := inject_Z (round_half_even (x * 10)) / 10.

(** [min(100, round(score * 100, 1))] *)
Definition match_percentage_of (score : Q) : Q := py_min 100 (round1 (score * 100)).

End Num.

(** ** Python values, exceptions and strings *)

Module Py.

(** The exceptions that the embedded code can meet.  [ReError] is
    [re.error]; [BadReference] is the embedding's own, for a reference
    that is not in the object store. *)
Inductive exn : Set :=
  | KeyError | TypeError | AttributeError | ZeroDivisionError
  | ValueError | EOFError | ReError | BadReference.

Inductive res (A : Type) : Type :=
  | Ok (a : A)
  | Raise (e : exn).
Arguments Ok {A} a.
Arguments Raise {A} e.

#[global] Instance res_ret : MRet res := fun A a => Ok a.
#[global] Instance res_bind : MBind res := fun A B f m =>
  match m with Ok a => f a | Raise e => Raise e end.

#[global] Instance res_fmap : FMap res := fun A B f m =>
  match m with Ok a => Ok (f a) | Raise e => Raise e end.

Definition is_ok {A} (m : res A) : bool :=
  match m with Ok _ => true | Raise _ => false end.

(** A cell of a frame, or a value of the preferences dictionary. *)
Inductive value : Type :=
  | VNum (x : Q)
  | VNaN
  | VStr (s : string)
  | VNone.

#[global] Instance Q_eq_dec : EqDecision Q.
Proof. solve_decision. Defined.

#[global] Instance value_eq_dec : EqDecision value.
Proof. solve_decision. Defined.

#[global] Instance value_countable : Countable value.
Proof.
  refine (inj_countable'
    (fun v => match v with
              | VNum x => inl (Qnum x, Qden x)
              | VNaN => inr (inl ())
              | VStr s => inr (inr (inl s))
              | VNone => inr (inr (inr ()))
              end)
    (fun e => match e with
              | inl (n, d) => VNum (Qmake n d)
              | inr (inl _) => VNaN
              | inr (inr (inl s)) => VStr s
              | inr (inr (inr _)) => VNone
              end) _).
  intros [[n d]| |s|]; reflexivity.
Defined.

(** [pd.notna] *)
Definition notna (v : value) : bool :=
  match v with VNaN | VNone => false | _ => true end.

(** Arithmetic and comparison of a cell with a number.  NaN propagates
    through arithmetic and fails every comparison; a string or None
    raises [TypeError]. *)
Definition as_float (v : value) : res (option Q) :=
  match v with
  | VNum x => Ok (Some x)
  | VNaN => Ok None
  | VStr _ | VNone => Raise TypeError
  end.

(** ASCII strings: [str.lower], [needle in hay], [str.replace] of one
    character, [str.split()]. *)
Definition lower_ascii (c : ascii) : ascii :=
  let n := nat_of_ascii c in
  if (65 <=? n)%nat && (n <=? 90)%nat then ascii_of_nat (n + 32) else c.

Fixpoint lower (s : string) : string :=
  match s with
  | EmptyString => EmptyString
  | String c s' => String (lower_ascii c) (lower s')
  end.

Fixpoint contains (needle hay : string) : bool :=
  String.prefix needle hay ||
  match hay with
  | EmptyString => false
  | String _ hay' => contains needle hay'
  end.

Fixpoint replace_char (a b : ascii) (s : string) : string :=
  match s with
  | EmptyString => EmptyString
  | String c s' => String (if Ascii.eqb c a then b else c) (replace_char a b s')
  end.

Definition is_space (c : ascii) : bool :=
  let n := nat_of_ascii c in
  ((9 <=? n)%nat && (n <=? 13)%nat) || ((28 <=? n)%nat && (n <=? 32)%nat).

(** [split_aux cur s]: [cur] is the word being read, reversed. *)
Fixpoint split_aux (cur : list ascii) (s : string) : list string :=
  let flush := match cur with
               | [] => []
               | _ => [string_of_list_ascii (rev cur)]
               end in
  match s with
  | EmptyString => flush
  | String c s' =>
      if is_space c then flush ++ split_aux [] s' else split_aux (c :: cur) s'
  end.

Definition split (s : string) : list string := split_aux [] s.

End Py.
Import Py.

(** ** Rows and frames *)

(** A row maps column names to cells.  A frame lists its rows in order,
    each under its index label.  A frame that may be empty is a [Table]:
    it carries its columns apart from its rows, and a row without a cell
    for a column has NaN there.  A frame that went through scoring has
    rows, and is handled as the list of them ([Frame]); its columns are
    those of its first row. *)
Abbreviation Row := (gmap string value).
Abbreviation Frame := (list (nat * Row)).

Record Table : Type := {
  columns : list string;
  rows : Frame
}.

(** [row[c]] *)
Definition row_get (r : Row) (c : string) : res value :=
  match r !! c with
  | Some v => Ok v
  | None => Raise KeyError
  end.

(** [c in row] *)
Definition row_has (r : Row) (c : string) : bool := bool_decide (is_Some (r !! c)).

(** [c in frame.columns] *)
Definition frame_has (f : Frame) (c : string) : bool :=
  match f with
  | [] => false
  | (_, r) :: _ => row_has r c
  end.

(** The labels of a frame, and whether one row only has the label [idx]:
    [frame.at[idx, c]] is then a cell, and a column of cells otherwise. *)
Definition labels (f : Frame) : list nat := map fst f.

Definition one_row (f : Frame) (idx : nat) : bool :=
  bool_decide (length (List.filter (fun l => bool_decide (l = idx)) (labels f)) = 1%nat).

(** The loop [for idx, row in frame.iterrows(): ...] whose body writes
    cells of the row labelled [idx] only: [body] maps the loop state, the
    label and the row as read to the new state and the row as written.
    The loop stops at the first exception; the frame it returns is the
    frame as written until then.  The frames of the pipeline have one
    row per label ([merge] numbers the rows anew, selecting and sorting
    keep the labels apart), so that the row written at [idx] is the row
    read. *)
Fixpoint iterrows {S : Type} (body : S -> nat -> Row -> res (S * Row)) (s : S) (f : Frame)
  : res S * Frame :=
  match f with
  | [] => (Ok s, [])
  | (idx, row) :: f' =>
      match body s idx row with
      | Ok (s', row') =>
          let (out, f'') := iterrows body s' f' in (out, (idx, row') :: f'')
      | Raise e => (Raise e, (idx, row) :: f')
      end
  end.

(** The sort key of a row: its [final_score], NaN when it is no number. *)
Definition final_key (r : Row) : option Q :=
  match r !! "final_score" with
  | Some (VNum x) => Some x
  | _ => None
  end.

Definition key_geb (a b : option Q) : bool :=
  match a, b with
  | Some x, Some y => Qle_bool y x
  | Some _, None => true
  | None, Some _ => false
  | None, None => true
  end.

(** Descending order of [final_score], NaN last. *)
Definition score_desc (a b : nat * Row) : Prop := key_geb (final_key a.2) (final_key b.2).

#[global] Instance score_desc_dec : RelDecision score_desc.
Proof. intros a b. unfold score_desc. apply _. Defined.

(** [frame.sort_values(by='final_score', ascending=False)]: the rows in
    descending order of the score, NaN last, rows of equal score in the
    order that they had. *)
Fixpoint insert_desc (x : nat * Row) (sorted : Frame) : Frame :=
  match sorted with
  | [] => [x]
  | y :: sorted' =>
      if key_geb (final_key x.2) (final_key y.2) then x :: sorted
      else y :: insert_desc x sorted'
  end.

Definition sort_desc (f : Frame) : Frame := foldr insert_desc [] f.

Definition sort_values (f : Frame) : res Frame :=
  if frame_has f "final_score" then Ok (sort_desc f)
  else Raise KeyError.
(** ** Preferences and weights ([course_selection_assistant.py]) *)

(** The preferences dictionary.  A field is [None] when its key is
    absent; [numeric] holds the remaining, numeric keys (the profile that
    the cohort index is queried with). *)
Record Preferences : Type := {
  field_of_study : option string;
  degree_level : option string;
  max_tuition : option Q;
  max_living_expenses : option Q;
  preferred_countries : option (list string);
  language_preference : option string;
  numeric : gmap string Q
}.

Record Assistant : Type := {
  programs : option Table;
  universities : option Table;
  countries : option Table;
  user_preferences : Preferences;
  criteria_weights : list (string * Q)
}.

(** The weights set by [__init__]. *)
Definition default_weights : list (string * Q) :=
  [ ("academic_fit", 20 # 100); ("tuition_cost", 25 # 100); ("living_cost", 10 # 100);
    ("university_ranking", 15 # 100); ("career_prospects", 15 # 100);
    ("location", 10 # 100); ("language", 5 # 100) ].

(** [d[k] = v] on a dictionary kept in insertion order. *)
Fixpoint dict_set {V : Type} (k : string) (v : V) (d : list (string * V)) : list (string * V) :=
  match d with
  | [] => [(k, v)]
  | (k', v') :: d' => if decide (k' = k) then (k, v) :: d' else (k', v') :: dict_set k v d'
  end.

Definition sumZ (l : list Z) : Z := foldr Z.add 0%Z l.
Definition sumQ (l : list Q) : Q := foldr Qplus 0 l.

(** The weight update of [collect_preferences]: one rating is read per
    criterion, in the order of the weights ([ratings] is what the user
    types); each weight becomes its rating over the total. *)
Fixpoint read_ratings (keys : list string) (ratings : list Z)
  (criteria_importance : list (string * Z)) : res (list (string * Z)) :=
  match keys with
  | [] => Ok criteria_importance
  | k :: keys' =>
      match ratings with
      | [] => Raise EOFError
      | r :: ratings' => read_ratings keys' ratings' (dict_set k r criteria_importance)
      end
  end.

Fixpoint normalize_weights (items : list (string * Z)) (total : Z)
  (weights : list (string * Q)) : res (list (string * Q)) :=
  match items with
  | [] => Ok weights
  | (criterion, rating) :: items' =>
      if (total =? 0)%Z then Raise ZeroDivisionError
      else normalize_weights items' total
             (dict_set criterion (inject_Z rating / inject_Z total) weights)
  end.

Definition update_weights (weights : list (string * Q)) (ratings : list Z)
  : res (list (string * Q)) :=
  criteria_importance ← read_ratings (map fst weights) ratings [];
  let total_importance := sumZ (map snd criteria_importance) in
  normalize_weights criteria_importance total_importance weights.

(** ** The cohort index ([student_data_analyzer.py])

    The historical records are a frame; its numbers are read as reals,
    where the standard deviation lives.  The reals have no NaN: the one
    place where the code meets NaN, a feature of deviation zero, is
    written out in [build_recommendation_model]. *)

Module Cohort.

Local Open Scope R_scope.

#[global] Instance R_eq_dec : EqDecision R := Req_dec_T.

Definition sumR (xs : list R) : R := foldr Rplus 0 xs.

(** A column of a frame; a cell that is no number is NaN ([None]). *)
Definition column (f : Frame) (c : string) : list (option R) :=
  map (fun ir => match ir.2 !! c with
                 | Some (VNum x) => Some (Q2R x)
                 | _ => None
                 end) f.

Definition present (col : list (option R)) : list R := omap (fun x : option R => x) col.

(** [Series.mean()] and [Series.std()] (the sample deviation) of a
    column without NaN. *)
Definition mean (xs : list R) : R := sumR xs / INR (length xs).

Definition std (xs : list R) : R :=
  sqrt (sumR (map (fun x => (x - mean xs) * (x - mean xs)) xs) / (INR (length xs) - 1)).

(** [col.fillna(col.mean())]; the mean skips NaN. *)
Definition fillna_mean (col : list (option R)) : list R :=
  map (default (mean (present col))) col.

(** [(col - col.mean()) / col.std()] *)
Definition normalize (xs : list R) : list R :=
  map (fun x => (x - mean xs) / std xs) xs.

(** A fitted [NearestNeighbors]: the neighbour count and the data, kept
    column by column. *)
Record NearestNeighbors : Type := {
  n_neighbors : nat;
  fit_X : list (list R)
}.

Record StudentDataAnalyzer : Type := {
  student_data : option Frame;
  model : option NearestNeighbors;
  feature_columns : option (list string);
  normalized_features : option (list (list R))
}.

Definition all_feature_columns : list string :=
  ["current_gpa"; "tuition_budget"; "living_expense_budget";
   "university_ranking_importance"; "cost_sensitivity_score";
   "career_importance_score"].

(** [len(frame)] of a frame kept column by column. *)
Definition n_rows (cols : list (list R)) : nat :=
  match cols with
  | [] => 0
  | col :: _ => length col
  end.

(** [build_recommendation_model]; [sklearn_available] is the module's
    [SKLEARN_AVAILABLE].  A feature of deviation zero normalizes to NaN,
    which [fit] rejects: the exception is caught, after the features
    were stored. *)
Definition build_recommendation_model (sklearn_available : bool) (self : StudentDataAnalyzer)
  : bool * StudentDataAnalyzer :=
  match student_data self with
  | None | Some [] => (false, self)
  | Some data =>
      if negb sklearn_available then (false, self)
      else
        let columns := List.filter (frame_has data) all_feature_columns in
        match columns with
        | [] => (false, {| student_data := student_data self; model := model self;
                           feature_columns := Some columns;
                           normalized_features := normalized_features self |})
        | _ =>
            let features := map (fun c => fillna_mean (column data c)) columns in
            let normalized := map normalize features in
            if bool_decide (Exists (fun xs => std xs = 0) features) then
              (false, {| student_data := student_data self; model := model self;
                         feature_columns := Some columns;
                         normalized_features := Some normalized |})
            else
              (true, {| student_data := student_data self;
                        model := Some {| n_neighbors := Nat.min 10 (n_rows normalized);
                                         fit_X := normalized |};
                        feature_columns := Some columns;
                        normalized_features := Some normalized |})
        end
  end.

(** The value of one feature in the query. *)
Definition query_value (preferences : Preferences) (data : Frame) (col : string) : R :=
  let prefs := numeric preferences in
  let val :=
    if bool_decide (col = "current_gpa" ∧ is_Some (prefs !! "gpa")) then prefs !! "gpa"
    else if bool_decide (col = "university_ranking_importance"
                         ∧ is_Some (prefs !! "ranking_importance"))
         then prefs !! "ranking_importance"
    else if bool_decide (col = "cost_sensitivity_score" ∧ is_Some (prefs !! "cost_sensitivity"))
         then prefs !! "cost_sensitivity"
    else prefs !! col in
  match val with
  | Some x => Q2R x
  | None => mean (present (column data col))
  end.

(** [[(query[i] - means[i]) / stds[i] for i in range(len(query))]] *)
Definition normalize_query (query means stds : list R) : option (list R) :=
  mapM (fun iq : nat * R =>
          m ← means !! iq.1; s ← stds !! iq.1; Some ((iq.2 - m) / s))
       (imap pair query).

(** The row of a frame kept column by column. *)
Definition row_of (cols : list (list R)) (i : nat) : list R :=
  map (fun col => nth i col 0) cols.

Definition distance (a b : list R) : R :=
  sqrt (sumR (zip_with (fun x y => (x - y) * (x - y)) a b)).

Fixpoint insert_by (d : nat -> R) (i : nat) (l : list nat) : list nat :=
  match l with
  | [] => [i]
  | j :: l' => if Rle_dec (d i) (d j) then i :: l else j :: insert_by d i l'
  end.

(** [model.kneighbors([query], n_neighbors=k)]: the [k] nearest rows of
    the fitted data, nearest first; more than there are is an error. *)
Definition kneighbors (m : NearestNeighbors) (query : list R) (k : nat) : option (list nat) :=
  let n := n_rows (fit_X m) in
  if decide (k <= n)%nat then
    Some (take k (foldr (insert_by (fun i => distance (row_of (fit_X m) i) query)) [] (seq 0 n)))
  else None.

(** [frame.iloc[indices]] *)
Definition iloc (f : Frame) (indices : list nat) : option Frame :=
  mapM (fun i => f !! i) indices.

(** The query of [find_similar_students], as it is handed to the
    neighbour search: the features of the preferences, normalized with
    [self.normalized_features.mean()] and [.std()]. *)
Definition normalized_query (self : StudentDataAnalyzer) (preferences : Preferences)
  : option (list R) :=
  normalized ← normalized_features self;
  columns ← feature_columns self;
  data ← student_data self;
  let query_features := map (query_value preferences data) columns in
  let means := map mean normalized in
  let stds := map std normalized in
  normalize_query query_features means stds.

(** [find_similar_students]: [None] without a model, and when anything
    raises. *)
Definition find_similar_students (self : StudentDataAnalyzer) (preferences : Preferences)
  (n : nat) : option Frame :=
  match model self, normalized_features self with
  | Some m, Some normalized =>
      query ← normalized_query self preferences;
      indices ← kneighbors m query (Nat.min n (n_rows normalized));
      data ← student_data self;
      iloc data indices
  | _, _ => None
  end.

End Cohort.

(** ** Frames as objects *)

(** The object store: a reference is a position in the store, a new
    object goes to its end. *)
Abbreviation heap := (list Frame).

Definition M (A : Type) : Type := heap -> res A * heap.

#[global] Instance M_ret : MRet M := fun A a h => (Ok a, h).
#[global] Instance M_bind : MBind M := fun A B f m h =>
  match m h with
  | (Ok a, h') => f a h'
  | (Raise e, h') => (Raise e, h')
  end.

#[global] Instance M_fmap : FMap M := fun A B f m h =>
  match m h with
  | (Ok a, h') => (Ok (f a), h')
  | (Raise e, h') => (Raise e, h')
  end.

Definition lift {A : Type} (m : res A) : M A := fun h => (m, h).

Definition new_frame (f : Frame) : M nat := fun h => (Ok (length h), h ++ [f]).

(** Reading through a reference that is not in the store has no Python
    counterpart; it is an error here. *)
Definition get_frame (r : nat) : M Frame := fun h =>
  match h !! r with
  | Some f => (Ok f, h)
  | None => (Raise BadReference, h)
  end.

(** [frame.copy()] *)
Definition copy (r : nat) : M nat := f ← get_frame r; new_frame f.

(** A block of code that writes the frame behind [r] in place. *)
Definition on_frame {S : Type} (r : nat) (block : Frame -> res S * Frame) : M S := fun h =>
  match h !! r with
  | Some f => let (out, f') := block f in (out, <[r := f']> h)
  | None => (Raise BadReference, h)
  end.

(** [try: body / except Exception: handler] *)
Definition try_except {A : Type} (body : M A) (handler : exn -> M A) : M A := fun h =>
  match body h with
  | (Ok a, h') => (Ok a, h')
  | (Raise e, h') => handler e h'
  end.

(** [frame.sort_values(...)] makes a new frame. *)
Definition sort_values_ref (r : nat) : M nat :=
  f ← get_frame r; sorted ← lift (sort_values f); new_frame sorted.

(** ** The assistant ([course_selection_assistant.py]) *)

Section Pipeline.

(** What the embedding leaves to the libraries: [str(x)] of a float,
    [f"{n:,}"] of an integer, and the compilation of a regular
    expression to its search (or to a [re.error]). *)
Variable repr_float : Q -> string.
Variable format_thousands : Z -> string.
Variable re_compile : string -> res (string -> bool).

Definition str (v : value) : string :=
  match v with
  | VStr s => s
  | VNone => "None"
  | VNaN => "nan"
  | VNum x => repr_float x
  end.

Definition extract_keywords (text : string) : list string :=
  if decide (text = "") then []
  else
    let words := split (replace_char ";" " " (replace_char "," " " (lower text))) in
    List.filter (fun w => (2 <? String.length w)%nat) words.

Definition calculate_academic_fit (row : Row) (field_keywords : list string) : res Q :=
  match field_keywords with
  | [] => Ok (1 # 2)
  | _ =>
      name ← row_get row "name_program";
      field ← row_get row "field";
      let program_text := lower (str name +:+ " " +:+ str field) in
      let matches :=
        length (List.filter (fun keyword => contains keyword program_text) field_keywords) in
      Ok (Num.py_min 1 (inject_Z (Z.of_nat matches) / inject_Z (Z.of_nat (length field_keywords))))
  end.

Definition regions : list (string * list string) :=
  [ ("europe", ["germany"; "france"; "italy"; "spain"; "netherlands";
                "belgium"; "austria"; "switzerland"; "uk"; "ireland"]);
    ("north_america", ["usa"; "united states"; "canada"; "mexico"]);
    ("asia", ["china"; "japan"; "south korea"; "singapore"; "india"; "malaysia"]);
    ("oceania", ["australia"; "new zealand"]) ].

Definition is_in_same_region (country : value) (preferred_countries : list string) : res bool :=
  match country with
  | VStr s =>
      let country_region :=
        fst <$> head (List.filter (fun rc => bool_decide (lower s ∈ rc.2)) regions) in
      match country_region with
      | Some region =>
          Ok (bool_decide (Exists (fun preferred =>
                Exists (fun rc => preferred ∈ rc.2 ∧ rc.1 = region) regions)
              preferred_countries))
      | None => Ok false
      end
  | _ => Raise AttributeError
  end.

Definition key_fields : list string :=
  ["name_program"; "name_university"; "tuition_per_year";
   "ranking_global"; "language"; "duration"].

Definition valid_fields (row : Row) : nat :=
  length (List.filter (fun field => match row !! field with
                                    | Some v => notna v
                                    | None => false
                                    end) key_fields).

Definition calculate_confidence (row : Row) : Q :=
  let confidence := inject_Z (Z.of_nat (valid_fields row)) / inject_Z (Z.of_nat (length key_fields)) in
  (7 # 10) + confidence * (3 # 10).

(** [min(1.0, max(0.0, x))] where [x] may be NaN ([None]): every
    comparison with NaN fails, so [max] keeps [0.0]. *)
Definition clamp01_nan (x : option Q) : Q :=
  match x with
  | Some x => Num.clamp01 x
  | None => 0
  end.

(** [(ceiling - cost) / ceiling] on Python floats; an absent ceiling is
    [float('inf')], and [inf / inf] is NaN. *)
Definition headroom (ceiling : option Q) (cost : option Q) : res (option Q) :=
  match ceiling with
  | None => Ok None
  | Some m =>
      if Qeq_bool m 0 then Raise ZeroDivisionError
      else Ok ((fun c => (m - c) / m) <$> cost)
  end.

Definition tuition_score (max_tuition : option Q) (tuition_per_year : value) : res Q :=
  cost ← as_float tuition_per_year;
  match cost with
  | Some c => if Qle_bool c 0 then Ok 1
              else clamp01_nan <$> headroom max_tuition cost
  | None => clamp01_nan <$> headroom max_tuition cost
  end.

Definition ranking_score (ranking_global : value) : res Q :=
  ranking ← as_float ranking_global;
  match ranking with
  | None => Ok (3 # 10)
  | Some r =>
      Ok (if Qle_bool r 10 then 1
          else if Qle_bool r 50 then 9 # 10
          else if Qle_bool r 100 then 8 # 10
          else if Qle_bool r 200 then 7 # 10
          else if Qle_bool r 500 then 5 # 10
          else 3 # 10)
  end.

(** [series == x], cell by cell *)
Definition cell_eqb (a b : value) : bool :=
  match a, b with
  | VNum x, VNum y => Qeq_bool x y
  | VStr s, VStr t => bool_decide (s = t)
  | _, _ => false
  end.

Definition living_cost_score (countries : option Table) (max_living_expenses : option Q)
  (row : Row) : res Q :=
  match countries with
  | Some cs =>
      if bool_decide ("name" ∈ columns cs) then
        country ← row_get row "country";
        let country_data :=
          List.filter (fun ir => cell_eqb (default VNaN (ir.2 !! "name")) country) (rows cs) in
        match country_data with
        | (_, first) :: _ =>
            if bool_decide ("average_living_cost" ∈ columns cs) then
              let avg_cost := default VNaN (first !! "average_living_cost") in
              match max_living_expenses with
              | None => (* inf > 0, then (inf - avg) / inf *)
                  _ ← as_float avg_cost; Ok 0
              | Some max_living =>
                  if Qlt_le_dec 0 max_living then
                    avg ← as_float avg_cost;
                    Ok (clamp01_nan ((fun a => (max_living - a) / max_living) <$> avg))
                  else Ok (1 # 2)
              end
            else Ok (7 # 10)
        | [] => Ok (7 # 10)
        end
      else Ok (7 # 10)
  | None => Ok (7 # 10)
  end.

Definition location_score (preferred_countries : option (list string)) (row : Row) : res Q :=
  match preferred_countries with
  | Some (p :: ps) =>
      country ← row_get row "country";
      if bool_decide (Exists (fun c => VStr c = country) (p :: ps)) then Ok 1
      else
        same ← is_in_same_region country (p :: ps);
        Ok (if same : bool then 7 # 10 else 1 # 2)
  | _ => Ok (1 # 2)
  end.

Definition language_score (language_preference : option string) (row : Row) : res Q :=
  let language_pref := default "" language_preference in
  if decide (language_pref = "English only") then
    language ← row_get row "language";
    Ok (if contains "english" (lower (str language)) then 1 else 0)
  else if decide (language_pref = "Any language with English programs") then
    language ← row_get row "language";
    Ok (if contains "english" (lower (str language)) then 1 else 1 # 2)
  else Ok (8 # 10).

(** [final_score += score * weight] over the weights, from 0; NaN is
    [None]. *)
Fixpoint weighted_sum (weights : list (string * Q)) (cur : Row) (final_score : option Q)
  : res (option Q) :=
  match weights with
  | [] => Ok final_score
  | (criterion, weight) :: weights' =>
      cell ← row_get cur (criterion +:+ "_score");
      score ← as_float cell;
      weighted_sum weights' cur
        (match final_score, score with
         | Some acc, Some s => Some (acc + s * weight)
         | _, _ => None
         end)
  end.

Definition float_cell (x : option Q) : value :=
  match x with Some x => VNum x | None => VNaN end.

(** [min(100, round(x * 100, 1))]; [min] keeps 100 against NaN. *)
Definition match_percentage_cell (x : option Q) : value :=
  match x with
  | Some x => VNum (Num.match_percentage_of x)
  | None => VNum 100
  end.

(** One turn of the loop of [score_programs]: [row] is the row as read,
    the result is the row as written. *)
Definition score_row (self : Assistant) (field_keywords : list string) (row : Row) : res Row :=
  let prefs := user_preferences self in
  academic_fit ← calculate_academic_fit row field_keywords;
  let cur := <["academic_fit_score" := VNum academic_fit]> row in
  tuition ← row_get row "tuition_per_year";
  tuition_score ← tuition_score (max_tuition prefs) tuition;
  let cur := <["tuition_cost_score" := VNum tuition_score]> cur in
  ranking ← row_get row "ranking_global";
  ranking_score ← ranking_score ranking;
  let cur := <["university_ranking_score" := VNum ranking_score]> cur in
  living_cost_score ← living_cost_score (countries self) (max_living_expenses prefs) row;
  let cur := <["living_cost_score" := VNum living_cost_score]> cur in
  let career_score := 7 # 10 in
  let cur := <["career_prospects_score" := VNum career_score]> cur in
  location_score ← location_score (preferred_countries prefs) row;
  let cur := <["location_score" := VNum location_score]> cur in
  language_score ← language_score (language_preference prefs) row;
  let cur := <["language_score" := VNum language_score]> cur in
  let confidence := calculate_confidence row in
  final_score ← weighted_sum (criteria_weights self) cur (Some 0);
  let final_score := (fun s => s * confidence) <$> final_score in
  let cur := <["final_score" := float_cell final_score]> cur in
  Ok (<["match_percentage" := match_percentage_cell final_score]> cur).

(** [score_programs]: [None] for no frame or an empty one, else the
    scored frame, sorted. *)
Definition score_programs (self : Assistant) (filtered_programs : option Table)
  : res (option Frame) :=
  match rows <$> filtered_programs with
  | None | Some [] => Ok None
  | Some scored_df =>
      let field_keywords := extract_keywords (default "" (field_of_study (user_preferences self))) in
      match iterrows (fun (_ : unit) (_ : nat) row => pair tt <$> score_row self field_keywords row)
              tt scored_df with
      | (Ok _, scored_df) => Some <$> sort_values scored_df
      | (Raise e, _) => Raise e
      end
  end.

(** ** Diversity boosting ([course_selection_assistant.py]) *)

Record Seen : Type := {
  countries_seen : gset value;
  universities_seen : gset value;
  fields_seen : gset value
}.

Definition nothing_seen : Seen :=
  {| countries_seen := ∅; universities_seen := ∅; fields_seen := ∅ |}.

(** [x not in seen]: a set finds what equals one of its elements.  NaN
    equals nothing, and the NaN of a numeric cell is a float of its own
    at each read: it is never found. *)
Definition not_in (x : value) (seen : gset value) : bool :=
  match x with
  | VNaN => true
  | _ => bool_decide (x ∉ seen)
  end.

(** One turn of the loop of [apply_diversity_boosting], on the row of
    label [idx] of [frame].  The new score is read back through
    [frame.at[idx, 'final_score']]: under a label that several rows have
    this is a column, and [min(100, ...)] of a column raises. *)
Definition diversity_body (frame : Frame) (seen : Seen) (idx : nat) (row : Row)
  : res (Seen * Row) :=
  country ← row_get row "country";
  university ← row_get row "name_university";
  field ← row_get row "field";
  let diversity_boost := 0 in
  let new_country := not_in country (countries_seen seen) in
  let diversity_boost := if new_country then diversity_boost + (3 # 100) else diversity_boost in
  let new_university := not_in university (universities_seen seen) in
  let diversity_boost := if new_university then diversity_boost + (2 # 100) else diversity_boost in
  let new_field := not_in field (fields_seen seen) in
  let diversity_boost := if new_field then diversity_boost + (1 # 100) else diversity_boost in
  let seen := {| countries_seen := if new_country then {[country]} ∪ countries_seen seen
                                   else countries_seen seen;
                 universities_seen := if new_university then {[university]} ∪ universities_seen seen
                                      else universities_seen seen;
                 fields_seen := if new_field then {[field]} ∪ fields_seen seen
                                else fields_seen seen |} in
  final_score ← row_get row "final_score";
  score ← as_float final_score;
  let boosted := (fun x => x + diversity_boost) <$> score in
  let cur := <["final_score" := float_cell boosted]> row in
  if one_row frame idx then Ok (seen, <["match_percentage" := match_percentage_cell boosted]> cur)
  else Raise ValueError.

(** The [try] block of [apply_diversity_boosting]. *)
Definition diversity_try (scored_programs : nat) : M (option nat) :=
  diverse_programs ← copy scored_programs;
  _ ← on_frame diverse_programs (fun frame => iterrows (diversity_body frame) nothing_seen frame);
  Some <$> sort_values_ref diverse_programs.

Definition apply_diversity_boosting (scored_programs : option nat) : M (option nat) :=
  match scored_programs with
  | None => mret None
  | Some r =>
      f ← get_frame r;
      match f with
      | [] => mret (Some r)
      | _ => try_except (diversity_try r) (fun _ => mret (Some r))
      end
  end.

(** ** The cohort enhancement ([student_data_analyzer.py]) *)

(** [frame[c]]: the cells of a column, NaN where a row has none. *)
Definition cells (f : Frame) (c : string) : res (list value) :=
  if frame_has f c then Ok (map (fun ir => default VNaN (ir.2 !! c)) f)
  else Raise KeyError.

(** [value_counts()] counts the cells that are not missing;
    [counts.get(x, 0)] looks a string up in them. *)
Definition value_counts (col : list value) : list value := List.filter notna col.

Definition counts_get (counts : list value) (x : value) : nat :=
  match x with
  | VStr _ => length (List.filter (cell_eqb x) counts)
  | _ => 0
  end.

(** One turn of the loop of [enhance_recommendations]. *)
Definition enhance_body (destination_counts : list value) (total_destinations : nat)
  (_ : unit) (rec_idx : nat) (row : Row) : res (unit * Row) :=
  country ← row_get row "country";
  let popularity :=
    inject_Z (Z.of_nat (counts_get destination_counts country))
    / inject_Z (Z.of_nat (Nat.max 1 total_destinations)) in
  let popularity_boost := popularity * (5 # 100) in
  if row_has row "final_score" then
    let cur := <["student_data_boost" := VNum popularity_boost]> row in
    final_score ← row_get cur "final_score";
    score ← as_float final_score;
    let boosted := (fun x => x + popularity_boost) <$> score in
    let cur := <["final_score" := float_cell boosted]> cur in
    if row_has row "match_percentage" then
      Ok (tt, <["match_percentage" := match_percentage_cell boosted]> cur)
    else Ok (tt, cur)
  else Ok (tt, row).

Fixpoint ends_with_dot (s : string) : bool :=
  match s with
  | EmptyString => false
  | String c EmptyString => Ascii.eqb c "."
  | String _ s' => ends_with_dot s'
  end.

(** [x or ""], then used as a string. *)
Definition explanation_text (x : value) : res string :=
  match x with
  | VStr s => Ok s
  | VNone => Ok ""
  | VNum q => if Qeq_bool q 0 then Ok "" else Raise AttributeError
  | VNaN => Raise AttributeError
  end.

(** The rows of [similar_students] that ended in [country] with a
    satisfaction of 7 or more, counted. *)
Definition satisfied_matches (similar_students : Frame) (country : value) : res nat :=
  destinations ← cells similar_students "final_destination_country";
  satisfaction ← cells similar_students "decision_satisfaction_score";
  scores ← mapM as_float satisfaction;
  Ok (length (List.filter
        (fun ds : value * option Q =>
           cell_eqb ds.1 country &&
           match ds.2 with Some x => Qle_bool 7 x | None => false end)
        (zip destinations scores))).

(** One turn of the loop of [_add_student_data_explanations]. *)
Definition explanation_body (has_explanation : bool) (similar_students : Frame)
  (_ : unit) (idx : nat) (rec : Row) : res (unit * Row) :=
  let country := default VNone (rec !! "country") in
  boost ← as_float (default (VNum 0) (rec !! "student_data_boost"));
  if match boost with Some b => Qle_bool b 0 | None => false end || negb has_explanation
  then Ok (tt, rec)
  else
    matches ← satisfied_matches similar_students country;
    if (0 <? matches)%nat then
      current_explanation ← explanation_text (default VNaN (rec !! "explanation"));
      let student_insight :=
        " Similar students to your profile have been satisfied with programs in "
        +:+ str country +:+ "." in
      Ok (tt, <["explanation" :=
                  VStr (if ends_with_dot current_explanation
                        then current_explanation +:+ student_insight
                        else current_explanation +:+ "." +:+ student_insight)]> rec)
    else Ok (tt, rec).

Definition _add_student_data_explanations (recommendations : nat) (similar_students : Frame)
  : M unit :=
  match similar_students with
  | [] => mret tt
  | _ =>
      try_except
        (on_frame recommendations
           (fun f => iterrows (explanation_body (frame_has f "explanation") similar_students) tt f))
        (fun _ => mret tt)
  end.

(** The [try] block of [enhance_recommendations]. *)
Definition enhance_try (self : Cohort.StudentDataAnalyzer) (recommendations : nat)
  (preferences : Preferences) : M (option nat) :=
  match Cohort.find_similar_students self preferences 10 with
  | None | Some [] => mret (Some recommendations)
  | Some similar_students =>
      enhanced ← copy recommendations;
      destinations ← lift (cells similar_students "final_destination_country");
      let destination_counts := value_counts destinations in
      let total_destinations := length destination_counts in
      _ ← on_frame enhanced
            (iterrows (enhance_body destination_counts total_destinations) tt);
      f ← get_frame enhanced;
      enhanced ← (if frame_has f "final_score" then sort_values_ref enhanced
                  else mret enhanced);
      _ ← _add_student_data_explanations enhanced similar_students;
      mret (Some enhanced)
  end.

Definition enhance_recommendations (self : Cohort.StudentDataAnalyzer)
  (recommendations : option nat) (preferences : Preferences) : M (option nat) :=
  match recommendations with
  | None => mret None
  | Some r =>
      recs ← get_frame r;
      match recs, Cohort.student_data self with
      | [], _ | _, None | _, Some [] => mret (Some r)
      | _, _ => try_except (enhance_try self r preferences) (fun _ => mret (Some r))
      end
  end.

(** [get_popularity_boost]: the share of a country among the recorded
    destinations, times 0.03, plus the share of a field among the
    recorded fields, times 0.02; 0 without records, and when anything
    raises.  A name that is [None] or empty is not asked for. *)
Definition popularity_share (data : Frame) (column : string) (x : string) : res Q :=
  col ← cells data column;
  let counts := value_counts col in
  let total := length counts in
  Ok (inject_Z (Z.of_nat (counts_get counts (VStr x)))
      / inject_Z (Z.of_nat (Nat.max 1 total))).

(** [if name and column in self.student_data.columns] *)
Definition asked (data : Frame) (name : option string) (column : string) : option string :=
  match name with
  | Some x => if negb (String.eqb x "") && frame_has data column then Some x else None
  | None => None
  end.

Definition get_popularity_boost (self : Cohort.StudentDataAnalyzer)
  (country field : option string) : Q :=
  match Cohort.student_data self with
  | None => 0
  | Some data =>
      let body : res Q :=
        let boost := 0 in
        boost ← match asked data country "final_destination_country" with
                | Some c =>
                    country_popularity ← popularity_share data "final_destination_country" c;
                    Ok (boost + country_popularity * (3 # 100))
                | None => Ok boost
                end;
        boost ← match asked data field "field_of_study" with
                | Some f =>
                    field_popularity ← popularity_share data "field_of_study" f;
                    Ok (boost + field_popularity * (2 # 100))
                | None => Ok boost
                end;
        Ok boost in
      match body with
      | Ok boost => boost
      | Raise _ => 0
      end
  end.

(** ** Filtering ([filter_programs]) *)

Definition rename_column (other : list string) (suffix : string) (c : string) : string :=
  if bool_decide (c ∈ other) then c +:+ suffix else c.

Definition rename_row (other : list string) (suffix : string) (r : Row) : Row :=
  list_to_map (map (fun kv : string * value => (rename_column other suffix kv.1, kv.2))
                   (map_to_list r)).

(** Join keys: equal cells, or two missing ones. *)
Definition key_eqb (a b : value) : bool :=
  cell_eqb a b || (negb (notna a) && negb (notna b)).

(** [programs.merge(universities, left_on='university_id', right_on='id',
    suffixes=('_program', '_university'))]: the inner join, in the order
    of the left rows, under a fresh index; a column of both sides takes
    the suffix of its side. *)
Definition merge (left right : Table) : res Table :=
  if bool_decide ("university_id" ∈ columns left ∧ "id" ∈ columns right) then
    let joined :=
      flat_map (fun p : nat * Row =>
        map (fun u : nat * Row =>
               rename_row (columns right) "_program" p.2
               ∪ rename_row (columns left) "_university" u.2)
            (List.filter (fun u : nat * Row =>
                            key_eqb (default VNaN (p.2 !! "university_id"))
                                    (default VNaN (u.2 !! "id")))
                         (rows right)))
        (rows left) in
    Ok {| columns := map (rename_column (columns right) "_program") (columns left)
                     ++ map (rename_column (columns left) "_university") (columns right);
          rows := imap pair joined |}
  else Raise KeyError.

(** [frame[mask]] for a mask computed row by row. *)
Fixpoint select (mask : Row -> res bool) (f : Frame) : res Frame :=
  match f with
  | [] => Ok []
  | ir :: f' =>
      keep ← mask ir.2;
      rest ← select mask f';
      Ok (if keep : bool then ir :: rest else rest)
  end.

(** [frame[c]] of a frame with the columns [cols]. *)
Definition column_of (cols : list string) (c : string) : res unit :=
  if bool_decide (c ∈ cols) then Ok tt else Raise KeyError.

(** [cell.str.lower()]: NaN for a cell that is no string; NaN fails
    every test of a mask. *)
Definition str_lower (r : Row) (c : string) : option string :=
  match r !! c with
  | Some (VStr s) => Some (lower s)
  | _ => None
  end.

Definition test (p : string -> bool) (s : option string) : bool :=
  match s with Some s => p s | None => false end.

Definition filter_programs (self : Assistant) : res (option Table) :=
  match programs self, universities self with
  | Some programs, Some universities =>
      merged_data ← merge programs universities;
      let cols := columns merged_data in
      let prefs := user_preferences self in
      let filtered_data := rows merged_data in
      filtered_data ←
        match field_of_study prefs with
        | Some text =>
            if decide (text = "") then Ok filtered_data
            else
              let field := lower text in
              _ ← column_of cols "field";
              search ← re_compile field;
              _ ← column_of cols "name_program";
              select (fun r => Ok (test search (str_lower r "field")
                                   || test search (str_lower r "name_program")))
                     filtered_data
        | None => Ok filtered_data
        end;
      filtered_data ←
        match degree_level prefs with
        | Some text =>
            if decide (text = "") then Ok filtered_data
            else
              let level := lower text in
              _ ← column_of cols "level";
              select (fun r => Ok (test (String.eqb level) (str_lower r "level"))) filtered_data
        | None => Ok filtered_data
        end;
      filtered_data ←
        match max_tuition prefs with
        | Some max_tuition =>
            _ ← column_of cols "tuition_per_year";
            select (fun r =>
                      tuition ← as_float (default VNaN (r !! "tuition_per_year"));
                      Ok (match tuition with
                          | Some t => Qle_bool t max_tuition
                          | None => false
                          end))
                   filtered_data
        | None => Ok filtered_data
        end;
      filtered_data ←
        match preferred_countries prefs with
        | Some (c :: cs) =>
            let countries := map lower (c :: cs) in
            _ ← column_of cols "country";
            select (fun r => Ok (test (fun s => bool_decide (s ∈ countries))
                                      (str_lower r "country")))
                   filtered_data
        | _ => Ok filtered_data
        end;
      filtered_data ←
        match language_preference prefs with
        | Some language_pref =>
            if decide (language_pref = "English only") then
              _ ← column_of cols "language";
              select (fun r => Ok (test (String.eqb "english") (str_lower r "language")))
                     filtered_data
            else Ok filtered_data
        | None => Ok filtered_data
        end;
      Ok (Some {| columns := cols; rows := filtered_data |})
  | _, _ => Ok None
  end.

(** ** Explanations ([generate_explanations]) *)

(** [cell > bound] *)
Definition cell_gt (cell : value) (bound : Q) : res bool :=
  x ← as_float cell;
  Ok (match x with Some x => negb (Qle_bool x bound) | None => false end).

(** [int(cell)] *)
Definition int (cell : value) : res Z :=
  match cell with
  | VNum x => Ok (if Qle_bool 0 x then Qfloor x else Qceiling x)
  | VNaN | VStr _ => Raise ValueError
  | VNone => Raise TypeError
  end.

Fixpoint join (sep : string) (l : list string) : string :=
  match l with
  | [] => ""
  | [s] => s
  | s :: l' => s +:+ sep +:+ join sep l'
  end.

Definition explain (prefs : Preferences) (program : Row) : res string :=
  let reasons := ["Recommended because:"] in
  academic ← row_get program "academic_fit_score";
  strong ← cell_gt academic (7 # 10);
  let reasons := if strong : bool
                 then reasons ++ ["Strong match with your academic interests"]
                 else reasons in
  tuition ← row_get program "tuition_cost_score";
  cheap ← cell_gt tuition (8 # 10);
  reasons ← (if cheap : bool then
               cost ← row_get program "tuition_per_year";
               n ← int cost;
               Ok (reasons ++ ["Fits well within your budget at $" +:+ format_thousands n
                               +:+ "/year"])
             else Ok reasons);
  ranking ← row_get program "university_ranking_score";
  ranked ← cell_gt ranking (7 # 10);
  reasons ← (if ranked : bool then
               rank ← row_get program "ranking_global";
               Ok (reasons ++ ["Well-ranked institution (#" +:+ str rank +:+ " globally)"])
             else Ok reasons);
  reasons ← match preferred_countries prefs with
            | Some preferred =>
                country ← row_get program "country";
                Ok (if bool_decide (Exists (fun c => VStr c = country) preferred)
                    then reasons ++ ["Located in your preferred country (" +:+ str country +:+ ")"]
                    else reasons)
            | None => Ok reasons
            end;
  language ← row_get program "language";
  let reasons :=
    if contains "english" (lower (str language))
       && bool_decide (language_preference prefs = Some "English only"
                       ∨ language_preference prefs = Some "Any language with English programs")
    then reasons ++ ["Matches your language preferences"]
    else reasons in
  Ok (join "; " reasons).

Definition generate_explanations (self : Assistant) (programs : Frame) (limit : nat)
  : res (list string) :=
  mapM (fun ir : nat * Row => explain (user_preferences self) ir.2) (take limit programs).

(** ** The request handler ([app.py]) *)

Definition validate_preferences (preferences : Preferences) : bool :=
  bool_decide (is_Some (field_of_study preferences))
  && bool_decide (is_Some (degree_level preferences)).

Definition enrich_preferences (preferences : Preferences) : Preferences :=
  {| field_of_study := field_of_study preferences;
     degree_level := degree_level preferences;
     max_tuition := Some (default 50000 (max_tuition preferences));
     max_living_expenses := max_living_expenses preferences;
     preferred_countries := Some (default [] (preferred_countries preferences));
     language_preference :=
       Some (default "Any language with English programs" (language_preference preferences));
     numeric := numeric preferences |}.

(** What the handler answers: the recommendations, under status 200 and
    [success: True], or an error, under its status and [success: False]. *)
Inductive response : Type :=
  | Recommendations (result : list Row)
  | Failure (status : Z).

(** The catalog that [load_data] reads, [None] when the database cannot
    be read. *)
Record Database : Type := {
  db_universities : Table;
  db_programs : Table;
  db_countries : option Table
}.

(** [x.head(10)] where [x] may be [None]. *)
Definition head10 (x : option nat) : M Frame :=
  match x with
  | Some r => take 10 <$> get_frame r
  | None => lift (Raise AttributeError)
  end.

(** The assistant of a request: a new [CourseSelectionAssistant] with
    the catalog loaded and the preferences set. *)
Definition assistant_for (db : Database) (preferences : Preferences) : Assistant :=
  {| programs := Some (db_programs db);
     universities := Some (db_universities db);
     countries := db_countries db;
     user_preferences := preferences;
     criteria_weights := default_weights |}.

(** The body of the [try] of [get_recommendations], from the filter on. *)
Definition recommend (assistant : Assistant) (student_analyzer : Cohort.StudentDataAnalyzer)
  (preferences : Preferences) : M response :=
  filtered_programs ← lift (filter_programs assistant);
  scored ← lift (score_programs assistant filtered_programs);
  scored_programs ← (match scored with
                     | Some f => Some <$> new_frame f
                     | None => mret None
                     end);
  scored_programs ← apply_diversity_boosting scored_programs;
  enhanced_programs ← enhance_recommendations student_analyzer scored_programs preferences;
  top ← head10 enhanced_programs;
  explanations ← lift (generate_explanations assistant top 10);
  result ← (match enhanced_programs with
            | Some _ =>
                top_programs ← head10 enhanced_programs;
                mret (imap (fun i (ir : nat * Row) =>
                              <["explanation" := VStr (default "" (explanations !! i))]> ir.2)
                           top_programs)
            | None => mret []
            end);
  mret (Recommendations result).

Definition get_recommendations (db : option Database)
  (student_analyzer : Cohort.StudentDataAnalyzer) (request_json : Preferences) : M response :=
  try_except
    (let preferences := request_json in
     if negb (validate_preferences preferences) then mret (Failure 400)
     else
       let preferences := enrich_preferences preferences in
       match db with
       | None => mret (Failure 500)
       | Some db => recommend (assistant_for db preferences) student_analyzer preferences
       end)
    (fun _ => mret (Failure 500)).

End Pipeline.

(** ** Sample data *)

Definition make_row (cells : list (string * value)) : Row := list_to_map cells.

(** Two candidates that differ in cost, rank and country: A costs 20000
    at rank 5 in X, B costs 60000 at rank 300 in Y. *)
Definition candidate (name country : string) (cost rank : Q) : Row :=
  make_row [("name_program", VStr name); ("name_university", VStr ("University of " +:+ country));
            ("field", VStr "Computer Science"); ("level", VStr "Master");
            ("tuition_per_year", VNum cost); ("ranking_global", VNum rank);
            ("country", VStr country); ("language", VStr "English"); ("duration", VNum 2)].

Definition candidate_A : Row := candidate "A" "X" 20000 5.
Definition candidate_B : Row := candidate "B" "Y" 60000 300.

Definition candidate_columns : list string :=
  ["name_program"; "name_university"; "field"; "level"; "tuition_per_year";
   "ranking_global"; "country"; "language"; "duration"].

Definition two_candidates : Table :=
  {| columns := candidate_columns; rows := [(0%nat, candidate_B); (1%nat, candidate_A)] |}.

Definition cost_and_reputation : list (string * Q) :=
  [ ("academic_fit", 0); ("tuition_cost", 1 # 2); ("living_cost", 0);
    ("university_ranking", 1 # 2); ("career_prospects", 0);
    ("location", 0); ("language", 0) ].

Definition ceiling_50000 : Preferences :=
  {| field_of_study := None; degree_level := None; max_tuition := Some 50000;
     max_living_expenses := None; preferred_countries := None;
     language_preference := None; numeric := ∅ |}.

Definition scenario_assistant : Assistant :=
  {| programs := None; universities := None; countries := None;
     user_preferences := ceiling_50000; criteria_weights := cost_and_reputation |}.

(** Floats print as nothing, numbers as nothing, and a pattern is
    searched for as it is written. *)
Definition no_repr : Q -> string := fun _ => "".
Definition no_format : Z -> string := fun _ => "".
Definition literal_search (pattern : string) : res (string -> bool) := Ok (contains pattern).

(** Three historical records: grade averages 2, 3 and 4; the first
    student went to Germany, the second has no destination on record, the
    third went to France. *)
Definition student (gpa : Q) (destination : value) (satisfaction : Q) : Row :=
  make_row [("current_gpa", VNum gpa); ("final_destination_country", destination);
            ("decision_satisfaction_score", VNum satisfaction)].

Definition sample_students : Frame :=
  [(0%nat, student 2 (VStr "Germany") 8);
   (1%nat, student 3 VNaN 3);
   (2%nat, student 4 (VStr "France") 9)].

Definition sample_analyzer : Cohort.StudentDataAnalyzer :=
  {| Cohort.student_data := Some sample_students; Cohort.model := None;
     Cohort.feature_columns := None; Cohort.normalized_features := None |}.

(** The analyzer that [build_recommendation_model] makes of it. *)
Definition sample_built : Cohort.StudentDataAnalyzer :=
  {| Cohort.student_data := Some sample_students;
     Cohort.model := Some {| Cohort.n_neighbors := 3; Cohort.fit_X := [[-1; 0; 1]%R] |};
     Cohort.feature_columns := Some ["current_gpa"];
     Cohort.normalized_features := Some [[-1; 0; 1]%R] |}.

Definition no_preferences : Preferences :=
  {| field_of_study := None; degree_level := None; max_tuition := None;
     max_living_expenses := None; preferred_countries := None;
     language_preference := None; numeric := ∅ |}.

(** A profile with a grade average of 4. *)
Definition gpa_4 : Preferences :=
  {| field_of_study := None; degree_level := None; max_tuition := None;
     max_living_expenses := None; preferred_countries := None;
     language_preference := None; numeric := {["gpa" := 4]} |}.

(** A scored frame of two programs, in Germany and in Japan. *)
Definition scored (name university country field : string) (score : Q) : Row :=
  make_row [("name_program", VStr name); ("name_university", VStr university);
            ("country", VStr country); ("field", VStr field);
            ("final_score", VNum score);
            ("match_percentage", VNum (Num.match_percentage_of score))].

Definition sample_recommendations : Frame :=
  [(0%nat, scored "Robotics" "TU Munich" "Germany" "Engineering" (80 # 100));
   (1%nat, scored "Informatics" "Tokyo Tech" "Japan" "Computer Science" (79 # 100))].

(** Three programs: the first two tie and differ in country, the third
    repeats the country and the field of the first. *)
Definition tied_recommendations : Frame :=
  [(0%nat, scored "Robotics" "TU Munich" "Germany" "Engineering" (80 # 100));
   (1%nat, scored "Informatics" "Tokyo Tech" "Japan" "Computer Science" (80 # 100));
   (2%nat, scored "Mechatronics" "RWTH Aachen" "Germany" "Engineering" (79 # 100))].

(** A scored row as the catalog of the repository yields it: the name
    of the university is in the column [name]. *)
Definition unnamed_row : Row :=
  make_row [("name_program", VStr "Robotics"); ("name", VStr "TU Munich");
            ("country", VStr "Germany"); ("field", VStr "Engineering");
            ("final_score", VNum (80 # 100)); ("match_percentage", VNum 80)].

Definition unnamed_universities : Frame := [(0%nat, unnamed_row)].

(** A frame without countries. *)
Definition no_countries : Frame :=
  [(0%nat, make_row [("name_program", VStr "Robotics"); ("final_score", VNum (80 # 100))])].

(** A catalog of two universities with one programme each, in the
    columns of the repository's schema. *)
Definition sample_universities : Table :=
  {| columns := ["id"; "name"; "country"; "ranking_global"];
     rows := [(0%nat, make_row [("id", VNum 1); ("name", VStr "TU Munich");
                                ("country", VStr "Germany"); ("ranking_global", VNum 5)]);
              (1%nat, make_row [("id", VNum 2); ("name", VStr "Sorbonne");
                                ("country", VStr "France"); ("ranking_global", VNum 300)])] |}.

Definition sample_programs : Table :=
  {| columns := ["id"; "name_program"; "university_id"; "field"; "level"; "language";
                 "duration"; "tuition_per_year"];
     rows := [(0%nat, make_row [("id", VNum 1); ("name_program", VStr "Informatics MSc");
                                ("university_id", VNum 1); ("field", VStr "Computer Science");
                                ("level", VStr "Master"); ("language", VStr "English");
                                ("duration", VNum 2); ("tuition_per_year", VNum 20000)]);
              (1%nat, make_row [("id", VNum 2); ("name_program", VStr "Data Science MSc");
                                ("university_id", VNum 2); ("field", VStr "Computer Science");
                                ("level", VStr "Master"); ("language", VStr "French");
                                ("duration", VNum 2); ("tuition_per_year", VNum 10000)])] |}.

Definition sample_database : Database :=
  {| db_universities := sample_universities; db_programs := sample_programs;
     db_countries := None |}.

(** A request for a master in the given field. *)
Definition master_in (field : string) : Preferences :=
  {| field_of_study := Some field; degree_level := Some "Master"; max_tuition := None;
     max_living_expenses := None; preferred_countries := None;
     language_preference := None; numeric := ∅ |}.

(** What the filter answers when no programme of the sample catalog
    matches: the columns of the join, and no row. *)
Definition no_matches : Table :=
  {| columns := ["id_program"; "name_program"; "university_id"; "field"; "level"; "language";
                 "duration"; "tuition_per_year"; "id_university"; "name"; "country";
                 "ranking_global"];
     rows := [] |}.

(** ** The vocabulary of the properties *)

Definition unit_interval (x : Q) : Prop := 0 <= x <= 1.

(** The seven criteria, in the order of the weights. *)
Definition criteria : list string := map fst default_weights.

(** A row as [score_row] has written the seven scores. *)
Definition with_scores (row : Row) (academic tuition ranking living location language : Q) : Row :=
  <["language_score" := VNum language]>
    (<["location_score" := VNum location]>
      (<["career_prospects_score" := VNum (7 # 10)]>
        (<["living_cost_score" := VNum living]>
          (<["university_ranking_score" := VNum ranking]>
            (<["tuition_cost_score" := VNum tuition]>
              (<["academic_fit_score" := VNum academic]> row)))))).

Definition number_cell (r : Row) (c : string) (x : Q) : Prop := r !! c = Some (VNum x).

Definition seven_cells (cur : Row) (a t r l lo la : Q) : Prop :=
  number_cell cur "academic_fit_score" a /\ number_cell cur "tuition_cost_score" t /\
  number_cell cur "living_cost_score" l /\ number_cell cur "university_ranking_score" r /\
  number_cell cur "career_prospects_score" (7 # 10) /\ number_cell cur "location_score" lo /\
  number_cell cur "language_score" la.

(** Descending order of the scores, for rows that all have one. *)
Definition score_ge (a b : nat * Row) : Prop :=
  exists x y, a.2 !! "final_score" = Some (VNum x) /\ b.2 !! "final_score" = Some (VNum y)
              /\ y <= x.

(** The columns that the scorer writes. *)
Definition score_columns : list string :=
  map (fun c => c +:+ "_score") criteria ++ ["final_score"; "match_percentage"].

(** The scores that the criteria of the assistant give a candidate. *)
Definition rated (repr_float : Q -> string) (self : Assistant) (row : Row)
  (academic tuition ranking living location language : Q) : Prop :=
  let prefs := user_preferences self in
  calculate_academic_fit repr_float row (extract_keywords (default "" (field_of_study prefs)))
  = Ok academic /\
  row_get row "tuition_per_year" ≫= tuition_score (max_tuition prefs) = Ok tuition /\
  row_get row "ranking_global" ≫= ranking_score = Ok ranking /\
  living_cost_score (countries self) (max_living_expenses prefs) row = Ok living /\
  location_score (preferred_countries prefs) row = Ok location /\
  language_score repr_float (language_preference prefs) row = Ok language.

(** The scores of the seven criteria, in the order of [criteria]. *)
Definition by_criterion (academic tuition ranking living location language : Q) : list Q :=
  [academic; tuition; living; ranking; 7 # 10; location; language].

(** [row'] is the candidate [row] as scored: it holds the seven scores
    of the candidate, their weighted sum times the confidence of the
    candidate, and the match percentage of that; the cells of the
    candidate are as they were. *)
Definition aggregated (repr_float : Q -> string) (self : Assistant) (row row' : Row) : Prop :=
  exists academic tuition ranking living location language final_score match_percentage,
    rated repr_float self row academic tuition ranking living location language /\
    seven_cells row' academic tuition ranking living location language /\
    row' !! "final_score" = Some (VNum final_score) /\
    final_score
    == calculate_confidence row
       * sumQ (zip_with Qmult (by_criterion academic tuition ranking living location language)
                              (map snd (criteria_weights self))) /\
    row' !! "match_percentage" = Some (VNum match_percentage) /\
    match_percentage = Num.py_min 100 (Num.round1 (final_score * 100)) /\
    match_percentage <= 100 /\
    match_percentage == Num.round1 (Num.py_min 1 final_score * 100) /\
    (forall c, c ∉ score_columns -> row' !! c = row !! c).

(** Whether a stage answered a frame, and the frame it answered. *)
Definition answered (m : res (option Frame)) : bool :=
  match m with Ok (Some _) => true | _ => false end.

Definition the_frame (m : res (option Frame)) : Frame :=
  match m with Ok (Some out) => out | _ => [] end.

(** The cell of the [k]-th row of a frame in column [c]. *)
Definition cell_at (f : Frame) (k : nat) (c : string) : option value :=
  ir ← f !! k; ir.2 !! c.

(** The scored frame of the scenario: A, of label 1, comes first. *)
Definition two_candidates_scored : Frame :=
  the_frame (score_programs no_repr scenario_assistant (Some two_candidates)).

(** [keeps n m Q]: run from a store of at least [n] objects, [m] leaves
    the first [n] objects as they are, drops none, and ends in an outcome
    that satisfies [Q]. *)
Definition keeps {A : Type} (n : nat) (m : M A) (Q : res A -> Prop) : Prop :=
  forall h : heap, (n <= length h)%nat ->
    exists o h', m h = (o, h') /\ take n h' = take n h /\ (n <= length h')%nat /\ Q o.

Definition returns {A : Type} (P : A -> Prop) (o : res A) : Prop :=
  match o with Ok a => P a | Raise _ => True end.

Definition succeeds {A : Type} (P : A -> Prop) (o : res A) : Prop :=
  match o with Ok a => P a | Raise _ => False end.

(** The cell of [row] in column [c] counts as new after the rows
    [prev]: it was in none of them, or it is NaN. *)
Definition fresh_in (c : string) (prev : Frame) (row : Row) : bool :=
  bool_decide (row !! c = Some VNaN)
  || bool_decide (row !! c ∉ map (fun ir : nat * Row => ir.2 !! c) prev).

(** The bonus of a row that comes after the rows [prev]. *)
Definition diversity_bonus (prev : Frame) (row : Row) : Q :=
  (if fresh_in "country" prev row then 3 # 100 else 0)
  + (if fresh_in "name_university" prev row then 2 # 100 else 0)
  + (if fresh_in "field" prev row then 1 # 100 else 0).

(** A row that the loop can boost: it has the three columns and a
    number for its final score. *)
Definition diversity_ready (row : Row) : Prop :=
  is_Some (row !! "country") /\ is_Some (row !! "name_university") /\
  is_Some (row !! "field") /\ exists x, row !! "final_score" = Some (VNum x).

(** [row'] is [row] as boosted after the rows [prev]. *)
Definition boosted (prev : Frame) (row row' : Row) : Prop :=
  exists x x',
    row !! "final_score" = Some (VNum x) /\
    row' !! "final_score" = Some (VNum x') /\
    x' == x + diversity_bonus prev row /\
    x <= x' /\
    row' !! "match_percentage" = Some (VNum (Num.py_min 100 (Num.round1 (x' * 100)))) /\
    (forall c, c <> "final_score" -> c <> "match_percentage" -> row' !! c = row !! c).

(** The sets of the loop hold the cells of the rows [prev]. *)
Definition seen_of (prev : Frame) (seen : Seen) : Prop :=
  forall v,
    (v ∈ countries_seen seen <-> Some v ∈ map (fun ir : nat * Row => ir.2 !! "country") prev) /\
    (v ∈ universities_seen seen
     <-> Some v ∈ map (fun ir : nat * Row => ir.2 !! "name_university") prev) /\
    (v ∈ fields_seen seen <-> Some v ∈ map (fun ir : nat * Row => ir.2 !! "field") prev).

(** How many of the neighbours went to [country], and how many have a
    destination on record. *)
Definition chose (similar : Frame) (country : value) : nat :=
  length (List.filter (fun ir : nat * Row =>
            match ir.2 !! "final_destination_country", country with
            | Some (VStr d), VStr c => bool_decide (d = c)
            | _, _ => false
            end) similar).

Definition recorded (similar : Frame) : nat :=
  length (List.filter (fun ir : nat * Row =>
            match ir.2 !! "final_destination_country" with
            | Some v => notna v
            | None => false
            end) similar).

Definition popularity_boost (similar : Frame) (country : value) : Q :=
  inject_Z (Z.of_nat (chose similar country))
  / inject_Z (Z.of_nat (Nat.max 1 (recorded similar))) * (5 # 100).

(** A row that the loop can boost. *)
Definition enhance_ready (row : Row) : Prop :=
  is_Some (row !! "country") /\ exists x, row !! "final_score" = Some (VNum x).

(** [row'] is [row] as boosted with the neighbours [similar]. *)
Definition cohort_boosted (similar : Frame) (row row' : Row) : Prop :=
  exists x c,
    row !! "country" = Some c /\
    row !! "final_score" = Some (VNum x) /\
    row' !! "student_data_boost" = Some (VNum (popularity_boost similar c)) /\
    row' !! "final_score" = Some (VNum (x + popularity_boost similar c)) /\
    (is_Some (row !! "match_percentage") ->
     row' !! "match_percentage"
     = Some (VNum (Num.py_min 100 (Num.round1 ((x + popularity_boost similar c) * 100))))).

Definition same_but_explanation (row row' : Row) : Prop :=
  forall c, c <> "explanation" -> row' !! c = row !! c.

Definition some_frame (o : res (option nat)) : Prop := succeeds is_Some o.

(** The scores of a frame, by label. *)
Definition scores (f : Frame) : list (nat * option Q) :=
  map (fun ir : nat * Row => (ir.1, Qred <$> final_key ir.2)) f.

(** ** The catalog of the repository ([data/initialize_database.py]) *)

(** The columns of the tables [universities] and [programs]. *)
Definition universities_columns : list string :=
  ["id"; "name"; "country_id"; "city_id"; "city"; "country"; "ranking_global";
   "ranking_national"; "student_count"; "established_year"; "website"].

Definition programs_columns : list string :=
  ["id"; "name_program"; "university_id"; "field"; "level"; "language"; "duration";
   "tuition_per_year"; "application_fee"; "admission_requirements"].

(** A table read from columns among [cols]: its rows have cells in its
    columns only. *)
Definition read_from (cols : list string) (t : Table) : bool :=
  forallb (fun c => bool_decide (c ∈ cols)) (columns t)
  && forallb (fun ir : nat * Row =>
                forallb (fun cell : string * value => bool_decide (cell.1 ∈ columns t))
                        (map_to_list ir.2))
             (rows t).

(** The table of a filter that answered one, and whether it did. *)
Definition filtered (m : res (option Table)) : bool :=
  match m with Ok (Some _) => true | _ => false end.

Definition the_table (m : res (option Table)) : Table :=
  match m with Ok (Some t) => t | _ => {| columns := []; rows := [] |} end.

(** The request for a master in computing on the sample catalog: what
    the filter answers, and the scored frame. *)
Definition sample_assistant : Assistant :=
  assistant_for sample_database (enrich_preferences (master_in "computer")).

Definition sample_filtered : Table := the_table (filter_programs literal_search sample_assistant).

Definition sample_scored : Frame :=
  the_frame (score_programs no_repr sample_assistant (Some sample_filtered)).

(** What a computation answered, [d] when it raised. *)
Definition got {A : Type} (d : A) (m : res A) : A :=
  match m with Ok a => a | Raise _ => d end.

(** The recommendations of a response, and whether it has some. *)
Definition recommended (m : res response) : list Row :=
  match m with Ok (Recommendations result) => result | _ => [] end.

Definition recommends (m : res response) : bool :=
  match m with Ok (Recommendations _) => true | _ => false end.

(** A character of a keyword: a lower-case one that is no separator. *)
Definition keyword_char (c : ascii) : Prop :=
  lower_ascii c = c /\ c <> ","%char /\ c <> ";"%char.

(** A candidate with the cells that the scorer reads: the name and the
    field of the programme, the country as a string, a language, and
    numbers for the tuition and the rank. *)
Definition complete (row : Row) : Prop :=
  is_Some (row !! "name_program") /\ is_Some (row !! "field") /\
  (exists x, row !! "tuition_per_year" = Some (VNum x)) /\
  (exists x, row !! "ranking_global" = Some (VNum x)) /\
  (exists s, row !! "country" = Some (VStr s)) /\
  is_Some (row !! "language").

(** A table of countries whose living costs are numbers, where it has
    some. *)
Definition costs_are_numbers (countries : option Table) : Prop :=
  match countries with
  | Some cs =>
      Forall (fun ir : nat * Row =>
                match ir.2 !! "average_living_cost" with
                | Some (VStr _) | Some VNone => False
                | _ => True
                end) (rows cs)
  | None => True
  end.

(** * Properties

    ** Numbers *)

Section NumFacts.
Import Num.

Lemma py_max_spec a b : py_max a b == Qmax a b.
Proof.
  unfold py_max. destruct (Qlt_le_dec a b) as [H|H].
  - symmetry. apply Q.max_r. lra.
  - symmetry. apply Q.max_l. lra.
Qed.

Lemma py_min_spec a b : py_min a b == Qmin a b.
Proof.
  unfold py_min. destruct (Qlt_le_dec b a) as [H|H].
  - symmetry. apply Q.min_r. lra.
  - symmetry. apply Q.min_l. lra.
Qed.

Lemma py_min_le_l a b : py_min a b <= a.
Proof. unfold py_min. destruct (Qlt_le_dec b a); lra. Qed.

Lemma py_min_le_r a b : py_min a b <= b.
Proof. unfold py_min. destruct (Qlt_le_dec b a); lra. Qed.

Lemma clamp01_bounds x : 0 <= clamp01 x <= 1.
Proof.
  unfold clamp01, py_min, py_max.
  destruct (Qlt_le_dec 0 x); destruct (Qlt_le_dec _ 1); lra.
Qed.

Lemma clamp01_mono x y : x <= y -> clamp01 x <= clamp01 y.
Proof.
  intros H. unfold clamp01, py_min, py_max.
  destruct (Qlt_le_dec 0 x), (Qlt_le_dec 0 y);
    repeat match goal with |- context [Qlt_le_dec ?a ?b] => destruct (Qlt_le_dec a b) end;
    lra.
Qed.

Lemma clamp01_nonpos x : x <= 0 -> clamp01 x == 0.
Proof.
  intros H. unfold clamp01, py_min, py_max.
  destruct (Qlt_le_dec 0 x); destruct (Qlt_le_dec _ 1); lra.
Qed.

Lemma clamp01_id x : 0 <= x <= 1 -> clamp01 x == x.
Proof.
  intros H. unfold clamp01, py_min, py_max.
  destruct (Qlt_le_dec 0 x); destruct (Qlt_le_dec _ 1); lra.
Qed.

Lemma Qfloor_frac x : 0 <= x - inject_Z (Qfloor x) < 1.
Proof.
  pose proof (Qfloor_le x) as H1. pose proof (Qlt_floor x) as H2.
  rewrite inject_Z_plus in H2. change (inject_Z 1) with 1 in H2. lra.
Qed.

Lemma round_half_even_range x :
  (Qfloor x <= round_half_even x <= Qfloor x + 1)%Z.
Proof.
  unfold round_half_even.
  destruct (Qcompare _ _); [destruct (Z.even _)| |]; lia.
Qed.

Lemma round_half_even_mono x y :
  x <= y -> (round_half_even x <= round_half_even y)%Z.
Proof.
  intros Hxy. pose proof (Qfloor_resp_le _ _ Hxy) as Hf.
  destruct (Z.eq_dec (Qfloor x) (Qfloor y)) as [E|N].
  - unfold round_half_even. rewrite E.
    destruct (Qcompare_spec (x - inject_Z (Qfloor y)) (1 # 2)) as [Hx|Hx|Hx];
    destruct (Qcompare_spec (y - inject_Z (Qfloor y)) (1 # 2)) as [Hy|Hy|Hy];
      try destruct (Z.even (Qfloor y)); try lia; lra.
  - pose proof (round_half_even_range x). pose proof (round_half_even_range y). lia.
Qed.

Lemma round_half_even_Z (n : Z) : round_half_even (inject_Z n) = n.
Proof.
  unfold round_half_even. rewrite Qfloor_Z.
  destruct (Qcompare_spec (inject_Z n - inject_Z n) (1 # 2)) as [H|H|H]; try lra; reflexivity.
Qed.

Lemma round1_mono x y : x <= y -> round1 x <= round1 y.
Proof.
  intros H. unfold round1.
  assert (Hm : (round_half_even (x * 10) <= round_half_even (y * 10))%Z)
    by (apply round_half_even_mono; lra).
  rewrite Zle_Qle in Hm.
  apply Qmult_le_compat_r; [exact Hm | discriminate].
Qed.

Lemma round1_100 : round1 100 == 100.
Proof. reflexivity. Qed.

Lemma match_percentage_le_100 s : match_percentage_of s <= 100.
Proof. apply py_min_le_l. Qed.

(** The cap can be taken before or after rounding. *)
Lemma match_percentage_cap s :
  match_percentage_of s == round1 (py_min 1 s * 100).
Proof.
  unfold match_percentage_of, py_min at 2.
  destruct (Qlt_le_dec s 1) as [H|H].
  - unfold py_min. destruct (Qlt_le_dec _ 100) as [H1|H1]; [reflexivity|].
    assert (round1 (s * 100) <= round1 100) by (apply round1_mono; lra).
    rewrite round1_100 in *. lra.
  - assert (H1 : round1 100 <= round1 (s * 100)) by (apply round1_mono; lra).
    rewrite round1_100 in H1.
    unfold py_min. destruct (Qlt_le_dec _ 100) as [H2|H2]; [lra|].
    symmetry. exact round1_100.
Qed.

End NumFacts.

(** ** The exception monad *)

Lemma bind_Ok {A B} (m : res A) (f : A -> res B) (b : B) :
  m ≫= f = Ok b -> exists a, m = Ok a /\ f a = Ok b.
Proof. destruct m as [a|e]; simpl; [eauto | discriminate]. Qed.

Lemma fmap_Ok {A B} (g : A -> B) (m : res A) (b : B) :
  g <$> m = Ok b -> exists a, m = Ok a /\ b = g a.
Proof. destruct m as [a|e]; simpl; [intros [= <-]; eauto | discriminate]. Qed.

Lemma row_get_Ok (r : Row) c v : row_get r c = Ok v -> r !! c = Some v.
Proof. unfold row_get. destruct (r !! c); [intros [= ->]; reflexivity | discriminate]. Qed.

(** Splits a successful run of the exception monad into its steps. *)
Ltac ok_steps :=
  repeat match goal with
  | H : Ok _ = Ok _ |- _ => injection H as H; try subst
  | H : Raise _ = Ok _ |- _ => discriminate H
  | H : mret _ = Ok _ |- _ => injection H as H; try subst
  | H : _ ≫= _ = Ok _ |- _ =>
      let a := fresh "a" in let Ha := fresh "Ha" in
      apply bind_Ok in H; destruct H as (a & Ha & H)
  | H : _ <$> _ = Ok _ |- _ =>
      let a := fresh "a" in let Ha := fresh "Ha" in
      apply fmap_Ok in H; destruct H as (a & Ha & H); try subst
  end.

(** ** Loops over rows, and sorting *)

Lemma iterrows_Ok {S : Type} (body : S -> nat -> Row -> res (S * Row)) (s s' : S)
  (f f' : Frame) :
  iterrows body s f = (Ok s', f') ->
  Forall2 (fun ir ir' : nat * Row =>
             ir.1 = ir'.1 /\ exists s1 s2, body s1 ir.1 ir.2 = Ok (s2, ir'.2)) f f'.
Proof.
  revert s f'. induction f as [|[idx row] f IH]; intros s f' H; simpl in H.
  - injection H as _ <-. constructor.
  - destruct (body s idx row) as [[s1 row']|e] eqn:Hb; [|discriminate].
    destruct (iterrows body s1 f) as [out f''] eqn:Hrest.
    injection H as -> <-. constructor; [|by eapply IH].
    simpl. split; [reflexivity|]. by exists s, s1.
Qed.

Lemma key_geb_refl a : key_geb a a = true.
Proof. destruct a as [x|]; simpl; [|reflexivity]. apply Qle_bool_iff. lra. Qed.

Lemma key_geb_trans a b c : key_geb a b = true -> key_geb b c = true -> key_geb a c = true.
Proof.
  destruct a as [x|], b as [y|], c as [z|]; simpl; try done.
  rewrite !Qle_bool_iff. lra.
Qed.

Lemma key_geb_total a b : key_geb a b = true \/ key_geb b a = true.
Proof.
  destruct a as [x|], b as [y|]; simpl; auto.
  rewrite !Qle_bool_iff. destruct (Qlt_le_dec x y); [right|left]; lra.
Qed.

#[local] Instance score_desc_trans : Transitive score_desc.
Proof.
  intros a b c. unfold score_desc. rewrite !Is_true_true. apply key_geb_trans.
Qed.

#[local] Instance score_desc_total : Total score_desc.
Proof.
  intros a b. unfold score_desc. rewrite !Is_true_true. apply key_geb_total.
Qed.

Lemma insert_desc_Permutation (x : nat * Row) (l : Frame) : insert_desc x l ≡ₚ x :: l.
Proof.
  induction l as [|y l IH]; simpl; [done|].
  destruct (key_geb _ _); [done|]. rewrite IH. apply perm_swap.
Qed.

Lemma sort_desc_Permutation (f : Frame) : sort_desc f ≡ₚ f.
Proof.
  induction f as [|x f IH]; simpl; [done|]. by rewrite insert_desc_Permutation, IH.
Qed.

Lemma insert_desc_sorted (x : nat * Row) (l : Frame) :
  StronglySorted score_desc l -> StronglySorted score_desc (insert_desc x l).
Proof.
  induction 1 as [|y l Hs IH Hy]; simpl.
  - repeat constructor.
  - destruct (key_geb (final_key x.2) (final_key y.2)) eqn:E.
    + assert (Hxy : score_desc x y) by (unfold score_desc; by rewrite E).
      constructor; [by constructor|]. constructor; [exact Hxy|].
      eapply Forall_impl; [exact Hy|]. intros z Hz. by etrans.
    + constructor; [exact IH|]. rewrite insert_desc_Permutation. constructor; [|exact Hy].
      destruct (key_geb_total (final_key x.2) (final_key y.2)) as [H|H]; [congruence|].
      unfold score_desc. by rewrite H.
Qed.

Lemma sort_desc_sorted (f : Frame) : StronglySorted score_desc (sort_desc f).
Proof.
  induction f as [|x f IH]; simpl; [constructor|]. by apply insert_desc_sorted.
Qed.

Lemma sort_values_Ok (f out : Frame) :
  sort_values f = Ok out -> StronglySorted score_desc out /\ out ≡ₚ f.
Proof.
  unfold sort_values. destruct (frame_has f "final_score"); [|discriminate].
  intros [= <-]. split.
  - apply sort_desc_sorted.
  - apply sort_desc_Permutation.
Qed.

(** ** The criterion scores *)

Section ScorerFacts.

Variable repr_float : Q -> string.

Lemma Qle_bool_true x y : Qle_bool x y = true <-> x <= y.
Proof. apply Qle_bool_iff. Qed.

Lemma Qle_bool_false x y : Qle_bool x y = false <-> y < x.
Proof.
  split; intros H.
  - apply Qnot_le_lt. intros Hle. apply Qle_bool_iff in Hle. congruence.
  - destruct (Qle_bool x y) eqn:E; [|reflexivity].
    apply Qle_bool_iff in E. lra.
Qed.

Lemma tuition_score_eq ceiling x :
  0 < ceiling ->
  tuition_score (Some ceiling) (VNum x)
  = Ok (if Qle_bool x 0 then 1 else Num.clamp01 ((ceiling - x) / ceiling)).
Proof.
  intros Hc. unfold tuition_score, headroom. simpl.
  destruct (Qle_bool x 0); [reflexivity|].
  destruct (Qeq_bool ceiling 0) eqn:E; [|reflexivity].
  apply Qeq_bool_iff in E. lra.
Qed.

Lemma headroom_mono ceiling x y :
  0 < ceiling -> x <= y -> (ceiling - y) / ceiling <= (ceiling - x) / ceiling.
Proof.
  intros Hc Hxy. unfold Qdiv. apply Qmult_le_compat_r; [lra|].
  apply Qlt_le_weak, Qinv_lt_0_compat, Hc.
Qed.

Lemma headroom_nonpos ceiling x :
  0 < ceiling -> ceiling <= x -> (ceiling - x) / ceiling <= 0.
Proof.
  intros Hc Hx.
  assert (H : (ceiling - x) * / ceiling <= 0 * / ceiling).
  { apply Qmult_le_compat_r; [lra|]. apply Qlt_le_weak, Qinv_lt_0_compat, Hc. }
  rewrite Qmult_0_l in H. exact H.
Qed.

(** C6.  For a positive ceiling the tuition score of a cost is 1 when the
    cost is at most 0 and [clamp((ceiling - cost) / ceiling, 0, 1)]
    otherwise; it does not increase with the cost, and it is 0 from the
    ceiling on. *)
Theorem cost_fit_formula_monotone_zero (ceiling : Q) :
  0 < ceiling ->
  exists cost_fit : Q -> Q,
    (forall x, tuition_score (Some ceiling) (VNum x) = Ok (cost_fit x)) /\
    (forall x, x <= 0 -> cost_fit x == 1) /\
    (forall x, 0 < x -> cost_fit x == Qmin 1 (Qmax 0 ((ceiling - x) / ceiling))) /\
    (forall x y, x <= y -> cost_fit y <= cost_fit x) /\
    (forall x, ceiling <= x -> cost_fit x == 0).
Proof.
  intros Hc.
  exists (fun x => if Qle_bool x 0 then 1 else Num.clamp01 ((ceiling - x) / ceiling)).
  split; [intros x; by apply tuition_score_eq|].
  split; [|split; [|split]].
  - intros x Hx. apply Qle_bool_true in Hx. by rewrite Hx.
  - intros x Hx. apply Qle_bool_false in Hx. rewrite Hx.
    unfold Num.clamp01. by rewrite py_min_spec, py_max_spec.
  - intros x y Hxy.
    destruct (Qle_bool x 0) eqn:Ex, (Qle_bool y 0) eqn:Ey; try lra.
    + apply clamp01_bounds.
    + apply Qle_bool_true in Ey. apply Qle_bool_false in Ex. lra.
    + apply clamp01_mono, headroom_mono; done.
  - intros x Hx.
    destruct (Qle_bool x 0) eqn:Ex.
    + apply Qle_bool_true in Ex. lra.
    + apply clamp01_nonpos, headroom_nonpos; done.
Qed.

Lemma cost_fit_formula_monotone_zero_witness :
  exists cost_fit : Q -> Q,
    (forall x, tuition_score (Some 50000) (VNum x) = Ok (cost_fit x)) /\
    (forall x, x <= 0 -> cost_fit x == 1) /\
    (forall x, 0 < x -> cost_fit x == Qmin 1 (Qmax 0 ((50000 - x) / 50000))) /\
    (forall x y, x <= y -> cost_fit y <= cost_fit x) /\
    (forall x, 50000 <= x -> cost_fit x == 0).
Proof. apply (cost_fit_formula_monotone_zero 50000). reflexivity. Defined.



Lemma ratio_nonneg (m n : nat) : 0 <= inject_Z (Z.of_nat m) / inject_Z (Z.of_nat n).
Proof.
  unfold Qdiv. apply Qmult_le_0_compat.
  - change 0 with (inject_Z 0). rewrite <- Zle_Qle. lia.
  - apply Qinv_le_0_compat. change 0 with (inject_Z 0). rewrite <- Zle_Qle. lia.
Qed.

Lemma ratio_le_1 (m n : nat) :
  (m <= n)%nat -> inject_Z (Z.of_nat m) / inject_Z (Z.of_nat n) <= 1.
Proof.
  intros Hmn. destruct n as [|n].
  - replace m with 0%nat by lia. discriminate.
  - apply Qle_shift_div_r.
    + change 0 with (inject_Z 0). rewrite <- Zlt_Qlt. lia.
    + rewrite Qmult_1_l. rewrite <- Zle_Qle. lia.
Qed.

Lemma calculate_academic_fit_range row kws s :
  calculate_academic_fit repr_float row kws = Ok s -> unit_interval s.
Proof.
  unfold calculate_academic_fit, unit_interval. destruct kws as [|k kws].
  - intros [= <-]. lra.
  - intros H. ok_steps.
    match goal with |- context [Num.py_min 1 ?q] => set (x := q) end.
    assert (0 <= x) by apply ratio_nonneg.
    unfold Num.py_min. destruct (Qlt_le_dec x 1); lra.
Qed.

Lemma clamp01_nan_range x : unit_interval (clamp01_nan x).
Proof. destruct x as [x|]; simpl; [apply clamp01_bounds | unfold unit_interval; lra]. Qed.

Lemma tuition_score_range ceiling cell s :
  tuition_score ceiling cell = Ok s -> unit_interval s.
Proof.
  unfold tuition_score. intros H. ok_steps.
  destruct a as [c|].
  - destruct (Qle_bool c 0).
    + ok_steps. unfold unit_interval. lra.
    + ok_steps. apply clamp01_nan_range.
  - ok_steps. apply clamp01_nan_range.
Qed.

Lemma ranking_score_range cell s : ranking_score cell = Ok s -> unit_interval s.
Proof.
  unfold ranking_score, unit_interval. intros H. ok_steps.
  destruct a as [r|]; ok_steps; [|lra].
  repeat match goal with |- context [if ?b then _ else _] => destruct b end; lra.
Qed.

Lemma living_cost_score_range countries ceiling row s :
  living_cost_score countries ceiling row = Ok s -> unit_interval s.
Proof.
  unfold living_cost_score, unit_interval. intros H.
  destruct countries as [cs|]; [|ok_steps; lra].
  destruct (bool_decide _); [|ok_steps; lra].
  ok_steps.
  destruct (List.filter _ _) as [|[i first] rest]; [ok_steps; lra|].
  destruct (bool_decide _); [|ok_steps; lra].
  destruct ceiling as [m|].
  - destruct (Qlt_le_dec 0 m); ok_steps; [apply clamp01_nan_range | lra].
  - ok_steps. lra.
Qed.

Lemma location_score_range preferred row s :
  location_score preferred row = Ok s -> unit_interval s.
Proof.
  unfold location_score, unit_interval. intros H.
  destruct preferred as [[|p ps]|]; try (ok_steps; lra).
  ok_steps. destruct (bool_decide _); ok_steps; [lra|].
  destruct a0; lra.
Qed.

Lemma language_score_range pref row s :
  language_score repr_float pref row = Ok s -> unit_interval s.
Proof.
  unfold language_score, unit_interval. intros H.
  repeat case_decide; ok_steps; try lra;
    match goal with |- context [if ?b then _ else _] => destruct b end; lra.
Qed.


Lemma score_row_inv self kws row row' :
  score_row repr_float self kws row = Ok row' ->
  exists a t r l lo la fs,
    unit_interval a /\ unit_interval t /\ unit_interval r /\ unit_interval l /\
    unit_interval lo /\ unit_interval la /\
    weighted_sum (criteria_weights self) (with_scores row a t r l lo la) (Some 0) = Ok fs /\
    row' = <["match_percentage" :=
               match_percentage_cell ((fun s => s * calculate_confidence row) <$> fs)]>
             (<["final_score" := float_cell ((fun s => s * calculate_confidence row) <$> fs)]>
               (with_scores row a t r l lo la)).
Proof.
  unfold score_row. intros H. ok_steps.
  match goal with
  | Ha : calculate_academic_fit _ _ _ = Ok ?a,
    Ht : tuition_score _ _ = Ok ?t,
    Hr : ranking_score _ = Ok ?r,
    Hl : living_cost_score _ _ _ = Ok ?l,
    Hlo : location_score _ _ = Ok ?lo,
    Hla : language_score _ _ _ = Ok ?la,
    Hw : weighted_sum _ _ _ = Ok ?fs |- _ =>
      exists a, t, r, l, lo, la, fs;
      apply calculate_academic_fit_range in Ha; apply tuition_score_range in Ht;
      apply ranking_score_range in Hr; apply living_cost_score_range in Hl;
      apply location_score_range in Hlo; apply language_score_range in Hla
  end.
  repeat split; try assumption; try reflexivity; unfold unit_interval in *; tauto.
Qed.

Ltac lookup_scores :=
  unfold number_cell, with_scores;
  repeat (rewrite lookup_insert_ne by discriminate);
  try apply lookup_insert_eq.

Lemma with_scores_cells row a t r l lo la :
  seven_cells (with_scores row a t r l lo la) a t r l lo la.
Proof. repeat split; lookup_scores. Qed.

Lemma final_row_cells row a t r l lo la v1 v2 :
  seven_cells (<["match_percentage" := v1]> (<["final_score" := v2]>
                 (with_scores row a t r l lo la))) a t r l lo la.
Proof. repeat split; lookup_scores. Qed.

Lemma seven_cells_criteria row a t r l lo la c :
  seven_cells row a t r l lo la ->
  unit_interval a -> unit_interval t -> unit_interval r -> unit_interval l ->
  unit_interval lo -> unit_interval la ->
  c ∈ criteria ->
  exists s, number_cell row (c +:+ "_score") s /\ 0 <= s <= 1.
Proof.
  intros (H1 & H2 & H3 & H4 & H5 & H6 & H7) Ha Ht Hr Hl Hlo Hla Hc.
  unfold criteria in Hc. simpl in Hc.
  repeat (apply elem_of_cons in Hc as [->|Hc]); [..|by apply elem_of_nil in Hc];
    cbv [String.append]; eexists; (split; [eassumption|]); try assumption.
  unfold unit_interval; lra.
Qed.

Lemma valid_fields_le row : (valid_fields row <= 6)%nat.
Proof. unfold valid_fields. apply (filter_length_le _ key_fields). Qed.

Lemma calculate_confidence_eq row :
  calculate_confidence row
  == (7 # 10) + (3 # 10) * (inject_Z (Z.of_nat (valid_fields row)) / 6).
Proof.
  unfold calculate_confidence.
  change (inject_Z (Z.of_nat (length key_fields))) with 6. ring.
Qed.

Lemma calculate_confidence_range row : 7 # 10 <= calculate_confidence row <= 1.
Proof.
  rewrite calculate_confidence_eq.
  pose proof (ratio_nonneg (valid_fields row) 6) as H0.
  pose proof (ratio_le_1 (valid_fields row) 6 (valid_fields_le row)) as H1.
  change (inject_Z (Z.of_nat 6)) with 6 in *. lra.
Qed.

Lemma score_programs_inv self fp out :
  score_programs repr_float self (Some fp) = Ok (Some out) ->
  exists kws scored,
    Forall2 (fun ir ir' : nat * Row =>
               ir.1 = ir'.1 /\ score_row repr_float self kws ir.2 = Ok ir'.2) (rows fp) scored /\
    StronglySorted score_desc out /\ out ≡ₚ scored.
Proof.
  unfold score_programs. simpl. destruct (rows fp) as [|ir f] eqn:Hrows; [discriminate|].
  set (kws := extract_keywords _).
  destruct (iterrows _ _ _) as [[[]|e] scored] eqn:Hloop; [|discriminate].
  intros H. ok_steps. apply sort_values_Ok in Ha as [Hs Hp].
  injection H as <-.
  exists kws, scored. split; [|done].
  apply iterrows_Ok in Hloop. eapply Forall2_impl; [exact Hloop|].
  intros [i r] [i' r'] [Hi (s1 & s2 & Hb)]. simpl in *. split; [done|].
  ok_steps. injection Hb as _ <-. done.
Qed.



Lemma StronglySorted_impl_Forall {A} (R R' : A -> A -> Prop) (P : A -> Prop) l :
  (forall a b, P a -> P b -> R a b -> R' a b) ->
  Forall P l -> StronglySorted R l -> StronglySorted R' l.
Proof.
  intros HR HP Hs. induction Hs as [|a l Hs IH Ha]; [constructor|].
  apply Forall_cons in HP as [Pa Pl]. constructor; [by apply IH|].
  rewrite Forall_forall in *. intros b Hb. apply HR; auto.
Qed.

Lemma score_desc_ge (l : Frame) :
  Forall (fun ir : nat * Row => exists x, ir.2 !! "final_score" = Some (VNum x)) l ->
  StronglySorted score_desc l -> StronglySorted score_ge l.
Proof.
  apply StronglySorted_impl_Forall.
  intros a b [x Hx] [y Hy]. unfold score_desc, score_ge, final_key.
  rewrite Hx, Hy. simpl. intros H. apply Is_true_true, Qle_bool_iff in H. eauto.
Qed.

Lemma score_row_rated self kws row row' :
  kws = extract_keywords (default "" (field_of_study (user_preferences self))) ->
  score_row repr_float self kws row = Ok row' ->
  exists a t r l lo la fs,
    rated repr_float self row a t r l lo la /\
    weighted_sum (criteria_weights self) (with_scores row a t r l lo la) (Some 0) = Ok fs /\
    row' = <["match_percentage" :=
               match_percentage_cell ((fun s => s * calculate_confidence row) <$> fs)]>
             (<["final_score" := float_cell ((fun s => s * calculate_confidence row) <$> fs)]>
               (with_scores row a t r l lo la)).
Proof.
  intros -> H. unfold score_row in H. ok_steps.
  match goal with
  | Ha : calculate_academic_fit _ _ _ = Ok ?a,
    Hc : row_get _ "tuition_per_year" = Ok _,
    Ht : tuition_score _ _ = Ok ?t,
    Hg : row_get _ "ranking_global" = Ok _,
    Hr : ranking_score _ = Ok ?r,
    Hl : living_cost_score _ _ _ = Ok ?l,
    Hlo : location_score _ _ = Ok ?lo,
    Hla : language_score _ _ _ = Ok ?la,
    Hw : weighted_sum _ _ _ = Ok ?fs |- _ =>
      exists a, t, r, l, lo, la, fs;
      split; [unfold rated; rewrite Hc, Hg; repeat split; assumption|]
  end.
  split; [assumption|reflexivity].
Qed.

Lemma weighted_sum_by_criterion (w : list (string * Q)) cur a t r l lo la fs :
  seven_cells cur a t r l lo la ->
  map fst w = criteria ->
  weighted_sum w cur (Some 0) = Ok fs ->
  exists x, fs = Some x /\
    x == sumQ (zip_with Qmult (by_criterion a t r l lo la) (map snd w)).
Proof.
  intros (H1 & H2 & H3 & H4 & H5 & H6 & H7) Hw.
  unfold number_cell in *.
  do 7 (destruct w as [|[? ?] w]; [discriminate Hw|]).
  destruct w; [|discriminate Hw].
  injection Hw as -> -> -> -> -> -> ->.
  unfold weighted_sum, row_get. cbv [String.append].
  rewrite H1, H2, H3, H4, H5, H6, H7. simpl.
  intros [= <-]. eexists; split; [reflexivity|]. simpl. ring.
Qed.

Lemma scored_row_keeps row a t r l lo la v1 v2 c :
  c ∉ score_columns ->
  (<["match_percentage" := v1]> (<["final_score" := v2]> (with_scores row a t r l lo la))) !! c
  = row !! c.
Proof.
  intros Hc. unfold with_scores.
  rewrite !lookup_insert_ne; [reflexivity|..];
    intros <-; apply Hc; unfold score_columns, criteria; simpl; set_solver.
Qed.

Lemma score_row_aggregated self kws row row' :
  kws = extract_keywords (default "" (field_of_study (user_preferences self))) ->
  map fst (criteria_weights self) = criteria ->
  score_row repr_float self kws row = Ok row' ->
  aggregated repr_float self row row'.
Proof.
  intros Hk Hw H.
  apply (score_row_rated _ _ _ _ Hk) in H as (a & t & r & l & lo & la & fs & Hrated & Hsum & ->).
  eapply weighted_sum_by_criterion in Hsum as (x & -> & Hx);
    [|apply with_scores_cells|exact Hw].
  simpl in *. exists a, t, r, l, lo, la. eexists _, _.
  split; [exact Hrated|]. split; [apply final_row_cells|].
  split; [|split; [|split; [|split; [reflexivity|split; [|split]]]]].
  - rewrite lookup_insert_ne by discriminate. apply lookup_insert_eq.
  - set (total := sumQ _) in *. clearbody total. rewrite Hx. ring.
  - apply lookup_insert_eq.
  - apply match_percentage_le_100.
  - apply match_percentage_cap.
  - intros c Hc. by apply scored_row_keeps.
Qed.

Lemma score_programs_keywords self fp out :
  score_programs repr_float self (Some fp) = Ok (Some out) ->
  exists scored,
    Forall2 (fun ir ir' : nat * Row =>
               ir.1 = ir'.1 /\
               score_row repr_float self
                 (extract_keywords (default "" (field_of_study (user_preferences self))))
                 ir.2 = Ok ir'.2) (rows fp) scored /\
    StronglySorted score_desc out /\ out ≡ₚ scored.
Proof.
  unfold score_programs. simpl. destruct (rows fp) as [|ir f] eqn:Hrows; [discriminate|].
  destruct (iterrows _ _ _) as [[[]|e] scored] eqn:Hloop; [|discriminate].
  intros H. ok_steps. apply sort_values_Ok in Ha as [Hs Hp].
  injection H as <-.
  exists scored. split; [|done].
  apply iterrows_Ok in Hloop. eapply Forall2_impl; [exact Hloop|].
  intros [i r] [i' r'] [Hi (s1 & s2 & Hb)]. simpl in *. split; [done|].
  ok_steps. injection Hb as _ <-. done.
Qed.

(** C1.  Every scored row comes from a candidate, under its label.  It
    holds the scores that the seven criteria give the candidate, and the
    candidate's own cells as they were; its final score is the
    confidence of the candidate times the sum of the seven scores, each
    times the weight of its criterion; its match percentage is
    [min(100, round(final_score * 100, 1))], which is at most 100 and
    equals [round(min(1, final_score) * 100, 1)].  The scored frame is in
    descending order of the final score. *)
Theorem final_score_percentage_and_order self fp out :
  map fst (criteria_weights self) = criteria ->
  score_programs repr_float self (Some fp) = Ok (Some out) ->
  exists scored,
    Forall2 (fun ir ir' : nat * Row =>
               ir.1 = ir'.1 /\ aggregated repr_float self ir.2 ir'.2)
            (rows fp) scored /\
    out ≡ₚ scored /\
    StronglySorted score_ge out.
Proof.
  intros Hw H. apply score_programs_keywords in H as (scored & Hf & Hs & Hp).
  assert (Hagg : Forall2 (fun ir ir' : nat * Row =>
                   ir.1 = ir'.1 /\ aggregated repr_float self ir.2 ir'.2)
                 (rows fp) scored).
  { eapply Forall2_impl; [exact Hf|]. intros ir ir' [Hi Hrow]. split; [done|].
    by eapply score_row_aggregated. }
  exists scored. split; [exact Hagg|]. split; [exact Hp|].
  apply score_desc_ge; [|exact Hs].
  rewrite Hp. eapply Forall2_Forall_r; [exact Hagg|].
  apply Forall_forall. intros ir _ ir' [_ Hrow].
  destruct Hrow as (a & t & r & l & lo & la & x & mp & _ & _ & Hx & _). eauto.
Qed.

End ScorerFacts.
(** ** The weights *)

Section WeightFacts.

Lemma dict_set_fresh {V} (k : string) (v : V) (d : list (string * V)) :
  k ∉ map fst d -> dict_set k v d = d ++ [(k, v)].
Proof.
  induction d as [|[k' v'] d IH]; simpl; intros Hk; [reflexivity|].
  apply not_elem_of_cons in Hk as [Hne Hk].
  case_decide; [congruence|]. by rewrite IH.
Qed.

Lemma dict_set_found {V} (k : string) (v old : V) (pre rest : list (string * V)) :
  k ∉ map fst pre -> dict_set k v (pre ++ (k, old) :: rest) = pre ++ (k, v) :: rest.
Proof.
  induction pre as [|[k' v'] pre IH]; simpl; intros Hk.
  - case_decide; [reflexivity|congruence].
  - apply not_elem_of_cons in Hk as [Hne Hk].
    case_decide; [congruence|]. by rewrite IH.
Qed.

Lemma read_ratings_zip (keys : list string) (ratings : list Z) (acc : list (string * Z)) :
  NoDup keys -> (forall k, k ∈ keys -> k ∉ map fst acc) ->
  (length keys <= length ratings)%nat ->
  read_ratings keys ratings acc = Ok (acc ++ zip keys ratings).
Proof.
  revert ratings acc. induction keys as [|k keys IH]; intros ratings acc Hnd Hfresh Hlen.
  - simpl. by rewrite app_nil_r.
  - destruct ratings as [|r ratings]; [simpl in Hlen; lia|]. simpl.
    apply NoDup_cons in Hnd as [Hk Hnd].
    rewrite dict_set_fresh by (apply Hfresh; left).
    rewrite IH; [by rewrite <- app_assoc|done| |simpl in Hlen; lia].
    intros k' Hk'. rewrite map_app. simpl. intros Hin.
    apply elem_of_app in Hin as [Hin|Hin].
    + eapply Hfresh; [right; exact Hk'|exact Hin].
    + apply list_elem_of_singleton in Hin as ->. done.
Qed.

Lemma normalize_weights_zip (keys : list string) (rs : list Z) (total : Z)
  (pre rest : list (string * Q)) :
  total <> 0%Z -> NoDup keys -> (forall k, k ∈ keys -> k ∉ map fst pre) ->
  map fst rest = keys -> length rs = length keys ->
  normalize_weights (zip keys rs) total (pre ++ rest)
  = Ok (pre ++ zip keys (map (fun r => inject_Z r / inject_Z total) rs)).
Proof.
  intros Ht. revert rs pre rest.
  induction keys as [|k keys IH]; intros rs pre rest Hnd Hfresh Hrest Hlen.
  - destruct rest; [|discriminate]. reflexivity.
  - destruct rs as [|r rs]; [discriminate|]. destruct rest as [|[k' old] rest]; [discriminate|].
    injection Hrest as -> Hrest. injection Hlen as Hlen. simpl.
    destruct (Z.eqb_spec total 0); [done|].
    apply NoDup_cons in Hnd as [Hk Hnd].
    rewrite dict_set_found by (apply Hfresh; left).
    rewrite (cons_middle _ pre rest), app_assoc.
    rewrite IH; [by rewrite <- app_assoc|done| |done|done].
    intros k' Hk'. rewrite map_app. simpl. intros Hin.
    apply elem_of_app in Hin as [Hin|Hin].
    + eapply Hfresh; [right; exact Hk'|exact Hin].
    + apply list_elem_of_singleton in Hin as ->. done.
Qed.

Lemma sumQ_ratio (rs : list Z) (total : Z) :
  sumQ (map (fun r => inject_Z r / inject_Z total) rs) == inject_Z (sumZ rs) / inject_Z total.
Proof.
  induction rs as [|r rs IH]; simpl.
  - unfold Qdiv. ring.
  - rewrite IH, inject_Z_plus. unfold Qdiv. ring.
Qed.

Lemma snd_zip_take {A B} (l : list A) (k : list B) :
  map snd (zip l k) = take (length l) k.
Proof.
  revert k. induction l as [|a l IH]; intros [|b k]; simpl; try reflexivity.
  by rewrite IH.
Qed.

Lemma fst_zip_le {A B} (l : list A) (k : list B) :
  (length l <= length k)%nat -> map fst (zip l k) = l.
Proof.
  revert k. induction l as [|a l IH]; intros [|b k]; simpl; intros H; try reflexivity; try lia.
  rewrite IH; [reflexivity|lia].
Qed.

(** C5.  The weights that [__init__] sets sum to 1.  When the ratings
    that are read, one per criterion, have a positive total, the update
    of [collect_preferences] succeeds, keeps the criteria, makes every
    weight its rating over the total, and the new weights sum to 1. *)
Theorem weights_sum_to_one (weights : list (string * Q)) (ratings : list Z) :
  NoDup (map fst weights) ->
  (length weights <= length ratings)%nat ->
  (0 < sumZ (take (length weights) ratings))%Z ->
  sumQ (map snd default_weights) == 1 /\
  exists weights',
    update_weights weights ratings = Ok weights' /\
    map fst weights' = map fst weights /\
    map snd weights'
    = map (fun r => inject_Z r / inject_Z (sumZ (take (length weights) ratings)))
          (take (length weights) ratings) /\
    sumQ (map snd weights') == 1.
Proof.
  intros Hnd Hlen Hpos. split; [reflexivity|].
  set (keys := map fst weights). set (rs := take (length weights) ratings) in *.
  assert (Hk : length keys = length weights) by apply length_map.
  assert (Hrs : length rs = length keys).
  { unfold rs. rewrite length_take. lia. }
  unfold update_weights. fold keys.
  rewrite read_ratings_zip; [|done|intros k _; apply not_elem_of_nil|lia]. simpl.
  rewrite snd_zip_take, Hk. fold rs.
  assert (Hzip : zip keys ratings = zip keys rs).
  { unfold rs. rewrite <- Hk. clear. revert ratings.
    induction keys as [|k keys IH]; intros [|r ratings]; simpl; try reflexivity.
    by rewrite IH. }
  rewrite Hzip.
  rewrite (normalize_weights_zip keys rs _ [] weights);
    [|lia|done|intros k _; apply not_elem_of_nil|done|done].
  eexists. split; [reflexivity|]. simpl.
  rewrite fst_zip_le by (rewrite length_map; lia).
  split; [reflexivity|].
  rewrite snd_zip_take, <- Hrs, <- (length_map (fun r => inject_Z r / inject_Z (sumZ rs)) rs),
    firstn_all.
  split; [reflexivity|].
  rewrite sumQ_ratio. field.
  intros H. unfold Qeq in H. simpl in H. lia.
Qed.

Lemma weights_sum_to_one_witness :
  sumQ (map snd default_weights) == 1 /\
  exists weights',
    update_weights default_weights [5; 8; 3; 7; 6; 4; 2]%Z = Ok weights' /\
    map fst weights' = map fst default_weights /\
    map snd weights'
    = map (fun r => inject_Z r / inject_Z (sumZ (take 7 [5; 8; 3; 7; 6; 4; 2]%Z)))
          (take 7 [5; 8; 3; 7; 6; 4; 2]%Z) /\
    sumQ (map snd weights') == 1.
Proof.
  apply (weights_sum_to_one default_weights [5; 8; 3; 7; 6; 4; 2]%Z).
  - apply (bool_decide_unpack _). vm_compute. exact I.
  - simpl. lia.
  - reflexivity.
Defined.

End WeightFacts.

(** ** The scenario of two candidates *)

Example lower_example : lower "Computer Science" = "computer science".
Proof. reflexivity. Qed.

Example contains_example :
  contains "english" "english/french" = true /\ contains "english" "german" = false.
Proof. split; reflexivity. Qed.

Example split_example : split "  data  science, ai " = ["data"; "science,"; "ai"].
Proof. reflexivity. Qed.

Example extract_keywords_example :
  extract_keywords "Data Science, AI; Machine Learning"
  = ["data"; "science"; "machine"; "learning"].
Proof. reflexivity. Qed.

Lemma answered_eq (m : res (option Frame)) : answered m = true -> m = Ok (Some (the_frame m)).
Proof. destruct m as [[out|]|e]; simpl; [reflexivity|discriminate..]. Qed.

Lemma head_elem {A} (l : list A) (d : A) : l <> [] -> default d (head l) ∈ l.
Proof. destruct l as [|a l]; [done|]. intros _. simpl. left. Qed.

Lemma two_candidates_scored_eq :
  score_programs no_repr scenario_assistant (Some two_candidates)
  = Ok (Some two_candidates_scored).
Proof. apply answered_eq. vm_compute. reflexivity. Qed.

Lemma final_score_percentage_and_order_witness :
  exists scored,
    Forall2 (fun ir ir' : nat * Row =>
               ir.1 = ir'.1 /\ aggregated no_repr scenario_assistant ir.2 ir'.2)
            (rows two_candidates) scored /\
    two_candidates_scored ≡ₚ scored /\
    StronglySorted score_ge two_candidates_scored.
Proof.
  apply (final_score_percentage_and_order no_repr scenario_assistant two_candidates).
  - reflexivity.
  - apply answered_eq. vm_compute. reflexivity.
Defined.


(** C9, as the specification states it, fails on the cost fit of A:
    20000 under a ceiling of 50000 scores 0.6, not 1. *)
Lemma scenario_cost_fit_A_is_not_1 :
  tuition_score (Some 50000) (VNum 20000) = Ok (30000 # 50000)
  /\ ~ (30000 # 50000 == 1).
Proof. split; [reflexivity | discriminate]. Qed.

(** C9, amended.  In the scenario the cost fit is 0.6 for A and 0 for B,
    the reputation fit is 1 for A and 0.5 for B, the final score of A is
    above that of B, and the scored frame lists A first. *)
Theorem scenario_ranks_A_first (repr_float : Q -> string) :
  exists (a b : Row) (cost_a cost_b rank_a rank_b final_a final_b : Q),
    score_programs repr_float scenario_assistant (Some two_candidates)
    = Ok (Some [(1%nat, a); (0%nat, b)]) /\
    a !! "name_program" = Some (VStr "A") /\ b !! "name_program" = Some (VStr "B") /\
    a !! "tuition_cost_score" = Some (VNum cost_a) /\ cost_a == 6 # 10 /\
    b !! "tuition_cost_score" = Some (VNum cost_b) /\ cost_b == 0 /\
    a !! "university_ranking_score" = Some (VNum rank_a) /\ rank_a == 1 /\
    b !! "university_ranking_score" = Some (VNum rank_b) /\ rank_b == 5 # 10 /\
    a !! "final_score" = Some (VNum final_a) /\
    b !! "final_score" = Some (VNum final_b) /\
    final_b < final_a.
Proof.
  set (m := score_programs repr_float scenario_assistant (Some two_candidates)).
  assert (Hm : m = Ok (Some (the_frame m))) by (apply answered_eq; vm_compute; reflexivity).
  assert (Hl : map fst (the_frame m) = [1; 0]%nat) by (vm_compute; reflexivity).
  eassert (Na : cell_at (the_frame m) 0 "name_program" = _) by (vm_compute; reflexivity).
  eassert (Nb : cell_at (the_frame m) 1 "name_program" = _) by (vm_compute; reflexivity).
  eassert (Ca : cell_at (the_frame m) 0 "tuition_cost_score" = _) by (vm_compute; reflexivity).
  eassert (Cb : cell_at (the_frame m) 1 "tuition_cost_score" = _) by (vm_compute; reflexivity).
  eassert (Ra : cell_at (the_frame m) 0 "university_ranking_score" = _)
    by (vm_compute; reflexivity).
  eassert (Rb : cell_at (the_frame m) 1 "university_ranking_score" = _)
    by (vm_compute; reflexivity).
  eassert (Fa : cell_at (the_frame m) 0 "final_score" = _) by (vm_compute; reflexivity).
  eassert (Fb : cell_at (the_frame m) 1 "final_score" = _) by (vm_compute; reflexivity).
  rewrite Hm. clear Hm.
  destruct (the_frame m) as [|[i a] [|[j b] [|]]]; try discriminate Hl.
  injection Hl as -> ->. unfold cell_at in *. simpl in *.
  exists a, b. eexists _, _, _, _, _, _.
  split; [reflexivity|].
  split; [exact Na|]. split; [exact Nb|].
  split; [exact Ca|]. split; [reflexivity|].
  split; [exact Cb|]. split; [reflexivity|].
  split; [exact Ra|]. split; [reflexivity|].
  split; [exact Rb|]. split; [reflexivity|].
  split; [exact Fa|]. split; [exact Fb|]. reflexivity.
Qed.

(** ** The object store *)

Section HeapFacts.

Lemma keeps_weaken {A} n (m : M A) (P Q : res A -> Prop) :
  keeps n m P -> (forall o, P o -> Q o) -> keeps n m Q.
Proof.
  intros Hm HPQ h Hn. destruct (Hm h Hn) as (o & h' & E & Ht & Hl & HP).
  exists o, h'. auto.
Qed.

Lemma keeps_ret {A} n (a : A) (Q : res A -> Prop) : Q (Ok a) -> keeps n (mret a) Q.
Proof. intros HQ h Hn. exists (Ok a), h. auto. Qed.

Lemma keeps_lift {A} n (m : res A) (Q : res A -> Prop) : Q m -> keeps n (lift m) Q.
Proof. intros HQ h Hn. exists m, h. auto. Qed.

Lemma keeps_bind {A B} n (m : M A) (f : A -> M B) (P : A -> Prop) (Q : res B -> Prop) :
  keeps n m (returns P) ->
  (forall a, P a -> keeps n (f a) Q) ->
  (forall e, Q (Raise e)) ->
  keeps n (m ≫= f) Q.
Proof.
  intros Hm Hf HQ h Hn. destruct (Hm h Hn) as (o & h' & E & Ht & Hl & HP).
  unfold mbind, M_bind. rewrite E. destruct o as [a|e].
  - destruct (Hf a HP h' Hl) as (o2 & h2 & E2 & Ht2 & Hl2 & HQ2).
    exists o2, h2. split; [exact E2|]. split; [congruence|]. auto.
  - exists (Raise e), h'. auto.
Qed.

Lemma keeps_fmap {A B} n (g : A -> B) (m : M A) (P : A -> Prop) (Q : res B -> Prop) :
  keeps n m (returns P) ->
  (forall a, P a -> Q (Ok (g a))) ->
  (forall e, Q (Raise e)) ->
  keeps n (g <$> m) Q.
Proof.
  intros Hm Hg HQ h Hn. destruct (Hm h Hn) as (o & h' & E & Ht & Hl & HP).
  unfold fmap, M_fmap. rewrite E. destruct o as [a|e].
  - exists (Ok (g a)), h'. auto.
  - exists (Raise e), h'. auto.
Qed.

Lemma keeps_try_except {A} n (body : M A) (handler : exn -> M A) (Q : res A -> Prop) :
  keeps n body (returns (fun a => Q (Ok a))) ->
  (forall e, keeps n (handler e) Q) ->
  keeps n (try_except body handler) Q.
Proof.
  intros Hb Hh h Hn. destruct (Hb h Hn) as (o & h' & E & Ht & Hl & HP).
  unfold try_except. rewrite E. destruct o as [a|e].
  - exists (Ok a), h'. auto.
  - destruct (Hh e h' Hl) as (o2 & h2 & E2 & Ht2 & Hl2 & HQ2).
    exists o2, h2. split; [exact E2|]. split; [congruence|]. auto.
Qed.

Lemma keeps_new_frame n (f : Frame) : keeps n (new_frame f) (returns (fun r => (n <= r)%nat)).
Proof.
  intros h Hn. exists (Ok (length h)), (h ++ [f]). split; [reflexivity|].
  split; [by rewrite take_app_le|]. rewrite length_app. simpl. split; [lia|exact Hn].
Qed.

Lemma keeps_get_frame n (r : nat) : keeps n (get_frame r) (returns (fun _ => True)).
Proof.
  intros h Hn. unfold get_frame. destruct (h !! r) as [f|].
  - exists (Ok f), h. simpl. auto.
  - exists (Raise BadReference), h. simpl. auto.
Qed.

Lemma keeps_copy n (r : nat) : keeps n (copy r) (returns (fun r' => (n <= r')%nat)).
Proof.
  unfold copy. eapply keeps_bind; [apply keeps_get_frame| |done].
  intros f _. apply keeps_new_frame.
Qed.

Lemma keeps_on_frame {S} n (r : nat) (block : Frame -> res S * Frame) :
  (n <= r)%nat -> keeps n (on_frame r block) (returns (fun _ => True)).
Proof.
  intros Hr h Hn. unfold on_frame. destruct (h !! r) as [f|].
  - destruct (block f) as [o f']. exists o, (<[r := f']> h). split; [reflexivity|].
    split; [by apply take_insert_ge|]. rewrite length_insert.
    split; [exact Hn|]. by destruct o.
  - exists (Raise BadReference), h. simpl. auto.
Qed.

Lemma keeps_sort_values_ref n (r : nat) :
  keeps n (sort_values_ref r) (returns (fun r' => (n <= r')%nat)).
Proof.
  unfold sort_values_ref. eapply keeps_bind; [apply keeps_get_frame| |done].
  intros f _. eapply keeps_bind; [apply (keeps_lift _ _ (returns (fun _ => True)))| |done].
  - by destruct (sort_values f).
  - intros sorted _. apply keeps_new_frame.
Qed.

(** A store whose first objects were kept is the old store, extended. *)
Lemma kept_extends (h h' : heap) :
  take (length h) h' = take (length h) h -> exists extra, h' = h ++ extra.
Proof.
  intros H. exists (drop (length h) h').
  rewrite firstn_all in H. rewrite <- H at 1. by rewrite take_drop.
Qed.



(** *** Running the store operations *)

Lemma bind_run {A B} (m : M A) (k : A -> M B) (h h' : heap) (a : A) :
  m h = (Ok a, h') -> (m ≫= k) h = k a h'.
Proof. intros E. unfold mbind, M_bind. by rewrite E. Qed.

Lemma bind_raise {A B} (m : M A) (k : A -> M B) (h h' : heap) (e : exn) :
  m h = (Raise e, h') -> (m ≫= k) h = (Raise e, h').
Proof. intros E. unfold mbind, M_bind. by rewrite E. Qed.

Lemma get_frame_run (r : nat) (h : heap) (f : Frame) :
  h !! r = Some f -> get_frame r h = (Ok f, h).
Proof. intros E. unfold get_frame. by rewrite E. Qed.

Lemma copy_run (r : nat) (h : heap) (f : Frame) :
  h !! r = Some f -> copy r h = (Ok (length h), h ++ [f]).
Proof. intros E. unfold copy. by rewrite (bind_run _ _ _ _ _ (get_frame_run r h f E)). Qed.

Lemma lookup_new (h : heap) (f : Frame) : (h ++ [f]) !! length h = Some f.
Proof. rewrite lookup_app_r by lia. by rewrite Nat.sub_diag. Qed.

Lemma on_frame_new {S} (block : Frame -> res S * Frame) (h : heap) (f : Frame) :
  on_frame (length h) block (h ++ [f]) = ((block f).1, h ++ [(block f).2]).
Proof.
  unfold on_frame. rewrite lookup_new. destruct (block f) as [o f']. simpl.
  rewrite insert_app_r_alt by lia. by rewrite Nat.sub_diag.
Qed.

Lemma sort_values_ref_run (r : nat) (h : heap) (f sorted : Frame) :
  h !! r = Some f -> sort_values f = Ok sorted ->
  sort_values_ref r h = (Ok (length h), h ++ [sorted]).
Proof.
  intros E Hs. unfold sort_values_ref.
  rewrite (bind_run _ _ _ _ _ (get_frame_run r h f E)).
  unfold lift, mbind, M_bind. by rewrite Hs.
Qed.

Lemma Forall2_perm_r {A B} (P : A -> B -> Prop) (l : list A) (k k' : list B) :
  Forall2 P l k -> k ≡ₚ k' -> exists l', l ≡ₚ l' /\ Forall2 P l' k'.
Proof.
  intros HF Hp. revert l HF.
  induction Hp as [|x k k' Hp IH|x y k|k k1 k2 Hp1 IH1 Hp2 IH2]; intros l HF.
  - apply Forall2_nil_inv_r in HF as ->. exists []. by split.
  - apply Forall2_cons_inv_r in HF as (a & l0 & Ha & Hl0 & ->).
    destruct (IH l0 Hl0) as (l' & Hl' & HF'). exists (a :: l'). split; [by constructor|].
    by constructor.
  - apply Forall2_cons_inv_r in HF as (a & l0 & Ha & HF & ->).
    apply Forall2_cons_inv_r in HF as (b & l1 & Hb & HF & ->).
    exists (b :: a :: l1). split; [apply perm_swap|]. by repeat constructor.
  - destruct (IH1 l HF) as (l1 & Hl1 & HF1). destruct (IH2 l1 HF1) as (l2 & Hl2 & HF2).
    exists l2. split; [by etrans|done].
Qed.

Lemma StronglySorted_same_keys (l k : Frame) :
  Forall2 (fun a b : nat * Row => final_key a.2 = final_key b.2) l k ->
  StronglySorted score_desc l -> StronglySorted score_desc k.
Proof.
  intros HF. induction HF as [|a b l k Hab HF IH]; intros Hs; [constructor|].
  apply StronglySorted_inv in Hs as [Hs Ha]. constructor; [by apply IH|].
  clear IH Hs. induction HF as [|c d l k Hcd HF IH]; [constructor|].
  apply Forall_cons in Ha as [Hac Ha]. constructor; [|by apply IH].
  unfold score_desc in *. by rewrite <- Hab, <- Hcd.
Qed.

End HeapFacts.
(** ** Diversity boosting *)

Section DiversityFacts.

Lemma seen_of_nil : seen_of [] nothing_seen.
Proof. intros v. simpl. rewrite !elem_of_nil. set_solver. Qed.

Lemma fresh_in_seen (c : string) (prev : Frame) (row : Row) (v : value) (s : gset value) :
  row !! c = Some v ->
  (forall w, w ∈ s <-> Some w ∈ map (fun ir : nat * Row => ir.2 !! c) prev) ->
  not_in v s = fresh_in c prev row.
Proof.
  intros Hv Hs. unfold fresh_in, not_in. rewrite Hv.
  destruct v as [x| |str|];
    try (rewrite (bool_decide_eq_false_2 (Some _ = Some VNaN)) by discriminate; simpl;
         apply bool_decide_ext; by rewrite Hs).
  by rewrite bool_decide_eq_true_2.
Qed.

Lemma not_in_false (v : value) (s : gset value) : not_in v s = false -> v ∈ s.
Proof.
  unfold not_in. destruct v; try discriminate;
    intros H; apply bool_decide_eq_false in H; by apply dec_stable.
Qed.

Lemma seen_step (c : string) (prev : Frame) (idx : nat) (row : Row) (v : value) (s : gset value) :
  row !! c = Some v ->
  (forall w, w ∈ s <-> Some w ∈ map (fun ir : nat * Row => ir.2 !! c) prev) ->
  forall w, w ∈ (if not_in v s then {[v]} ∪ s else s)
            <-> Some w ∈ map (fun ir : nat * Row => ir.2 !! c) (prev ++ [(idx, row)]).
Proof.
  intros Hv Hs w. rewrite map_app, elem_of_app. simpl. rewrite Hv, list_elem_of_singleton.
  rewrite <- Hs. destruct (not_in v s) eqn:Hd.
  - rewrite elem_of_union, elem_of_singleton. split; [intros [->|?]; auto | intros [?|[= ->]]; auto].
  - apply not_in_false in Hd. split; [auto | intros [?|[= ->]]; auto].
Qed.

Lemma diversity_body_ready (frame prev : Frame) (seen : Seen) (idx : nat) (row : Row) :
  seen_of prev seen -> diversity_ready row -> one_row frame idx = true ->
  exists seen' row',
    diversity_body frame seen idx row = Ok (seen', row') /\
    seen_of (prev ++ [(idx, row)]) seen' /\
    boosted prev row row'.
Proof.
  intros Hseen ([c Hc] & [u Hu] & [f Hf] & x & Hx) Hone.
  unfold diversity_body, row_get. rewrite Hc, Hu, Hf, Hx, Hone. simpl.
  eexists _, _. split; [reflexivity|].
  assert (Hcs := fun w => proj1 (Hseen w)).
  assert (Hus := fun w => proj1 (proj2 (Hseen w))).
  assert (Hfs := fun w => proj2 (proj2 (Hseen w))).
  split.
  - intros w. simpl. split; [|split]; by apply seen_step.
  - exists x. eexists. split; [exact Hx|]. split; [|split; [|split; [|split]]].
    + rewrite lookup_insert_ne by discriminate. apply lookup_insert_eq.
    + unfold diversity_bonus.
      rewrite <- (fresh_in_seen "country" prev row c _ Hc Hcs),
        <- (fresh_in_seen "name_university" prev row u _ Hu Hus),
        <- (fresh_in_seen "field" prev row f _ Hf Hfs).
      destruct (not_in c _), (not_in u _), (not_in f _); ring.
    + destruct (not_in c _), (not_in u _), (not_in f _); lra.
    + apply lookup_insert_eq.
    + intros col H1 H2. by rewrite !lookup_insert_ne.
Qed.

Lemma diversity_loop (frame prev t : Frame) (seen : Seen) :
  seen_of prev seen -> Forall (fun ir : nat * Row => diversity_ready ir.2) t ->
  Forall (fun ir : nat * Row => one_row frame ir.1 = true) t ->
  exists seen' t',
    iterrows (diversity_body frame) seen t = (Ok seen', t') /\
    length t' = length t /\
    forall k idx row, t !! k = Some (idx, row) ->
      exists row', t' !! k = Some (idx, row') /\ boosted (prev ++ take k t) row row'.
Proof.
  revert prev seen. induction t as [|[idx row] t IH]; intros prev seen Hseen Hready Hone.
  - exists seen, []. split; [reflexivity|]. split; [reflexivity|]. intros k ? ? H. done.
  - apply Forall_cons in Hready as [Hrow Hready]. apply Forall_cons in Hone as [Hidx Hone].
    simpl in Hrow, Hidx.
    destruct (diversity_body_ready frame prev seen idx row Hseen Hrow Hidx)
      as (seen1 & row1 & Hb & Hs1 & Hboost).
    destruct (IH _ _ Hs1 Hready Hone) as (seen' & t' & Hloop & Hlen & Hrows).
    exists seen', ((idx, row1) :: t'). simpl. rewrite Hb, Hloop.
    split; [reflexivity|]. split; [by rewrite Hlen|].
    intros [|k] idx' row' Hk; simpl in Hk.
    + injection Hk as <- <-. exists row1. simpl. by rewrite app_nil_r.
    + destruct (Hrows k idx' row' Hk) as (r' & Hk' & Hb').
      exists r'. split; [exact Hk'|]. simpl. by rewrite cons_middle, app_assoc.
Qed.

Lemma count_absent (l : list nat) (idx : nat) :
  idx ∉ l -> List.filter (fun l0 => bool_decide (l0 = idx)) l = [].
Proof.
  induction l as [|a l IH]; intros Hn; simpl; [reflexivity|].
  apply not_elem_of_cons in Hn as [Hne Hn].
  rewrite bool_decide_eq_false_2 by congruence. by apply IH.
Qed.

Lemma one_row_NoDup (f : Frame) :
  NoDup (labels f) -> Forall (fun ir : nat * Row => one_row f ir.1 = true) f.
Proof.
  intros Hnd. apply Forall_forall. intros [idx row] Hin. simpl.
  assert (Hl : idx ∈ labels f) by (apply (list_elem_of_fmap_2 fst _ _ Hin)).
  unfold one_row. apply bool_decide_eq_true. clear Hin. revert Hl.
  induction Hnd as [|a l Ha Hnd IH]; intros Hl; [by apply elem_of_nil in Hl|]. simpl.
  destruct (decide (a = idx)) as [->|Hne].
  - rewrite bool_decide_eq_true_2 by done. simpl. by rewrite count_absent.
  - rewrite bool_decide_eq_false_2 by done. apply IH.
    apply elem_of_cons in Hl as [->|Hl]; done.
Qed.

Lemma fresh_in_once (c : string) (t : Frame) (k1 k2 : nat) (ir1 ir2 : nat * Row) :
  t !! k1 = Some ir1 -> t !! k2 = Some ir2 -> (k1 < k2)%nat ->
  ir1.2 !! c = ir2.2 !! c -> ir2.2 !! c <> Some VNaN ->
  fresh_in c (take k2 t) ir2.2 = false.
Proof.
  intros H1 H2 Hlt Heq Hnan. unfold fresh_in.
  rewrite bool_decide_eq_false_2 by exact Hnan. simpl.
  apply bool_decide_eq_false. intros Hn. apply Hn.
  rewrite <- Heq. apply (list_elem_of_fmap_2 (fun ir : nat * Row => ir.2 !! c)).
  apply list_elem_of_lookup. exists k1. by rewrite lookup_take_lt.
Qed.

Lemma boosted_has_score (prev : Frame) (row row' : Row) :
  boosted prev row row' -> exists x, row' !! "final_score" = Some (VNum x).
Proof. intros (x & x' & _ & H & _). eauto. Qed.


End DiversityFacts.

(** ** The cohort index *)

Section CohortFacts.
Import Cohort.

Local Open Scope R_scope.

Lemma sumR_shift_scale (m s : R) (xs : list R) :
  sumR (map (fun x => (x - m) / s) xs) = (sumR xs - INR (length xs) * m) / s.
Proof.
  induction xs as [|x xs IH].
  - simpl. unfold Rdiv. ring.
  - change (length (x :: xs)) with (S (length xs)). rewrite S_INR.
    simpl. rewrite IH. unfold Rdiv. ring.
Qed.

Lemma sumR_square_scale (s : R) (ds : list R) :
  sumR (map (fun d => (d / s) * (d / s)) ds) = sumR (map (fun d => d * d) ds) / (s * s).
Proof.
  destruct (Req_dec_T s 0) as [->|Hs].
  - induction ds as [|d ds IH]; simpl.
    + unfold Rdiv. ring.
    + rewrite IH. unfold Rdiv. rewrite Rmult_0_l, Rinv_0. ring.
  - induction ds as [|d ds IH]; simpl.
    + unfold Rdiv. ring.
    + rewrite IH. field. exact Hs.
Qed.

Lemma mean_normalize (xs : list R) : mean (normalize xs) = 0.
Proof.
  unfold mean at 1, normalize. rewrite sumR_shift_scale, length_map.
  destruct xs as [|x xs].
  - simpl. unfold Rdiv. ring.
  - unfold mean. set (n := INR (length (x :: xs))).
    assert (n <> 0) by (apply not_0_INR; discriminate).
    replace (sumR (x :: xs) - n * (sumR (x :: xs) / n)) with 0 by (field; assumption).
    unfold Rdiv. ring.
Qed.

Lemma std_normalize (xs : list R) : std xs <> 0 -> std (normalize xs) = 1.
Proof.
  intros Hs. unfold std at 1. rewrite mean_normalize.
  unfold normalize at 2. rewrite length_map.
  unfold normalize. rewrite map_map.
  rewrite (map_ext _ (fun x => ((x - mean xs) / std xs) * ((x - mean xs) / std xs)))
    by (intros; ring).
  rewrite <- (map_map (fun x => x - mean xs) (fun d => d / std xs * (d / std xs))).
  rewrite sumR_square_scale, map_map.
  set (ss := sumR (map (fun x => (x - mean xs) * (x - mean xs)) xs)).
  set (v := ss / (INR (length xs) - 1)).
  assert (Hsv : std xs = sqrt v) by reflexivity.
  assert (Hv : 0 < v).
  { destruct (Rlt_le_dec 0 v) as [?|Hle]; [assumption|].
    exfalso. apply Hs. rewrite Hsv. apply sqrt_neg_0. exact Hle. }
  assert (Hsq : std xs * std xs = v) by (rewrite Hsv; apply sqrt_sqrt; lra).
  rewrite Hsq.
  replace (ss / v / (INR (length xs) - 1)) with (v / v) by (unfold v, Rdiv; ring).
  replace (v / v) with 1 by (field; lra). apply sqrt_1.
Qed.



Lemma build_success (sklearn_available : bool) (self self' : StudentDataAnalyzer) :
  build_recommendation_model sklearn_available self = (true, self') ->
  exists data columns features,
    student_data self = Some data /\ data <> [] /\
    columns = List.filter (frame_has data) all_feature_columns /\ columns <> [] /\
    features = map (fun c => fillna_mean (column data c)) columns /\
    Forall (fun xs => std xs <> 0) features /\
    self' = {| student_data := Some data;
               model := Some {| n_neighbors := Nat.min 10 (n_rows (map normalize features));
                                fit_X := map normalize features |};
               feature_columns := Some columns;
               normalized_features := Some (map normalize features) |}.
Proof.
  unfold build_recommendation_model.
  destruct (student_data self) as [[|ir data]|] eqn:Hd; try discriminate.
  destruct (negb sklearn_available); [discriminate|].
  destruct (List.filter _ all_feature_columns) as [|c columns] eqn:Hc; [discriminate|].
  case_bool_decide as Hstd; [discriminate|].
  intros [= <-]. exists (ir :: data), (c :: columns). eexists.
  repeat split; try reflexivity; try discriminate.
  - by rewrite Hc.
  - apply Forall_forall. intros xs Hxs Hz. apply Hstd. apply Exists_exists. eauto.
Qed.

Lemma normalize_query_unit (query means stds : list R) :
  length means = length query -> length stds = length query ->
  Forall (eq 0) means -> Forall (eq 1) stds ->
  normalize_query query means stds = Some query.
Proof.
  intros Hm Hs Hm0 Hs1. unfold normalize_query. apply mapM_Some.
  apply Forall2_same_length_lookup. split; [by rewrite length_imap|].
  intros i [j q] q' Hi Hq. rewrite list_lookup_imap in Hi.
  rewrite Hq in Hi. injection Hi as <- <-. simpl.
  assert (Hlt : (i < length query)%nat) by (by eapply lookup_lt_Some).
  destruct (lookup_lt_is_Some_2 means i) as [m Hmi]; [lia|].
  destruct (lookup_lt_is_Some_2 stds i) as [s Hsi]; [lia|].
  rewrite Hmi, Hsi. simpl.
  rewrite Forall_lookup in Hm0, Hs1.
  rewrite <- (Hm0 i m Hmi), <- (Hs1 i s Hsi). f_equal. field.
Qed.

(** C7, what the code does.  In an analyzer that [build_recommendation_model]
    has built, the query is divided by the deviation of the normalized
    features, which is 1, after their mean, which is 0, is subtracted:
    the query that goes to the neighbour search is the raw one, not its
    z-score against the training columns. *)
Theorem query_normalized_with_normalized_features
  (sklearn_available : bool) (self self' : StudentDataAnalyzer) (preferences : Preferences) :
  build_recommendation_model sklearn_available self = (true, self') ->
  exists data columns normalized,
    student_data self' = Some data /\ feature_columns self' = Some columns /\
    normalized_features self' = Some normalized /\
    Forall (fun xs => mean xs = 0 /\ std xs = 1) normalized /\
    normalized_query self' preferences = Some (map (query_value preferences data) columns).
Proof.
  intros H. apply build_success in H
    as (data & columns & features & Hd & Hne & Hc & Hcne & Hf & Hstd & ->).
  exists data, columns, (map normalize features). simpl.
  assert (Hall : Forall (fun xs => mean xs = 0 /\ std xs = 1) (map normalize features)).
  { apply Forall_fmap. eapply Forall_impl; [exact Hstd|]. simpl. intros xs Hxs.
    split; [apply mean_normalize | by apply std_normalize]. }
  repeat split; try reflexivity; [exact Hall|].
  unfold normalized_query. simpl.
  apply normalize_query_unit.
  - rewrite !length_map. subst features. by rewrite length_map.
  - rewrite !length_map. subst features. by rewrite length_map.
  - apply Forall_fmap. eapply Forall_impl; [exact Hall|]. simpl. intros xs [-> _]. reflexivity.
  - apply Forall_fmap. eapply Forall_impl; [exact Hall|]. simpl. intros xs [_ ->]. reflexivity.
Qed.


(** *** The sample analyzer *)

Lemma Q2R_2 : Q2R 2 = 2. Proof. unfold Q2R. simpl. field. Qed.
Lemma Q2R_3 : Q2R 3 = 3. Proof. unfold Q2R. simpl. field. Qed.
Lemma Q2R_4 : Q2R 4 = 4. Proof. unfold Q2R. simpl. field. Qed.

Lemma sample_column :
  fillna_mean (column sample_students "current_gpa") = [2; 3; 4].
Proof.
  change (column sample_students "current_gpa") with [Some (Q2R 2); Some (Q2R 3); Some (Q2R 4)].
  unfold fillna_mean. simpl. by rewrite Q2R_2, Q2R_3, Q2R_4.
Qed.

Lemma mean_234 : mean [2; 3; 4] = 3.
Proof. unfold mean. simpl. field. Qed.

Lemma std_234 : std [2; 3; 4] = 1.
Proof.
  unfold std. rewrite mean_234. simpl.
  replace ((2 - 3) * (2 - 3) + ((3 - 3) * (3 - 3) + ((4 - 3) * (4 - 3) + 0))) with 2 by ring.
  replace (2 / (1 + 1 + 1 - 1)) with 1 by field. apply sqrt_1.
Qed.

Lemma normalize_234 : normalize [2; 3; 4] = [-1; 0; 1].
Proof.
  unfold normalize. rewrite mean_234, std_234. simpl.
  repeat f_equal; field.
Qed.

Lemma build_ok (self : StudentDataAnalyzer) (data : Frame) (columns : list string) :
  student_data self = Some data -> data <> [] ->
  List.filter (frame_has data) all_feature_columns = columns -> columns <> [] ->
  Forall (fun c => std (fillna_mean (column data c)) <> 0) columns ->
  build_recommendation_model true self
  = (true,
     {| student_data := Some data;
        model := Some {| n_neighbors :=
                           Nat.min 10 (n_rows (map (fun c => normalize (fillna_mean (column data c)))
                                                   columns));
                         fit_X := map (fun c => normalize (fillna_mean (column data c))) columns |};
        feature_columns := Some columns;
        normalized_features :=
          Some (map (fun c => normalize (fillna_mean (column data c))) columns) |}).
Proof.
  intros Hd Hne Hc Hcne Hstd. unfold build_recommendation_model. rewrite Hd.
  destruct data as [|ir data]; [done|]. cbn [negb]. rewrite Hc.
  destruct columns as [|c columns]; [done|].
  rewrite bool_decide_eq_false_2.
  - by rewrite map_map.
  - intros Hex. apply Exists_exists in Hex as (xs & Hin & Hz).
    apply list_elem_of_fmap in Hin as (c' & -> & Hc').
    rewrite Forall_forall in Hstd. by apply (Hstd c').
Qed.

Lemma sample_build :
  build_recommendation_model true sample_analyzer = (true, sample_built).
Proof.
  assert (Hstd : Forall (fun c => std (fillna_mean (column sample_students c)) <> 0)
                   ["current_gpa"]).
  { constructor; [|constructor]. rewrite sample_column, std_234. lra. }
  assert (Hne : sample_students <> []) by discriminate.
  assert (Hcne : ["current_gpa"] <> []) by discriminate.
  rewrite (build_ok sample_analyzer sample_students ["current_gpa"] eq_refl Hne eq_refl Hcne Hstd).
  unfold sample_built. cbn [map n_rows]. rewrite sample_column, normalize_234. reflexivity.
Qed.

Lemma sample_query_gpa_4 : normalized_query sample_built gpa_4 = Some [4].
Proof.
  destruct (query_normalized_with_normalized_features true sample_analyzer sample_built gpa_4
              sample_build) as (data & columns & normalized & Hd & Hc & _ & _ & Hq).
  injection Hd as <-. injection Hc as <-. rewrite Hq. simpl.
  unfold query_value.
  rewrite bool_decide_eq_true_2 by (split; [reflexivity | by eexists]).
  change (numeric gpa_4 !! "gpa") with (Some 4%Q). cbv beta iota. by rewrite Q2R_4.
Qed.

(** C7, at a failing input.  The index is built of the grade averages 2,
    3 and 4 (mean 3, deviation 1); for a profile with a grade average of
    4 the query that the code hands to the neighbour search is 4, where
    the z-score against the training column is 1. *)
Theorem query_not_normalized_with_training_statistics :
  build_recommendation_model true sample_analyzer = (true, sample_built) /\
  normalized_query sample_built gpa_4 = Some [4] /\
  (4 - mean (fillna_mean (column sample_students "current_gpa")))
  / std (fillna_mean (column sample_students "current_gpa")) = 1.
Proof.
  split; [exact sample_build|]. split; [exact sample_query_gpa_4|].
  rewrite sample_column, mean_234, std_234. field.
Qed.

Lemma distance_1 (x q : R) : distance [x] [q] = Rabs (x - q).
Proof.
  unfold distance. simpl. rewrite Rplus_0_r. apply sqrt_Rsqr_abs.
Qed.

Lemma sample_query_mean : normalized_query sample_built no_preferences = Some [3].
Proof.
  destruct (query_normalized_with_normalized_features true sample_analyzer sample_built
              no_preferences sample_build) as (data & columns & normalized & Hd & Hc & _ & _ & Hq).
  injection Hd as <-. injection Hc as <-. rewrite Hq. simpl.
  unfold query_value.
  rewrite !bool_decide_eq_false_2 by (intros [_ [x Hx]]; discriminate).
  change (numeric no_preferences !! "current_gpa") with (@None Q).
  change (column sample_students "current_gpa") with [Some (Q2R 2); Some (Q2R 3); Some (Q2R 4)].
  simpl. rewrite Q2R_2, Q2R_3, Q2R_4. by rewrite mean_234.
Qed.

(** The neighbours of the mean profile in the sample: all three records,
    nearest first. *)
Lemma sample_neighbours :
  find_similar_students sample_built no_preferences 10 = Some (reverse sample_students).
Proof.
  unfold find_similar_students. cbn [model normalized_features sample_built].
  rewrite sample_query_mean. cbn [mbind option_bind student_data sample_built].
  unfold kneighbors. cbn [fit_X n_rows length Nat.min].
  destruct (decide (3 <= 3)%nat) as [_|]; [|lia].
  set (d := fun i : nat => distance (row_of [[-1; 0; 1]] i) [3]).
  assert (H0 : d 0%nat = 4).
  { unfold d. change (row_of [[-1; 0; 1]] 0) with [-1]. rewrite distance_1, Rabs_left; lra. }
  assert (H1 : d 1%nat = 3).
  { unfold d. change (row_of [[-1; 0; 1]] 1) with [0]. rewrite distance_1, Rabs_left; lra. }
  assert (H2 : d 2%nat = 2).
  { unfold d. change (row_of [[-1; 0; 1]] 2) with [1]. rewrite distance_1, Rabs_left; lra. }
  clearbody d. cbn [seq foldr insert_by]. rewrite ?H0, ?H1, ?H2.
  repeat (match goal with
          | |- context [Rle_dec ?a ?b] => destruct (Rle_dec a b); try lra
          end; cbn [insert_by]; rewrite ?H0, ?H1, ?H2).
  reflexivity.
Qed.

End CohortFacts.
(** ** The cohort enhancement *)

Section EnhanceFacts.

Variable repr_float : Q -> string.

Lemma cells_counts (similar : Frame) (ds : list value) (country : value) :
  cells similar "final_destination_country" = Ok ds ->
  counts_get (value_counts ds) country = chose similar country /\
  length (value_counts ds) = recorded similar.
Proof.
  unfold cells. destruct (frame_has _ _); [|discriminate]. intros [= <-].
  unfold counts_get, value_counts, chose, recorded. split.
  - destruct country as [x| |c|];
      try (induction similar as [|[i r] similar IH]; simpl; [reflexivity|];
           destruct (r !! "final_destination_country") as [[]|]; simpl; exact IH).
    induction similar as [|[i r] similar IH]; simpl; [reflexivity|].
    destruct (r !! "final_destination_country") as [[x| |d|]|]; simpl; try exact IH.
    rewrite (bool_decide_ext (c = d) (d = c)) by (split; congruence).
    destruct (bool_decide (d = c)); simpl; by rewrite IH.
  - induction similar as [|[i r] similar IH]; simpl; [reflexivity|].
    destruct (r !! "final_destination_country") as [[]|]; simpl; by rewrite IH.
Qed.

Lemma chose_le_recorded (similar : Frame) (country : value) :
  (chose similar country <= recorded similar)%nat.
Proof.
  unfold chose, recorded. induction similar as [|[i r] similar IH]; simpl; [lia|].
  destruct (r !! "final_destination_country") as [[x| |d|]|], country as [y| |c|];
    simpl; try lia.
  destruct (bool_decide (d = c)); simpl; lia.
Qed.

Lemma popularity_boost_range (similar : Frame) (country : value) :
  0 <= popularity_boost similar country <= 5 # 100.
Proof.
  unfold popularity_boost.
  pose proof (ratio_nonneg (chose similar country) (Nat.max 1 (recorded similar))) as H0.
  assert (H1 := ratio_le_1 (chose similar country) (Nat.max 1 (recorded similar))).
  pose proof (chose_le_recorded similar country).
  specialize (H1 ltac:(lia)). lra.
Qed.

Lemma enhance_body_ready (similar : Frame) (ds : list value) (idx : nat) (row : Row) :
  cells similar "final_destination_country" = Ok ds ->
  enhance_ready row ->
  exists row',
    enhance_body (value_counts ds) (length (value_counts ds)) tt idx row = Ok (tt, row') /\
    cohort_boosted similar row row'.
Proof.
  intros Hds ([c Hc] & x & Hx).
  destruct (cells_counts similar ds c Hds) as [Hcount Htotal].
  unfold enhance_body, row_get. rewrite Hc. cbn [mbind res_bind].
  rewrite Hcount, Htotal. fold (popularity_boost similar c).
  unfold row_has at 1. rewrite bool_decide_eq_true_2 by (rewrite Hx; eauto).
  rewrite lookup_insert_ne by discriminate. rewrite Hx.
  cbn [mbind res_bind as_float fmap option_fmap option_map float_cell match_percentage_cell].
  unfold row_has.
  case_bool_decide as Hmp.
  - eexists. split; [reflexivity|]. exists x, c. repeat split; try assumption.
    + by rewrite !lookup_insert_ne, lookup_insert_eq by discriminate.
    + by rewrite lookup_insert_ne, lookup_insert_eq by discriminate.
    + intros _. apply lookup_insert_eq.
  - eexists. split; [reflexivity|]. exists x, c. repeat split; try assumption.
    + by rewrite lookup_insert_ne, lookup_insert_eq by discriminate.
    + apply lookup_insert_eq.
    + intros H. contradiction.
Qed.

Lemma enhance_loop (similar : Frame) (ds : list value) (recs : Frame) :
  cells similar "final_destination_country" = Ok ds ->
  Forall (fun ir : nat * Row => enhance_ready ir.2) recs ->
  exists mid,
    iterrows (enhance_body (value_counts ds) (length (value_counts ds))) tt recs = (Ok tt, mid) /\
    Forall2 (fun ir ir' : nat * Row => ir.1 = ir'.1 /\ cohort_boosted similar ir.2 ir'.2) recs mid.
Proof.
  intros Hds. induction recs as [|[idx row] recs IH]; intros Hready.
  - exists []. split; [reflexivity|constructor].
  - apply Forall_cons in Hready as [Hrow Hready].
    destruct (enhance_body_ready similar ds idx row Hds Hrow) as (row' & Hb & Hboost).
    destruct (IH Hready) as (mid & Hloop & Hmid).
    exists ((idx, row') :: mid). simpl. rewrite Hb, Hloop. split; [reflexivity|].
    constructor; [done|exact Hmid].
Qed.

(** A loop whose turns keep a relation keeps it row by row, however it
    ends. *)
Lemma iterrows_rel {S : Type} (P : Row -> Row -> Prop)
  (body : S -> nat -> Row -> res (S * Row)) (s : S) (f : Frame) :
  (forall r, P r r) ->
  (forall s idx r s' r', body s idx r = Ok (s', r') -> P r r') ->
  Forall2 (fun ir ir' : nat * Row => ir.1 = ir'.1 /\ P ir.2 ir'.2) f (iterrows body s f).2.
Proof.
  intros Hrefl Hbody. revert s. induction f as [|[idx row] f IH]; intros s; simpl.
  - constructor.
  - destruct (body s idx row) as [[s' row']|e] eqn:Hb.
    + specialize (IH s'). destruct (iterrows body s' f) as [out f'']. simpl in *.
      constructor; [|exact IH]. split; [reflexivity|]. by eapply Hbody.
    + simpl. constructor; [by split|].
      clear -Hrefl. induction f as [|ir f IH]; [constructor|].
      constructor; [by split|exact IH].
Qed.

Lemma explanation_body_keeps (has : bool) (similar : Frame) (u u' : unit) (idx : nat)
  (row row' : Row) :
  explanation_body repr_float has similar u idx row = Ok (u', row') ->
  same_but_explanation row row'.
Proof.
  unfold explanation_body. intros H. ok_steps.
  destruct (_ || _); ok_steps; [by intros c _|].
  destruct (0 <? _)%nat; ok_steps; [|by intros c _].
  intros c Hc. by rewrite lookup_insert_ne.
Qed.

Lemma add_explanations_run (r : nat) (similar : Frame) (h : heap) (f : Frame) :
  h !! r = Some f ->
  exists f',
    _add_student_data_explanations repr_float r similar h = (Ok tt, <[r := f']> h) /\
    Forall2 (fun ir ir' : nat * Row => ir.1 = ir'.1 /\ same_but_explanation ir.2 ir'.2) f f'.
Proof.
  intros Hr. unfold _add_student_data_explanations. destruct similar as [|s similar].
  - exists f. rewrite list_insert_id by exact Hr. split; [reflexivity|].
    apply Forall2_same_length_lookup. split; [reflexivity|].
    intros i x y Hx Hy. rewrite Hx in Hy. injection Hy as <-. by split.
  - set (sim := s :: similar).
    pose proof (iterrows_rel same_but_explanation
      (explanation_body repr_float (frame_has f "explanation") sim) tt f
      (fun r c _ => eq_refl)
      (fun s0 idx r0 s1 r1 => explanation_body_keeps _ _ s0 s1 idx r0 r1)) as Hrel.
    unfold try_except, on_frame. rewrite Hr.
    destruct (iterrows _ tt f) as [[[]|e] f'] eqn:Hloop; simpl in Hrel; exists f'; by split.
Qed.



Lemma cohort_boosted_explained (similar : Frame) (row row1 row' : Row) :
  cohort_boosted similar row row1 -> same_but_explanation row1 row' ->
  cohort_boosted similar row row'.
Proof.
  intros (x & c & Hc & Hx & Hb & Hs & Hm) Hsame.
  exists x, c. repeat split; try assumption.
  - by rewrite Hsame.
  - by rewrite Hsame.
  - intros H. rewrite Hsame by discriminate. by apply Hm.
Qed.

Lemma cohort_boosted_score (similar : Frame) (row row' : Row) :
  cohort_boosted similar row row' -> exists x, row' !! "final_score" = Some (VNum x).
Proof. intros (x & c & _ & _ & _ & H & _). eauto. Qed.

Lemma find_similar_no_model (self : Cohort.StudentDataAnalyzer) (preferences : Preferences) (n : nat) :
  Cohort.model self = None -> Cohort.find_similar_students self preferences n = None.
Proof. intros H. unfold Cohort.find_similar_students. by rewrite H. Qed.

Lemma find_similar_length (self : Cohort.StudentDataAnalyzer) (preferences : Preferences)
  (n : nat) (similar : Frame) :
  Cohort.find_similar_students self preferences n = Some similar -> (length similar <= n)%nat.
Proof.
  unfold Cohort.find_similar_students.
  destruct (Cohort.model self) as [m|]; [|discriminate].
  destruct (Cohort.normalized_features self) as [nf|]; [|discriminate].
  intros H. apply bind_Some in H as (query & _ & H).
  apply bind_Some in H as (indices & Hk & H).
  apply bind_Some in H as (data & _ & H).
  unfold Cohort.iloc in H. apply length_mapM in H. rewrite <- H.
  unfold Cohort.kneighbors in Hk. case_decide; [|discriminate].
  injection Hk as <-. rewrite length_take. lia.
Qed.

Lemma enhance_early (self : Cohort.StudentDataAnalyzer) (preferences : Preferences)
  (h : heap) (r : nat) (recs : Frame) :
  h !! r = Some recs ->
  Cohort.find_similar_students self preferences 10 = None
  \/ Cohort.find_similar_students self preferences 10 = Some [] ->
  enhance_recommendations repr_float self (Some r) preferences h = (Ok (Some r), h).
Proof.
  intros Hr Hsim. unfold enhance_recommendations.
  rewrite (bind_run _ _ _ _ _ (get_frame_run r h recs Hr)).
  destruct recs as [|ir recs]; [reflexivity|].
  destruct (Cohort.student_data self) as [[|s data]|]; try reflexivity.
  unfold try_except, enhance_try. by destruct Hsim as [-> | ->].
Qed.

Lemma enhance_run (self : Cohort.StudentDataAnalyzer) (preferences : Preferences)
  (h : heap) (r : nat) (recs similar : Frame) :
  h !! r = Some recs -> recs <> [] ->
  (exists s data, Cohort.student_data self = Some (s :: data)) ->
  Cohort.find_similar_students self preferences 10 = Some similar -> similar <> [] ->
  frame_has similar "final_destination_country" = true ->
  Forall (fun ir : nat * Row => enhance_ready ir.2) recs ->
  exists mid sorted out : Frame,
    enhance_recommendations repr_float self (Some r) preferences h
    = (Ok (Some (S (length h))), h ++ [mid; out]) /\
    Forall2 (fun ir ir' : nat * Row => ir.1 = ir'.1 /\ cohort_boosted similar ir.2 ir'.2) recs mid /\
    StronglySorted score_desc sorted /\ sorted ≡ₚ mid /\
    Forall2 (fun ir ir' : nat * Row => ir.1 = ir'.1 /\ same_but_explanation ir.2 ir'.2) sorted out.
Proof.
  intros Hr Hne (s & data & Hdata) Hsim Hsne Hcol Hready.
  assert (Hds : exists ds, cells similar "final_destination_country" = Ok ds).
  { unfold cells. rewrite Hcol. eauto. }
  destruct Hds as [ds Hds].
  destruct (enhance_loop similar ds recs Hds Hready) as (mid & Hloop & Hmid).
  assert (Hhas : frame_has mid "final_score" = true).
  { destruct Hmid as [|[i0 r0] [i1 r1] recs0 mid0 [_ Hb] _]; [done|].
    apply cohort_boosted_score in Hb as [x Hx]. simpl in *.
    unfold row_has. rewrite Hx. by apply bool_decide_eq_true. }
  assert (Hsort : sort_values mid = Ok (sort_desc mid)).
  { unfold sort_values. by rewrite Hhas. }
  set (sorted := sort_desc mid) in *.
  destruct (add_explanations_run (S (length h)) similar ((h ++ [mid]) ++ [sorted]) sorted)
    as (out & Hexp & Hout).
  { replace (S (length h)) with (length (h ++ [mid])) by (rewrite length_app; simpl; lia).
    apply lookup_new. }
  exists mid, sorted, out. split.
  - unfold enhance_recommendations.
    rewrite (bind_run _ _ _ _ _ (get_frame_run r h recs Hr)).
    destruct recs as [|ir recs]; [done|]. rewrite Hdata.
    unfold try_except, enhance_try. rewrite Hsim.
    destruct similar as [|s0 similar]; [done|].
    rewrite (bind_run _ _ _ _ _ (copy_run r h _ Hr)).
    unfold lift at 1. rewrite (bind_run _ _ (h ++ [ir :: recs]) (h ++ [ir :: recs]) ds)
      by (by rewrite Hds).
    rewrite (bind_run _ _ _ (h ++ [mid]) tt) by (by rewrite on_frame_new, Hloop).
    rewrite (bind_run _ _ _ _ _ (get_frame_run (length h) (h ++ [mid]) mid (lookup_new h mid))).
    rewrite Hhas.
    rewrite (bind_run _ _ _ ((h ++ [mid]) ++ [sorted]) (S (length h))).
    2:{ rewrite (sort_values_ref_run (length h) (h ++ [mid]) mid sorted (lookup_new h mid) Hsort).
        rewrite length_app. simpl. by rewrite Nat.add_1_r. }
    rewrite (bind_run _ _ _ _ _ Hexp).
    unfold mret, M_ret. f_equal.
    replace (S (length h)) with (length (h ++ [mid])) by (rewrite length_app; simpl; lia).
    rewrite insert_app_r_alt by lia. rewrite Nat.sub_diag. simpl.
    by rewrite <- app_assoc.
  - split; [exact Hmid|]. split; [|split; [|exact Hout]].
    + apply sort_desc_sorted.
    + apply sort_desc_Permutation.
Qed.


End EnhanceFacts.
(** ** The re-ranking stages never raise *)

Section SafetyFacts.

Variable repr_float : Q -> string.

Lemma keeps_diversity_try (n r : nat) : keeps n (diversity_try r) (returns is_Some).
Proof.
  unfold diversity_try. eapply keeps_bind; [apply keeps_copy| |done].
  intros d Hd. eapply keeps_bind; [by apply keeps_on_frame| |done].
  intros _ _. eapply keeps_fmap; [apply keeps_sort_values_ref| |done].
  intros r' _. by eexists.
Qed.

Lemma keeps_apply_diversity_boosting (n r : nat) (t : Frame) (h : heap) :
  h !! r = Some t -> (n <= length h)%nat ->
  exists out h', apply_diversity_boosting (Some r) h = (Ok (Some out), h')
                 /\ take n h' = take n h.
Proof.
  intros Hr Hn. unfold apply_diversity_boosting.
  rewrite (bind_run _ _ _ _ _ (get_frame_run r h t Hr)).
  destruct t as [|ir t]; [by exists r, h|].
  destruct (keeps_try_except n (diversity_try r) (fun _ => mret (Some r)) some_frame) with (h := h)
    as (o & h' & E & Ht & _ & Ho); [| |exact Hn|].
  - eapply keeps_weaken; [apply keeps_diversity_try|]. by intros [a|e].
  - intros e. apply keeps_ret. by eexists.
  - rewrite E. destruct o as [[out|]|e]; try (by destruct Ho). by exists out, h'.
Qed.

Lemma keeps_add_explanations (n r : nat) (similar : Frame) :
  (n <= r)%nat ->
  keeps n (_add_student_data_explanations repr_float r similar) (succeeds (fun _ => True)).
Proof.
  intros Hr. unfold _add_student_data_explanations. destruct similar as [|s similar].
  - by apply keeps_ret.
  - apply keeps_try_except; [|intros e; by apply keeps_ret].
    eapply keeps_weaken; [by apply keeps_on_frame|]. by intros [a|e].
Qed.

Lemma keeps_enhance_try (n r : nat) (self : Cohort.StudentDataAnalyzer) (preferences : Preferences) :
  keeps n (enhance_try repr_float self r preferences) (returns is_Some).
Proof.
  unfold enhance_try.
  destruct (Cohort.find_similar_students self preferences 10) as [[|s similar]|];
    try (apply keeps_ret; by eexists).
  eapply keeps_bind; [apply keeps_copy| |done].
  intros enhanced He.
  eapply keeps_bind; [apply (keeps_lift _ _ (returns (fun _ => True))); by destruct (cells _ _)| |done].
  intros ds _. eapply keeps_bind; [by apply keeps_on_frame| |done].
  intros _ _. eapply keeps_bind; [apply keeps_get_frame| |done].
  intros f _.
  eapply (keeps_bind _ _ _ (fun e => (n <= e)%nat)); [| |done].
  - destruct (frame_has f "final_score"); [apply keeps_sort_values_ref|by apply keeps_ret].
  - intros e' He'. eapply keeps_bind; [| |done].
    + eapply keeps_weaken; [by apply keeps_add_explanations|].
      intros [a|e]; [intros _; exact I|done].
    + intros _ _. apply keeps_ret. by eexists.
Qed.

Lemma diversity_run_safe (h : heap) (r : nat) (t : Frame) :
  h !! r = Some t ->
  exists out extra,
    apply_diversity_boosting (Some r) h = (Ok (Some out), h ++ extra) /\
    (forall e h1, diversity_try r h = (Raise e, h1) -> out = r).
Proof.
  intros Hr.
  destruct (keeps_apply_diversity_boosting (length h) r t h Hr)
    as (out & h' & E & Ht); [lia|].
  apply kept_extends in Ht as [extra ->].
  exists out, extra. split; [exact E|].
  intros e h1 Hraise. revert E. unfold apply_diversity_boosting.
  rewrite (bind_run _ _ _ _ _ (get_frame_run r h t Hr)).
  destruct t as [|ir t]; [by intros [= ->]|].
  unfold try_except. rewrite Hraise. by intros [= ->].
Qed.

Lemma enhance_run_safe (self : Cohort.StudentDataAnalyzer) (preferences : Preferences)
  (h : heap) (r : nat) (t : Frame) :
  h !! r = Some t ->
  exists out extra,
    enhance_recommendations repr_float self (Some r) preferences h = (Ok (Some out), h ++ extra) /\
    (forall e h1, enhance_try repr_float self r preferences h = (Raise e, h1) -> out = r).
Proof.
  intros Hr.
  assert (Hrun : exists out h',
             enhance_recommendations repr_float self (Some r) preferences h = (Ok (Some out), h')
             /\ take (length h) h' = take (length h) h
             /\ (forall e h1, enhance_try repr_float self r preferences h = (Raise e, h1) -> out = r)).
  { unfold enhance_recommendations.
    rewrite (bind_run _ _ _ _ _ (get_frame_run r h t Hr)).
    destruct t as [|ir t]; [by exists r, h|].
    destruct (Cohort.student_data self) as [[|s data]|]; try (by exists r, h).
    destruct (keeps_try_except (length h) (enhance_try repr_float self r preferences)
                (fun _ => mret (Some r)) some_frame) with (h := h)
      as (o & h' & E & Ht & _ & Ho); [| |lia|].
    - eapply keeps_weaken; [apply keeps_enhance_try|]. by intros [a|e].
    - intros e. apply keeps_ret. by eexists.
    - rewrite E. destruct o as [[out|]|e]; try (by destruct Ho).
      exists out, h'. split; [reflexivity|]. split; [exact Ht|].
      intros e h1 Hraise. revert E. unfold try_except. rewrite Hraise. by intros [= ->]. }
  destruct Hrun as (out & h' & E & Ht & Hraise).
  apply kept_extends in Ht as [extra ->]. by exists out, extra.
Qed.

(** C10.  Given a frame of the store, each of the two stages ends
    without an exception and answers a frame; the store it leaves is the
    store it found plus new objects, so the frame it was given is as it
    was; and when the [try] block of the stage raises, the answer is the
    frame that was given. *)
Theorem rerank_stages_exception_safe
  (self : Cohort.StudentDataAnalyzer) (preferences : Preferences)
  (h : heap) (r : nat) (t : Frame) :
  h !! r = Some t ->
  (exists out extra,
     apply_diversity_boosting (Some r) h = (Ok (Some out), h ++ extra) /\
     (h ++ extra) !! r = Some t /\
     (forall e h1, diversity_try r h = (Raise e, h1) -> out = r)) /\
  (exists out extra,
     enhance_recommendations repr_float self (Some r) preferences h = (Ok (Some out), h ++ extra) /\
     (h ++ extra) !! r = Some t /\
     (forall e h1, enhance_try repr_float self r preferences h = (Raise e, h1) -> out = r)).
Proof.
  intros Hr.
  assert (Hkeep : forall extra, (h ++ extra) !! r = Some t).
  { intros extra. rewrite lookup_app_l; [exact Hr|]. by eapply lookup_lt_Some. }
  split.
  - destruct (diversity_run_safe h r t Hr) as (out & extra & E & Hraise).
    exists out, extra. auto.
  - destruct (enhance_run_safe self preferences h r t Hr) as (out & extra & E & Hraise).
    exists out, extra. auto.
Qed.

End SafetyFacts.

(** ** The stages on the sample frames *)

Lemma tied_ready : Forall (fun ir : nat * Row => diversity_ready ir.2) tied_recommendations.
Proof.
  repeat (constructor; [split; [by eexists|split; [by eexists|split; [by eexists|by eexists]]]|]).
  constructor.
Qed.


(** Two tied programs of different countries both take the bonus of a
    new country (and of a new university and field: 0.06 in all); the
    third, which repeats a country and a field, takes the bonus of its
    university only. *)
Example diversity_on_ties :
  let run := apply_diversity_boosting (Some 0%nat) [tied_recommendations] in
  run.1 = Ok (Some 2%nat) /\
  scores <$> run.2 !! 1%nat
  = Some [(0%nat, Some (43 # 50)); (1%nat, Some (43 # 50)); (2%nat, Some (81 # 100))] /\
  scores <$> run.2 !! 2%nat
  = Some [(0%nat, Some (43 # 50)); (1%nat, Some (43 # 50)); (2%nat, Some (81 # 100))].
Proof. repeat split; vm_compute; reflexivity. Qed.

Lemma sample_recommendations_ready :
  Forall (fun ir : nat * Row => enhance_ready ir.2) sample_recommendations.
Proof.
  repeat (constructor; [split; by eexists|]). constructor.
Qed.


(** Runs the enhancement on the sample, whose neighbours are known. *)
Ltac run_enhance_on_sample :=
  unfold enhance_recommendations, try_except, enhance_try, copy, get_frame, mbind, M_bind;
  simpl; rewrite sample_neighbours; vm_compute; reflexivity.


Lemma rerank_stages_exception_safe_witness :
  (exists out extra,
     apply_diversity_boosting (Some 0%nat) [no_countries] = (Ok (Some out), [no_countries] ++ extra) /\
     ([no_countries] ++ extra) !! 0%nat = Some no_countries /\
     (forall e h1, diversity_try 0 [no_countries] = (Raise e, h1) -> out = 0%nat)) /\
  (exists out extra,
     enhance_recommendations no_repr sample_built (Some 0%nat) no_preferences [no_countries]
     = (Ok (Some out), [no_countries] ++ extra) /\
     ([no_countries] ++ extra) !! 0%nat = Some no_countries /\
     (forall e h1, enhance_try no_repr sample_built 0 no_preferences [no_countries] = (Raise e, h1)
                   -> out = 0%nat)).
Proof.
  apply (rerank_stages_exception_safe no_repr sample_built no_preferences [no_countries] 0
           no_countries).
  reflexivity.
Defined.

(** On a frame without a [country] column the [try] blocks do raise, on
    the copy; the stages answer the frame that was given. *)
Example diversity_try_raises :
  (diversity_try 0 [no_countries]).1 = Raise KeyError /\
  (apply_diversity_boosting (Some 0%nat) [no_countries]).1 = Ok (Some 0%nat).
Proof. split; vm_compute; reflexivity. Qed.

Example enhance_try_raises :
  (enhance_try no_repr sample_built 0 no_preferences [no_countries]).1 = Raise KeyError /\
  (enhance_recommendations no_repr sample_built (Some 0%nat) no_preferences [no_countries]).1
  = Ok (Some 0%nat).
Proof.
  split.
  - unfold enhance_try. rewrite sample_neighbours. vm_compute. reflexivity.
  - run_enhance_on_sample.
Qed.

(** With the columns of the repository's schema the reranker finds no
    [name_university] and boosts nothing. *)
Example diversity_without_university_names :
  (diversity_try 0 [unnamed_universities]).1 = Raise KeyError /\
  (apply_diversity_boosting (Some 0%nat) [unnamed_universities]).1 = Ok (Some 0%nat).
Proof. split; vm_compute; reflexivity. Qed.

(** ** The request handler *)

Section AppFacts.

Variable repr_float : Q -> string.
Variable format_thousands : Z -> string.
Variable re_compile : string -> res (string -> bool).

Lemma score_programs_empty (self : Assistant) (tbl : Table) :
  rows tbl = [] -> score_programs repr_float self (Some tbl) = Ok None.
Proof. intros H. unfold score_programs. simpl. by rewrite H. Qed.

Lemma recommend_empty (assistant : Assistant) (student_analyzer : Cohort.StudentDataAnalyzer)
  (preferences : Preferences) (tbl : Table) (h : heap) :
  filter_programs re_compile assistant = Ok (Some tbl) -> rows tbl = [] ->
  recommend repr_float format_thousands re_compile assistant student_analyzer preferences h
  = (Raise AttributeError, h).
Proof.
  intros Hf Hrows. unfold recommend, lift, mbind, M_bind.
  rewrite Hf, (score_programs_empty assistant tbl Hrows). reflexivity.
Qed.

(** C8, what the code does.  When the filter leaves no programme, it
    returns the empty table; the scorer answers [None] for it, which the
    two re-ranking stages pass on as it is, without an exception; the
    handler then takes [head(10)] of [None], and answers the request
    with status 500 and [success: False]. *)
Theorem empty_result_answered_with_failure
  (db : Database) (student_analyzer : Cohort.StudentDataAnalyzer)
  (request_json : Preferences) (tbl : Table) (h : heap) :
  validate_preferences request_json = true ->
  filter_programs re_compile (assistant_for db (enrich_preferences request_json)) = Ok (Some tbl) ->
  rows tbl = [] ->
  score_programs repr_float (assistant_for db (enrich_preferences request_json)) (Some tbl)
  = Ok None /\
  apply_diversity_boosting None h = (Ok None, h) /\
  enhance_recommendations repr_float student_analyzer None (enrich_preferences request_json) h
  = (Ok None, h) /\
  get_recommendations repr_float format_thousands re_compile (Some db) student_analyzer
    request_json h
  = (Ok (Failure 500), h).
Proof.
  intros Hv Hf Hrows. split; [by apply score_programs_empty|].
  split; [reflexivity|]. split; [reflexivity|].
  unfold get_recommendations, try_except. rewrite Hv. simpl.
  by rewrite (recommend_empty _ _ _ tbl h Hf Hrows).
Qed.

End AppFacts.

Lemma empty_result_answered_with_failure_witness :
  score_programs no_repr
    (assistant_for sample_database (enrich_preferences (master_in "astrology")))
    (Some no_matches)
  = Ok None /\
  apply_diversity_boosting None [] = (Ok None, []) /\
  enhance_recommendations no_repr sample_analyzer None
    (enrich_preferences (master_in "astrology")) []
  = (Ok None, []) /\
  get_recommendations no_repr no_format literal_search (Some sample_database) sample_analyzer
    (master_in "astrology") []
  = (Ok (Failure 500), []).
Proof.
  apply (empty_result_answered_with_failure no_repr no_format literal_search sample_database
           sample_analyzer (master_in "astrology") no_matches).
  - reflexivity.
  - vm_compute. reflexivity.
  - reflexivity.
Defined.

(** A request that the filter does answer goes through. *)
Example request_with_matches :
  match (get_recommendations no_repr no_format literal_search (Some sample_database)
           sample_analyzer (master_in "computer") []).1 with
  | Ok (Recommendations result) => length result
  | _ => 0%nat
  end = 2%nat.
Proof. vm_compute. reflexivity. Qed.

(** ** The reranker on the catalog of the repository *)

Section CatalogFacts.

Variable repr_float : Q -> string.
Variable re_compile : string -> res (string -> bool).

Lemma read_from_columns (cols : list string) (t : Table) (c : string) :
  read_from cols t = true -> c ∈ columns t -> c ∈ cols.
Proof.
  unfold read_from. intros H Hc. apply andb_prop in H as [H _].
  rewrite forallb_forall in H. apply (bool_decide_eq_true_1 _), H. by apply list_elem_of_In.
Qed.

Lemma read_from_cells (cols : list string) (t : Table) (ir : nat * Row) (c : string) :
  read_from cols t = true -> ir ∈ rows t -> is_Some (ir.2 !! c) -> c ∈ columns t.
Proof.
  unfold read_from. intros H Hir [v Hv]. apply andb_prop in H as [_ H].
  rewrite forallb_forall in H. specialize (H ir ltac:(by apply list_elem_of_In)).
  rewrite forallb_forall in H.
  apply (bool_decide_eq_true_1 _), (H (c, v)). apply list_elem_of_In. by apply elem_of_map_to_list.
Qed.

Lemma rename_row_None (other : list string) (suffix : string) (r : Row) (k : string) :
  (forall c, is_Some (r !! c) -> rename_column other suffix c <> k) ->
  rename_row other suffix r !! k = None.
Proof.
  intros H. unfold rename_row. apply not_elem_of_list_to_map_1. intros Hin.
  apply list_elem_of_fmap in Hin as ([k' v] & -> & Hin).
  apply list_elem_of_fmap in Hin as ([c v'] & [= -> ->] & Hin).
  apply elem_of_map_to_list in Hin. apply (H c); [by eexists|reflexivity].
Qed.

Lemma program_column_renamed (other : list string) (c : string) :
  c ∈ programs_columns -> rename_column other "_program" c <> "name_university".
Proof.
  intros Hc. unfold rename_column, programs_columns in *.
  repeat (apply elem_of_cons in Hc as [->|Hc]); [..|by apply elem_of_nil in Hc];
    destruct (bool_decide _); discriminate.
Qed.

Lemma university_column_renamed (other : list string) (c : string) :
  "name" ∉ other ->
  c ∈ universities_columns -> rename_column other "_university" c <> "name_university".
Proof.
  intros Hn Hc. unfold rename_column, universities_columns in *.
  repeat (apply elem_of_cons in Hc as [->|Hc]); [..|by apply elem_of_nil in Hc];
    try (destruct (bool_decide _); discriminate).
  rewrite bool_decide_eq_false_2 by exact Hn. discriminate.
Qed.

Lemma no_name_among_programs (p : Table) :
  read_from programs_columns p = true -> "name" ∉ columns p.
Proof.
  intros Hp Hin. apply (read_from_columns _ _ _ Hp) in Hin.
  unfold programs_columns in Hin.
  repeat (apply elem_of_cons in Hin as [Hin|Hin]; [discriminate Hin|]).
  by apply elem_of_nil in Hin.
Qed.

(** The join of the catalog has no column [name_university]: the two
    tables share the column [id] only, and the name of a university
    stays under [name]. *)
Lemma merge_without_university_names (p u m : Table) :
  read_from programs_columns p = true -> read_from universities_columns u = true ->
  merge p u = Ok m ->
  Forall (fun ir : nat * Row => ir.2 !! "name_university" = None) (rows m).
Proof.
  intros Hp Hu. unfold merge. destruct (bool_decide _); [|discriminate].
  intros [= <-]. simpl. apply Forall_lookup. intros i [j row] Hi.
  rewrite list_lookup_imap in Hi. apply fmap_Some in Hi as (joined & Hi & [= -> ->]).
  apply list_elem_of_lookup_2, list_elem_of_In, in_flat_map in Hi as (pr & Hpr & Hi).
  apply in_map_iff in Hi as (ur & <- & Hur). apply filter_In in Hur as [Hur _].
  apply list_elem_of_In in Hpr, Hur. simpl.
  apply lookup_union_None. split; apply rename_row_None; intros c Hc.
  - apply program_column_renamed.
    eapply read_from_columns; [exact Hp|]. by eapply read_from_cells.
  - apply university_column_renamed; [by apply no_name_among_programs|].
    eapply read_from_columns; [exact Hu|]. by eapply read_from_cells.
Qed.

Lemma select_sub (mask : Row -> res bool) (f f' : Frame) :
  select mask f = Ok f' -> f' ⊆ f.
Proof.
  revert f'. induction f as [|ir f IH]; simpl; intros f' H.
  - by injection H as <-.
  - apply bind_Ok in H as (keep & _ & H). apply bind_Ok in H as (rest & Hrest & H).
    injection H as <-. specialize (IH _ Hrest). intros x Hx. destruct keep.
    + apply elem_of_cons in Hx as [->|Hx]; [left|right; by apply IH].
    + right. by apply IH.
Qed.

Lemma filter_programs_sub (self : Assistant) (p u t : Table) :
  programs self = Some p -> universities self = Some u ->
  filter_programs re_compile self = Ok (Some t) ->
  exists m, merge p u = Ok m /\ rows t ⊆ rows m.
Proof.
  intros Hp Hu. unfold filter_programs. rewrite Hp, Hu. intros H.
  apply bind_Ok in H as (m & Hm & H). exists m. split; [exact Hm|].
  repeat match goal with
  | H : _ ≫= _ = Ok _ |- _ =>
      let a := fresh "stage" in let Ha := fresh "Hstage" in
      apply bind_Ok in H as (a & Ha & H)
  end.
  injection H as <-. simpl.
  repeat match goal with
  | H : context [match ?x with _ => _ end] |- _ => destruct x; try discriminate H
  end;
  repeat match goal with
  | H : Ok _ = Ok _ |- _ => injection H as <-
  | H : _ ≫= _ = Ok _ |- _ =>
      let a := fresh "a" in let Ha := fresh "Ha" in
      apply bind_Ok in H as (a & Ha & H)
  | H : select _ _ = Ok _ |- _ => apply select_sub in H
  end; set_solver.
Qed.

Lemma score_row_keeps_absent (self : Assistant) (row row' : Row) (c : string) :
  c ∉ score_columns ->
  score_row repr_float self
    (extract_keywords (default "" (field_of_study (user_preferences self)))) row = Ok row' ->
  row' !! c = row !! c.
Proof.
  intros Hc H.
  apply (score_row_rated _ _ _ _ _ eq_refl) in H as (a & t & r & l & lo & la & fs & _ & _ & ->).
  by apply scored_row_keeps.
Qed.

Lemma score_programs_nonempty (self : Assistant) (t : Table) (out : Frame) :
  score_programs repr_float self (Some t) = Ok (Some out) -> out <> [].
Proof.
  intros H Hnil. subst out. revert H. unfold score_programs. simpl.
  destruct (rows t) as [|ir f] eqn:Hrows; [discriminate|].
  destruct (iterrows _ _ _) as [[[]|e] scored] eqn:Hloop; [|discriminate].
  intros H. ok_steps. apply sort_values_Ok in Ha as [_ Hperm].
  injection H as <-. apply Permutation_nil in Hperm. subst scored.
  apply iterrows_Ok in Hloop. inversion Hloop.
Qed.

Lemma diversity_body_no_university (frame : Frame) (seen : Seen) (idx : nat) (row : Row) :
  row !! "name_university" = None -> diversity_body frame seen idx row = Raise KeyError.
Proof.
  intros H. unfold diversity_body, row_get. rewrite H. by destruct (row !! "country").
Qed.

Lemma diversity_without_university (h : heap) (r : nat) (f : Frame) :
  h !! r = Some f -> f <> [] ->
  Forall (fun ir : nat * Row => ir.2 !! "name_university" = None) f ->
  diversity_try r h = (Raise KeyError, h ++ [f]) /\
  apply_diversity_boosting (Some r) h = (Ok (Some r), h ++ [f]).
Proof.
  intros Hr Hne Hf.
  assert (Htry : diversity_try r h = (Raise KeyError, h ++ [f])).
  { unfold diversity_try. rewrite (bind_run _ _ _ _ _ (copy_run r h _ Hr)).
    apply bind_raise. rewrite on_frame_new.
    destruct f as [|[idx row] f]; [done|]. apply Forall_cons in Hf as [Hrow _].
    simpl. by rewrite (diversity_body_no_university _ _ _ _ Hrow). }
  split; [exact Htry|]. unfold apply_diversity_boosting.
  rewrite (bind_run _ _ _ _ _ (get_frame_run r h f Hr)).
  destruct f as [|ir f]; [done|]. unfold try_except. by rewrite Htry.
Qed.

(** C3, what the code does.  On a catalog in the columns of the
    repository, the table that the filter answers, once scored, has no
    column [name_university]: the join leaves the name of the university
    under [name].  The reranker asks the first row for
    [name_university], its [try] block ends in a [KeyError] before any
    score is written back, and the frame that comes back is the scored
    frame itself: no candidate has a bonus, whatever its country,
    university and field. *)
Theorem diversity_bonus_lost_on_catalog
  (self : Assistant) (p u t : Table) (scored : Frame) (h : heap) (r : nat) :
  programs self = Some p -> universities self = Some u ->
  read_from programs_columns p = true -> read_from universities_columns u = true ->
  filter_programs re_compile self = Ok (Some t) ->
  score_programs repr_float self (Some t) = Ok (Some scored) ->
  h !! r = Some scored ->
  scored <> [] /\
  Forall (fun ir : nat * Row => ir.2 !! "name_university" = None) scored /\
  diversity_try r h = (Raise KeyError, h ++ [scored]) /\
  apply_diversity_boosting (Some r) h = (Ok (Some r), h ++ [scored]) /\
  (h ++ [scored]) !! r = Some scored.
Proof.
  intros Hp Hu Hpc Huc Hfilter Hscore Hr.
  assert (Hne : scored <> []) by (by eapply score_programs_nonempty).
  assert (Hlack : Forall (fun ir : nat * Row => ir.2 !! "name_university" = None) scored).
  { destruct (filter_programs_sub self p u t Hp Hu Hfilter) as (m & Hm & Hsub).
    pose proof (merge_without_university_names p u m Hpc Huc Hm) as Hrows.
    apply score_programs_keywords in Hscore as (pre & Hpre & _ & Hperm).
    rewrite Hperm. eapply Forall2_Forall_r; [exact Hpre|].
    apply Forall_forall. intros ir Hir ir' [_ Hrow].
    rewrite (score_row_keeps_absent self ir.2 ir'.2 "name_university") by
      (first [exact Hrow | apply (bool_decide_unpack _); vm_compute; exact I]).
    rewrite Forall_forall in Hrows. apply Hrows, Hsub, Hir. }
  split; [exact Hne|]. split; [exact Hlack|].
  destruct (diversity_without_university h r scored Hr Hne Hlack) as [Htry Hrun].
  split; [exact Htry|]. split; [exact Hrun|].
  rewrite lookup_app_l; [exact Hr|]. by eapply lookup_lt_Some.
Qed.

End CatalogFacts.

Lemma filtered_eq (m : res (option Table)) : filtered m = true -> m = Ok (Some (the_table m)).
Proof. destruct m as [[t|]|e]; simpl; [reflexivity|discriminate..]. Qed.

Lemma diversity_bonus_lost_on_catalog_witness :
  sample_scored <> [] /\
  Forall (fun ir : nat * Row => ir.2 !! "name_university" = None) sample_scored /\
  diversity_try 0 [sample_scored] = (Raise KeyError, [sample_scored] ++ [sample_scored]) /\
  apply_diversity_boosting (Some 0%nat) [sample_scored]
  = (Ok (Some 0%nat), [sample_scored] ++ [sample_scored]) /\
  ([sample_scored] ++ [sample_scored]) !! 0%nat = Some sample_scored.
Proof.
  apply (diversity_bonus_lost_on_catalog no_repr literal_search sample_assistant
           sample_programs sample_universities sample_filtered sample_scored).
  - reflexivity.
  - reflexivity.
  - vm_compute. reflexivity.
  - vm_compute. reflexivity.
  - apply filtered_eq. vm_compute. reflexivity.
  - apply answered_eq. vm_compute. reflexivity.
  - reflexivity.
Defined.

(** The sample request leaves two programmes, the first of which is new
    in every respect; the reranker answers the scored frame, in which
    the score of that programme is the scorer's. *)
Example diversity_bonus_lost_on_sample :
  scores sample_scored = scores (the_frame (score_programs no_repr sample_assistant
                                              (Some sample_filtered))) /\
  length sample_scored = 2%nat /\
  (apply_diversity_boosting (Some 0%nat) [sample_scored]).1 = Ok (Some 0%nat) /\
  scores <$> (apply_diversity_boosting (Some 0%nat) [sample_scored]).2 !! 0%nat
  = Some (scores sample_scored).
Proof. repeat split; vm_compute; reflexivity. Qed.
(** ** Further properties of the code *)

Section MoreFacts.

Variable repr_float : Q -> string.
Variable format_thousands : Z -> string.
Variable re_compile : string -> res (string -> bool).

(** *** The popularity boost *)

Lemma counts_get_le (counts : list value) (x : value) : (counts_get counts x <= length counts)%nat.
Proof. unfold counts_get. destruct x; simpl; try lia. apply filter_length_le. Qed.

Lemma popularity_share_range (data : Frame) (column x : string) (p : Q) :
  popularity_share data column x = Ok p -> 0 <= p <= 1.
Proof.
  unfold popularity_share. intros H. ok_steps.
  set (counts := value_counts a). split; [apply ratio_nonneg|].
  apply ratio_le_1. pose proof (counts_get_le counts (VStr x)) as H. simpl in H. lia.
Qed.

(** The popularity boost of a country and a field lies in [0, 0.05]:
    at most 0.03 for the country and 0.02 for the field; it is 0 when
    neither is named, and when there are no records. *)
Theorem popularity_boost_bounds (self : Cohort.StudentDataAnalyzer) (country field : option string) :
  0 <= get_popularity_boost self country field <= 5 # 100 /\
  get_popularity_boost self country None <= 3 # 100 /\
  get_popularity_boost self None field <= 2 # 100 /\
  get_popularity_boost self None None == 0 /\
  (Cohort.student_data self = None -> get_popularity_boost self country field = 0).
Proof.
  assert (Hgen : forall c f,
    0 <= get_popularity_boost self c f
         <= (match c with Some _ => 3 # 100 | None => 0 end)
            + (match f with Some _ => 2 # 100 | None => 0 end)).
  { intros c f. unfold get_popularity_boost.
    destruct (Cohort.student_data self) as [data|]; [|destruct c, f; lra].
    assert (Hc : asked data c "final_destination_country" = None \/
                 exists x, asked data c "final_destination_country" = Some x /\ c = Some x).
    { unfold asked. destruct c as [x|]; [|by left]. destruct (_ && _); eauto. }
    assert (Hf : asked data f "field_of_study" = None \/
                 exists x, asked data f "field_of_study" = Some x /\ f = Some x).
    { unfold asked. destruct f as [x|]; [|by left]. destruct (_ && _); eauto. }
    destruct Hc as [->|(x & -> & ->)], Hf as [->|(y & -> & ->)]; simpl.
    - destruct c, f; lra.
    - destruct (popularity_share data "field_of_study" y) as [q|e] eqn:E; simpl;
        [apply popularity_share_range in E|]; destruct c; lra.
    - destruct (popularity_share data "final_destination_country" x) as [q|e] eqn:E; simpl;
        [apply popularity_share_range in E|]; destruct f; lra.
    - destruct (popularity_share data "final_destination_country" x) as [q|e] eqn:E; simpl;
        [apply popularity_share_range in E|lra].
      destruct (popularity_share data "field_of_study" y) as [q'|e] eqn:E'; simpl;
        [apply popularity_share_range in E'|]; lra. }
  split; [|split; [|split; [|split]]].
  - specialize (Hgen country field). destruct country, field; lra.
  - specialize (Hgen country None). destruct country; simpl in Hgen; lra.
  - specialize (Hgen None field). destruct field; simpl in Hgen; lra.
  - specialize (Hgen None None). simpl in Hgen. lra.
  - intros H. unfold get_popularity_boost. by rewrite H.
Qed.


(** *** The request handler *)

Lemma M_bind_Ok {A B} (m : M A) (k : A -> M B) (h h' : heap) (b : B) :
  (m ≫= k) h = (Ok b, h') -> exists a h1, m h = (Ok a, h1) /\ k a h1 = (Ok b, h').
Proof.
  unfold mbind, M_bind. destruct (m h) as [[a|e] h1]; [eauto|discriminate].
Qed.

Lemma M_fmap_Ok {A B} (g : A -> B) (m : M A) (h h' : heap) (b : B) :
  (g <$> m) h = (Ok b, h') -> exists a, m h = (Ok a, h') /\ b = g a.
Proof.
  unfold fmap, M_fmap. destruct (m h) as [[a|e] h1]; [|discriminate].
  intros [= <- <-]. eauto.
Qed.

Lemma mapM_res_Forall2 {A B} (f : A -> res B) (l : list A) (k : list B) :
  mapM f l = Ok k -> Forall2 (fun a b => f a = Ok b) l k.
Proof.
  revert k. induction l as [|a l IH]; simpl; intros k H.
  - injection H as <-. constructor.
  - apply bind_Ok in H as (b & Hb & H). apply bind_Ok in H as (k' & Hk & H).
    injection H as <-. constructor; [exact Hb|by apply IH].
Qed.

Lemma explain_prefix (prefs : Preferences) (program : Row) (e : string) :
  explain repr_float format_thousands prefs program = Ok e ->
  String.prefix "Recommended because:" e = true.
Proof.
  unfold explain. intros H.
  repeat (ok_steps;
          try match goal with
              | H : context [if ?b then _ else _] |- _ => destruct b
              | H : context [match ?x with _ => _ end] |- _ => destruct x
              end).
  all: repeat match goal with |- context [if ?b then _ else _] => destruct b end; reflexivity.
Qed.



Lemma recommend_result (assistant : Assistant) (student_analyzer : Cohort.StudentDataAnalyzer)
  (preferences : Preferences) (h h' : heap) (result : list Row) :
  recommend repr_float format_thousands re_compile assistant student_analyzer preferences h
  = (Ok (Recommendations result), h') ->
  (length result <= 10)%nat /\
  Forall (fun row : Row =>
            exists e, row !! "explanation" = Some (VStr e)
                      /\ String.prefix "Recommended because:" e = true) result.
Proof.
  unfold recommend. intros H.
  apply M_bind_Ok in H as (filtered & h1 & _ & H).
  apply M_bind_Ok in H as (scored & h2 & _ & H).
  apply M_bind_Ok in H as (r0 & h3 & _ & H).
  apply M_bind_Ok in H as (r1 & h4 & _ & H).
  apply M_bind_Ok in H as (enhanced & h5 & _ & H).
  apply M_bind_Ok in H as (top & h6 & Htop & H).
  apply M_bind_Ok in H as (explanations & h7 & Hexp & H).
  apply M_bind_Ok in H as (res1 & h8 & Hres & H).
  injection H as -> ->.
  destruct enhanced as [r|]; [|discriminate Htop].
  unfold head10 in Htop. apply M_fmap_Ok in Htop as (f & Hf & ->).
  unfold lift in Hexp. injection Hexp as Hexp <-.
  unfold generate_explanations in Hexp. apply mapM_res_Forall2 in Hexp.
  assert (Hlen : length explanations = Nat.min 10 (length (take 10 f))).
  { rewrite <- (Forall2_length _ _ _ Hexp). apply length_take. }
  assert (Hpre : Forall (fun e => String.prefix "Recommended because:" e = true) explanations).
  { eapply Forall2_Forall_r; [exact Hexp|]. apply Forall_forall.
    intros ir _ e He. by eapply explain_prefix. }
  apply M_bind_Ok in Hres as (top' & h9 & Htop' & Hres).
  unfold head10 in Htop'. apply M_fmap_Ok in Htop' as (f' & Hf' & ->).
  injection Hres as <- ->.
  assert (f' = f) as ->.
  { unfold get_frame in Hf, Hf'. destruct (h5 !! r) eqn:E5; [|discriminate].
    injection Hf as <- <-. rewrite E5 in Hf'. by injection Hf' as <- _. }
  split; [rewrite length_imap, length_take; lia|].
  apply Forall_lookup. intros i row Hi. rewrite list_lookup_imap in Hi.
  apply fmap_Some in Hi as (ir & Hir & ->).
  assert (Hlt : (i < length explanations)%nat).
  { rewrite Hlen. apply lookup_lt_Some in Hir. rewrite length_take in *. lia. }
  destruct (lookup_lt_is_Some_2 explanations i Hlt) as [e He].
  exists e. rewrite He. simpl. split; [apply lookup_insert_eq|].
  rewrite Forall_lookup in Hpre. by eapply Hpre.
Qed.

(** The handler answers every request, whatever goes wrong: a request
    without the required fields with status 400, a catalog that cannot
    be read with status 500, both without touching the store; and it
    answers recommendations only to a valid request on a catalog. *)
Theorem handler_always_answers
  (db : option Database) (student_analyzer : Cohort.StudentDataAnalyzer)
  (request_json : Preferences) (h : heap) :
  exists response h',
    get_recommendations repr_float format_thousands re_compile db student_analyzer request_json h
    = (Ok response, h') /\
    (validate_preferences request_json = false -> response = Failure 400 /\ h' = h) /\
    (validate_preferences request_json = true -> db = None ->
     response = Failure 500 /\ h' = h) /\
    (forall result, response = Recommendations result ->
       validate_preferences request_json = true /\ is_Some db).
Proof.
  unfold get_recommendations, try_except.
  destruct (validate_preferences request_json) eqn:Hv; simpl.
  - destruct db as [db|]; simpl.
    + destruct (recommend _ _ _ _ _ _ h) as [[response|e] h'] eqn:Hrun.
      * exists response, h'. repeat split; intros; first [done | by eexists].
      * exists (Failure 500), h'. repeat split; done.
    + exists (Failure 500), h. repeat split; done.
  - exists (Failure 400), h. repeat split; done.
Qed.

(** The recommendations that the handler answers are at most ten, and
    each carries its explanation, which begins with "Recommended
    because:". *)
Theorem recommendations_at_most_ten_explained
  (db : option Database) (student_analyzer : Cohort.StudentDataAnalyzer)
  (request_json : Preferences) (h : heap) (result : list Row) :
  (get_recommendations repr_float format_thousands re_compile db student_analyzer
     request_json h).1 = Ok (Recommendations result) ->
  (length result <= 10)%nat /\
  Forall (fun row : Row =>
            exists e, row !! "explanation" = Some (VStr e)
                      /\ String.prefix "Recommended because:" e = true) result.
Proof.
  unfold get_recommendations, try_except.
  destruct (negb (validate_preferences request_json)); [discriminate|].
  destruct db as [db|]; [|discriminate].
  destruct (recommend _ _ _ _ _ _ h) as [[response|e] h'] eqn:Hrun; [|discriminate].
  simpl. intros [= ->]. by eapply recommend_result.
Qed.


(** *** The filter *)

Lemma select_spec (mask : Row -> res bool) (f f' : Frame) :
  select mask f = Ok f' ->
  sublist f' f /\ Forall (fun ir : nat * Row => mask ir.2 = Ok true) f'.
Proof.
  revert f'. induction f as [|ir f IH]; simpl; intros f' H.
  - injection H as <-. split; constructor.
  - apply bind_Ok in H as (keep & Hkeep & H). apply bind_Ok in H as (rest & Hrest & H).
    injection H as <-. destruct (IH _ Hrest) as [Hsub Hall]. destruct keep.
    + split; [by constructor|]. by constructor.
    + split; [by constructor|exact Hall].
Qed.

Lemma Forall_sublist {A} (P : A -> Prop) (l k : list A) :
  sublist l k -> Forall P k -> Forall P l.
Proof.
  intros Hsub Hk. apply Forall_forall. intros x Hx.
  rewrite Forall_forall in Hk. by apply Hk, (sublist_subseteq _ _ Hsub).
Qed.

(** What the filter answers is the join of the programmes with their
    universities, less the rows that a constraint rejects, in the order
    of the join: each row that is left costs at most the tuition
    ceiling, when there is one, and is of the degree level asked for,
    whatever the case of the letters. *)
Theorem filter_keeps_within_constraints (self : Assistant) (p u t : Table) :
  programs self = Some p -> universities self = Some u ->
  filter_programs re_compile self = Ok (Some t) ->
  exists merged,
    merge p u = Ok merged /\ columns t = columns merged /\
    sublist (rows t) (rows merged) /\
    (forall ceiling, max_tuition (user_preferences self) = Some ceiling ->
       Forall (fun ir : nat * Row =>
                 exists x, ir.2 !! "tuition_per_year" = Some (VNum x) /\ x <= ceiling)
              (rows t)) /\
    (forall level, degree_level (user_preferences self) = Some level -> level <> "" ->
       Forall (fun ir : nat * Row =>
                 exists s, ir.2 !! "level" = Some (VStr s) /\ lower s = lower level)
              (rows t)).
Proof.
  intros Hp Hu. unfold filter_programs. rewrite Hp, Hu. intros H.
  apply bind_Ok in H as (m & Hm & H). exists m.
  apply bind_Ok in H as (s1 & H1 & H).
  apply bind_Ok in H as (s2 & H2 & H).
  apply bind_Ok in H as (s3 & H3 & H).
  apply bind_Ok in H as (s4 & H4 & H).
  apply bind_Ok in H as (s5 & H5 & H).
  injection H as <-. simpl.
  assert (S1 : sublist s1 (rows m)).
  { destruct (field_of_study _) as [text|]; [destruct (decide _)|];
      ok_steps; try reflexivity. by apply select_spec in H1 as [? _]. }
  assert (S2 : sublist s2 s1 /\
               forall level, degree_level (user_preferences self) = Some level -> level <> "" ->
                 Forall (fun ir : nat * Row =>
                           exists s, ir.2 !! "level" = Some (VStr s) /\ lower s = lower level) s2).
  { destruct (degree_level _) as [text|]; [destruct (decide _)|]; ok_steps.
    - split; [reflexivity|]. by intros level [= <-] Hne.
    - apply select_spec in H2 as [Hsub Hall]. split; [exact Hsub|].
      intros level [= <-] _. eapply Forall_impl; [exact Hall|]. simpl.
      intros ir [= Hir]. unfold test, str_lower in Hir.
      destruct (ir.2 !! "level") as [[x| |s|]|]; try discriminate Hir.
      exists s. split; [reflexivity|]. symmetry. by apply String.eqb_eq.
    - split; [reflexivity|]. intros level [=]. }
  assert (S3 : sublist s3 s2 /\
               forall ceiling, max_tuition (user_preferences self) = Some ceiling ->
                 Forall (fun ir : nat * Row =>
                           exists x, ir.2 !! "tuition_per_year" = Some (VNum x) /\ x <= ceiling)
                        s3).
  { destruct (max_tuition _) as [c|]; ok_steps.
    - apply select_spec in H3 as [Hsub Hall]. split; [exact Hsub|].
      intros ceiling [= <-]. eapply Forall_impl; [exact Hall|]. simpl.
      intros ir Hir. apply bind_Ok in Hir as (tu & Htu & Hir).
      destruct (ir.2 !! "tuition_per_year") as [[x| |s|]|]; simpl in Htu;
        try discriminate Htu; injection Htu as <-; try discriminate Hir.
      injection Hir as Hir. exists x. split; [reflexivity|]. by apply Qle_bool_iff.
    - split; [reflexivity|]. intros ceiling [=]. }
  assert (S4 : sublist s4 s3).
  { destruct (preferred_countries _) as [[|c cs]|]; ok_steps; try reflexivity.
    by apply select_spec in H4 as [? _]. }
  assert (S5 : sublist s5 s4).
  { destruct (language_preference _) as [pref|]; [destruct (decide _)|];
      ok_steps; try reflexivity. by apply select_spec in H5 as [? _]. }
  destruct S2 as [S2 L2], S3 as [S3 L3].
  assert (S53 : sublist s5 s3) by (by etrans).
  assert (S52 : sublist s5 s2) by (by etrans).
  split; [exact Hm|]. split; [reflexivity|].
  split; [etrans; [exact S52|]; by etrans|]. split.
  - intros ceiling Hc. apply (Forall_sublist _ _ s3); [exact S53|by apply L3].
  - intros level Hl Hne. apply (Forall_sublist _ _ s2); [exact S52|by apply L2].
Qed.


(** *** The explanations of the cohort stage *)

Lemma explanation_loop_without_column (similar f : Frame) :
  (iterrows (explanation_body repr_float false similar) tt f).2 = f.
Proof.
  induction f as [|[idx row] f IH]; simpl; [reflexivity|].
  unfold explanation_body at 1.
  destruct (as_float (default (VNum 0) (row !! "student_data_boost"))) as [boost|e];
    simpl; [|reflexivity].
  rewrite orb_true_r.
  destruct (iterrows _ tt f) as [out f'] eqn:Hloop. simpl in *. by rewrite IH.
Qed.

(** [_add_student_data_explanations] never raises; it writes nothing but
    cells of the column [explanation], and it writes nothing at all
    into a frame that has no such column. *)
Theorem explanations_touch_only_explanation
  (r : nat) (similar : Frame) (h : heap) (f : Frame) :
  h !! r = Some f ->
  exists f',
    _add_student_data_explanations repr_float r similar h = (Ok tt, <[r := f']> h) /\
    Forall2 (fun ir ir' : nat * Row => ir.1 = ir'.1 /\ same_but_explanation ir.2 ir'.2) f f' /\
    (frame_has f "explanation" = false -> f' = f /\ <[r := f']> h = h).
Proof.
  intros Hr.
  assert (Hsame : Forall2 (fun ir ir' : nat * Row =>
                             ir.1 = ir'.1 /\ same_but_explanation ir.2 ir'.2) f f).
  { apply Forall2_same_length_lookup. split; [reflexivity|].
    intros i x y Hx Hy. rewrite Hx in Hy. injection Hy as <-. by split. }
  unfold _add_student_data_explanations. destruct similar as [|s similar].
  - exists f. rewrite list_insert_id by exact Hr. by repeat split.
  - set (sim := s :: similar).
    pose proof (iterrows_rel same_but_explanation
      (explanation_body repr_float (frame_has f "explanation") sim) tt f
      (fun r c _ => eq_refl)
      (fun s0 idx r0 s1 r1 => explanation_body_keeps _ _ _ s0 s1 idx r0 r1)) as Hrel.
    pose proof (explanation_loop_without_column sim f) as Hnone.
    unfold try_except, on_frame. rewrite Hr.
    destruct (frame_has f "explanation") eqn:Hhas;
      destruct (iterrows _ tt f) as [[[]|e] f'] eqn:Hloop; simpl in *; exists f';
      (split; [reflexivity|]); (split; [exact Hrel|]); try discriminate;
      intros _; subst f'; by rewrite list_insert_id.
Qed.

(** *** The similar students *)

Lemma insert_by_Permutation (d : nat -> R) (i : nat) (l : list nat) :
  Cohort.insert_by d i l ≡ₚ i :: l.
Proof.
  induction l as [|j l IH]; simpl; [done|].
  destruct (Rle_dec _ _); [done|]. rewrite IH. apply perm_swap.
Qed.

Lemma nearest_first_Permutation (d : nat -> R) (l : list nat) :
  foldr (Cohort.insert_by d) [] l ≡ₚ l.
Proof.
  induction l as [|i l IH]; simpl; [done|]. by rewrite insert_by_Permutation, IH.
Qed.

(** The similar students that [find_similar_students] answers are
    records of the student data, each taken once, and at most as many
    as were asked for. *)
Theorem similar_students_are_records
  (self : Cohort.StudentDataAnalyzer) (preferences : Preferences) (n : nat) (similar : Frame) :
  Cohort.find_similar_students self preferences n = Some similar ->
  exists data indices,
    Cohort.student_data self = Some data /\
    NoDup indices /\ (length indices <= n)%nat /\
    Forall2 (fun i row => data !! i = Some row) indices similar.
Proof.
  unfold Cohort.find_similar_students.
  destruct (Cohort.model self) as [m|]; [|discriminate].
  destruct (Cohort.normalized_features self) as [nf|]; [|discriminate].
  intros H. apply bind_Some in H as (query & _ & H).
  apply bind_Some in H as (indices & Hk & H).
  apply bind_Some in H as (data & Hdata & H).
  exists data, indices. split; [exact Hdata|].
  unfold Cohort.kneighbors in Hk. case_decide; [|discriminate]. injection Hk as <-.
  split; [|split].
  - eapply sublist_NoDup; [|apply sublist_take].
    rewrite nearest_first_Permutation. apply NoDup_seq.
  - rewrite length_take. lia.
  - unfold Cohort.iloc in H. by apply mapM_Some in H.
Qed.

(** *** Confidence on the catalog *)

(** A candidate without a cell [name_university], as every candidate of
    the catalog is, has at most five of the six key fields: its
    confidence is at most 0.95. *)
Theorem confidence_without_university_name (row : Row) :
  row !! "name_university" = None -> calculate_confidence row <= 19 # 20.
Proof.
  intros H.
  assert (Hn : (valid_fields row <= 5)%nat).
  { unfold valid_fields, key_fields. simpl. rewrite H.
    repeat match goal with |- context [match ?x with _ => _ end] => destruct x end;
      simpl; lia. }
  rewrite calculate_confidence_eq.
  assert (Hq : inject_Z (Z.of_nat (valid_fields row)) / 6 <= 5 # 6).
  { apply (Qmult_le_compat_r _ 5 (/ 6)); [|discriminate].
    change 5 with (inject_Z 5). rewrite <- Zle_Qle. lia. }
  set (share := inject_Z _ / 6) in *. lra.
Qed.

(** *** The weights *)

(** Ratings that add up to 0 make [collect_preferences] divide by zero
    at the first weight. *)
Theorem zero_ratings_raise (weights : list (string * Q)) (ratings : list Z) :
  weights <> [] ->
  NoDup (map fst weights) ->
  (length weights <= length ratings)%nat ->
  sumZ (take (length weights) ratings) = 0%Z ->
  update_weights weights ratings = Raise ZeroDivisionError.
Proof.
  intros Hne Hnd Hlen Hzero. unfold update_weights.
  rewrite read_ratings_zip; [|done|intros k _; apply not_elem_of_nil|by rewrite length_map].
  simpl. rewrite snd_zip_take, length_map, Hzero.
  destruct weights as [|[k w] weights]; [done|].
  destruct ratings as [|r ratings]; [simpl in Hlen; lia|]. reflexivity.
Qed.


(** *** Keywords *)

Lemma lower_ascii_idem (c : ascii) : lower_ascii (lower_ascii c) = lower_ascii c.
Proof. destruct c as [[] [] [] [] [] [] [] []]; reflexivity. Qed.

Lemma cleaned_chars (s : string) :
  Forall keyword_char
    (list_ascii_of_string (replace_char ";" " " (replace_char "," " " (lower s)))).
Proof.
  induction s as [|c s IH]; [constructor|].
  cbn [lower replace_char list_ascii_of_string]. constructor; [|exact IH].
  pose proof (lower_ascii_idem c) as Hc. unfold keyword_char.
  set (d := lower_ascii c) in *. clearbody d.
  destruct (Ascii.eqb_spec d ",") as [H1|H1].
  - repeat split; discriminate.
  - destruct (Ascii.eqb_spec d ";") as [H2|H2].
    + repeat split; discriminate.
    + repeat split; assumption.
Qed.

Lemma split_aux_chars (P : ascii -> Prop) (cur : list ascii) (s : string) :
  Forall (fun c => P c /\ is_space c = false) cur ->
  Forall P (list_ascii_of_string s) ->
  Forall (fun w => Forall (fun c => P c /\ is_space c = false) (list_ascii_of_string w))
         (split_aux cur s).
Proof.
  revert cur. induction s as [|c s IH]; intros cur Hcur Hs.
  - simpl. destruct cur as [|a cur]; constructor; [|constructor].
    rewrite list_ascii_of_string_of_list_ascii. by apply Forall_rev.
  - simpl in Hs. apply Forall_cons in Hs as [Hc Hs]. simpl.
    destruct (is_space c) eqn:Hsp.
    + apply Forall_app. split.
      * destruct cur as [|a cur]; constructor; [|constructor].
        rewrite list_ascii_of_string_of_list_ascii. by apply Forall_rev.
      * apply IH; [constructor|exact Hs].
    + apply IH; [|exact Hs]. constructor; [by split|exact Hcur].
Qed.

Lemma lower_fixed (w : string) :
  Forall (fun c => lower_ascii c = c) (list_ascii_of_string w) -> lower w = w.
Proof.
  induction w as [|c w IH]; simpl; [reflexivity|]. intros H.
  apply Forall_cons in H as [Hc H]. by rewrite Hc, IH.
Qed.

(** The keywords of a text are in lower case, longer than two
    characters, and free of commas, semicolons and white space; an empty
    text has none. *)
Theorem keywords_are_clean (text : string) :
  extract_keywords "" = [] /\
  Forall (fun w => (2 < String.length w)%nat /\ lower w = w /\
                   Forall (fun c => is_space c = false /\ c <> ","%char /\ c <> ";"%char)
                          (list_ascii_of_string w))
         (extract_keywords text).
Proof.
  split; [reflexivity|]. unfold extract_keywords. case_decide; [constructor|].
  apply Forall_forall. intros w Hw. apply list_elem_of_In, filter_In in Hw as [Hw Hlen].
  apply list_elem_of_In in Hw.
  pose proof (split_aux_chars keyword_char [] _ (Forall_nil_2 _) (cleaned_chars text)) as Hall.
  rewrite Forall_forall in Hall. specialize (Hall w Hw).
  split; [by apply Nat.ltb_lt in Hlen|]. split.
  - apply lower_fixed. eapply Forall_impl; [exact Hall|]. by intros c [[? _] _].
  - eapply Forall_impl; [exact Hall|]. by intros c [(_ & ? & ?) ?].
Qed.

(** *** The scorer answers *)

Lemma weighted_sum_ok (w : list (string * Q)) cur a t r l lo la :
  seven_cells cur a t r l lo la ->
  map fst w = criteria ->
  exists x, weighted_sum w cur (Some 0) = Ok (Some x).
Proof.
  intros (H1 & H2 & H3 & H4 & H5 & H6 & H7) Hw.
  unfold number_cell in *.
  do 7 (destruct w as [|[? ?] w]; [discriminate Hw|]).
  destruct w; [|discriminate Hw].
  injection Hw as -> -> -> -> -> -> ->.
  unfold weighted_sum, row_get. cbv [String.append].
  rewrite H1, H2, H3, H4, H5, H6, H7. simpl. eauto.
Qed.

Lemma as_float_cost (cs : Table) (country : value) (first : Row) (i : nat) rest :
  costs_are_numbers (Some cs) ->
  List.filter (fun ir : nat * Row => cell_eqb (default VNaN (ir.2 !! "name")) country) (rows cs)
  = (i, first) :: rest ->
  exists x, as_float (default VNaN (first !! "average_living_cost")) = Ok x.
Proof.
  intros Hcs Hf.
  assert (Hin : (i, first) ∈ rows cs).
  { apply list_elem_of_In. eapply (proj1 (filter_In _ _ _)). rewrite Hf. by left. }
  simpl in Hcs. rewrite Forall_forall in Hcs. specialize (Hcs _ Hin). simpl in Hcs.
  destruct (first !! "average_living_cost") as [[x| |s|]|]; simpl; try done; eauto.
Qed.

Lemma score_row_run (self : Assistant) (row : Row) a t r l lo la fs :
  rated repr_float self row a t r l lo la ->
  weighted_sum (criteria_weights self) (with_scores row a t r l lo la) (Some 0) = Ok fs ->
  score_row repr_float self
    (extract_keywords (default "" (field_of_study (user_preferences self)))) row
  = Ok (<["match_percentage" :=
            match_percentage_cell ((fun s => s * calculate_confidence row) <$> fs)]>
          (<["final_score" := float_cell ((fun s => s * calculate_confidence row) <$> fs)]>
            (with_scores row a t r l lo la))).
Proof.
  intros (Ha & Ht & Hr & Hl & Hlo & Hla) Hw.
  apply bind_Ok in Ht as (tu & Htu & Ht). apply bind_Ok in Hr as (rk & Hrk & Hr).
  unfold score_row. rewrite Ha. cbn [mbind res_bind].
  rewrite Htu. cbn [mbind res_bind]. rewrite Ht. cbn [mbind res_bind].
  rewrite Hrk. cbn [mbind res_bind]. rewrite Hr. cbn [mbind res_bind].
  rewrite Hl. cbn [mbind res_bind]. rewrite Hlo. cbn [mbind res_bind].
  rewrite Hla. cbn [mbind res_bind].
  fold (with_scores row a t r l lo la). rewrite Hw. reflexivity.
Qed.

Lemma complete_rated (self : Assistant) (row : Row) :
  complete row ->
  costs_are_numbers (countries self) ->
  (forall m, max_tuition (user_preferences self) = Some m -> ~ m == 0) ->
  exists a t r l lo la, rated repr_float self row a t r l lo la.
Proof.
  intros ([n Hn] & [f Hf] & [tu Htu] & [rk Hrk] & [c Hc] & [lg Hlg]) Hcs Hm.
  assert (Ha : exists a, calculate_academic_fit repr_float row
                 (extract_keywords (default "" (field_of_study (user_preferences self)))) = Ok a).
  { unfold calculate_academic_fit, row_get. destruct (extract_keywords _); [eauto|].
    rewrite Hn, Hf. simpl. eauto. }
  assert (Ht : exists t, row_get row "tuition_per_year"
                         ≫= tuition_score (max_tuition (user_preferences self)) = Ok t).
  { unfold row_get. rewrite Htu. cbn [mbind res_bind].
    unfold tuition_score, headroom. simpl. destruct (Qle_bool tu 0); [eauto|].
    destruct (max_tuition (user_preferences self)) as [m|] eqn:E; [|simpl; eauto].
    destruct (Qeq_bool m 0) eqn:E0; [|simpl; eauto].
    apply Qeq_bool_iff in E0. by destruct (Hm m eq_refl). }
  assert (Hr : exists r, row_get row "ranking_global" ≫= ranking_score = Ok r).
  { unfold row_get. rewrite Hrk. unfold ranking_score. simpl. eauto. }
  assert (Hl : exists l, living_cost_score (countries self)
                           (max_living_expenses (user_preferences self)) row = Ok l).
  { unfold living_cost_score, row_get. destruct (countries self) as [cs|]; [|eauto].
    destruct (bool_decide ("name" ∈ columns cs)); [|eauto]. rewrite Hc. cbn [mbind res_bind].
    destruct (List.filter _ (rows cs)) as [|[i first] rest] eqn:Hfilter; [eauto|].
    destruct (bool_decide _); [|eauto].
    destruct (as_float_cost cs (VStr c) first i rest Hcs Hfilter) as [x Hx].
    destruct (max_living_expenses _) as [ml|]; [destruct (Qlt_le_dec 0 ml)|];
      rewrite ?Hx; simpl; eauto. }
  assert (Hlo : exists lo, location_score (preferred_countries (user_preferences self)) row = Ok lo).
  { unfold location_score, row_get. destruct (preferred_countries _) as [[|p ps]|]; eauto.
    rewrite Hc. cbn [mbind res_bind]. destruct (bool_decide _); [eauto|].
    unfold is_in_same_region. destruct (fst <$> head _); simpl; eauto. }
  assert (Hla : exists la, language_score repr_float (language_preference (user_preferences self)) row
                           = Ok la).
  { unfold language_score, row_get. repeat case_decide; rewrite ?Hlg; simpl; eauto. }
  destruct Ha as [a Ha], Ht as [t Ht], Hr as [r Hr], Hl as [l Hl], Hlo as [lo Hlo], Hla as [la Hla].
  by exists a, t, r, l, lo, la.
Qed.

Lemma score_row_ok (self : Assistant) (row : Row) :
  complete row ->
  costs_are_numbers (countries self) ->
  (forall m, max_tuition (user_preferences self) = Some m -> ~ m == 0) ->
  map fst (criteria_weights self) = criteria ->
  exists row',
    score_row repr_float self
      (extract_keywords (default "" (field_of_study (user_preferences self)))) row = Ok row'
    /\ exists x, row' !! "final_score" = Some (VNum x).
Proof.
  intros Hrow Hcs Hm Hw.
  destruct (complete_rated self row Hrow Hcs Hm) as (a & t & r & l & lo & la & Hrated).
  destruct (weighted_sum_ok (criteria_weights self) (with_scores row a t r l lo la)
              a t r l lo la (with_scores_cells _ _ _ _ _ _ _) Hw) as [x Hx].
  eexists. split; [by apply (score_row_run self row a t r l lo la (Some x))|].
  eexists. rewrite lookup_insert_ne by discriminate. apply lookup_insert_eq.
Qed.

Lemma iterrows_ok {S : Type} (P Q : Row -> Prop) (body : S -> nat -> Row -> res (S * Row))
  (s : S) (f : Frame) :
  (forall s idx row, P row -> exists s' row', body s idx row = Ok (s', row') /\ Q row') ->
  Forall (fun ir : nat * Row => P ir.2) f ->
  exists s' f', iterrows body s f = (Ok s', f') /\ map fst f' = map fst f
                /\ Forall (fun ir : nat * Row => Q ir.2) f'.
Proof.
  intros Hbody. revert s. induction f as [|[idx row] f IH]; intros s Hf.
  - exists s, []. by repeat split.
  - apply Forall_cons in Hf as [Hrow Hf]. simpl in Hrow.
    destruct (Hbody s idx row Hrow) as (s1 & row1 & Hb & Hq).
    destruct (IH s1 Hf) as (s' & f' & Hloop & Hfst & Hall).
    exists s', ((idx, row1) :: f'). simpl. rewrite Hb, Hloop. simpl.
    split; [reflexivity|]. split; [by rewrite Hfst|]. by constructor.
Qed.


End MoreFacts.

(** *** The properties on the sample data *)

Lemma got_eq {A : Type} (d : A) (m : res A) : is_ok m = true -> m = Ok (got d m).
Proof. destruct m; [reflexivity|discriminate]. Qed.

Lemma recommended_eq (m : res response) :
  recommends m = true -> m = Ok (Recommendations (recommended m)).
Proof. destruct m as [[result|status]|e]; simpl; [reflexivity|discriminate..]. Qed.


Lemma recommendations_at_most_ten_explained_witness :
  (length (recommended (get_recommendations no_repr no_format literal_search
                          (Some sample_database) sample_analyzer (master_in "computer") []).1)
   <= 10)%nat /\
  Forall (fun row : Row =>
            exists e, row !! "explanation" = Some (VStr e)
                      /\ String.prefix "Recommended because:" e = true)
         (recommended (get_recommendations no_repr no_format literal_search
                         (Some sample_database) sample_analyzer (master_in "computer") []).1).
Proof.
  apply (recommendations_at_most_ten_explained no_repr no_format literal_search
           (Some sample_database) sample_analyzer (master_in "computer") []).
  apply recommended_eq. vm_compute. reflexivity.
Defined.

Lemma filter_keeps_within_constraints_witness :
  exists merged,
    merge sample_programs sample_universities = Ok merged /\
    columns sample_filtered = columns merged /\
    sublist (rows sample_filtered) (rows merged) /\
    (forall ceiling, max_tuition (user_preferences sample_assistant) = Some ceiling ->
       Forall (fun ir : nat * Row =>
                 exists x, ir.2 !! "tuition_per_year" = Some (VNum x) /\ x <= ceiling)
              (rows sample_filtered)) /\
    (forall level, degree_level (user_preferences sample_assistant) = Some level ->
       level <> "" ->
       Forall (fun ir : nat * Row =>
                 exists s, ir.2 !! "level" = Some (VStr s) /\ lower s = lower level)
              (rows sample_filtered)).
Proof.
  apply (filter_keeps_within_constraints literal_search sample_assistant
           sample_programs sample_universities sample_filtered).
  - reflexivity.
  - reflexivity.
  - apply filtered_eq. vm_compute. reflexivity.
Defined.

Lemma explanations_touch_only_explanation_witness :
  exists f',
    _add_student_data_explanations no_repr 0 sample_students [sample_recommendations]
    = (Ok tt, <[0%nat := f']> [sample_recommendations]) /\
    Forall2 (fun ir ir' : nat * Row => ir.1 = ir'.1 /\ same_but_explanation ir.2 ir'.2)
            sample_recommendations f' /\
    (frame_has sample_recommendations "explanation" = false ->
     f' = sample_recommendations
     /\ <[0%nat := f']> [sample_recommendations] = [sample_recommendations]).
Proof.
  apply (explanations_touch_only_explanation no_repr 0 sample_students
           [sample_recommendations] sample_recommendations).
  reflexivity.
Defined.

Lemma similar_students_are_records_witness :
  exists data indices,
    Cohort.student_data sample_built = Some data /\
    NoDup indices /\ (length indices <= 10)%nat /\
    Forall2 (fun i row => data !! i = Some row) indices (reverse sample_students).
Proof.
  apply (similar_students_are_records sample_built no_preferences 10 (reverse sample_students)).
  exact sample_neighbours.
Defined.

Lemma confidence_without_university_name_witness :
  calculate_confidence unnamed_row <= 19 # 20.
Proof. apply (confidence_without_university_name unnamed_row). reflexivity. Defined.

Lemma zero_ratings_raise_witness :
  update_weights default_weights [0; 0; 0; 0; 0; 0; 0]%Z = Raise ZeroDivisionError.
Proof.
  apply (zero_ratings_raise default_weights [0; 0; 0; 0; 0; 0; 0]%Z).
  - discriminate.
  - apply (bool_decide_unpack _). vm_compute. exact I.
  - simpl. lia.
  - reflexivity.
Defined.

Lemma two_candidates_complete :
  Forall (fun ir : nat * Row => complete ir.2) (rows two_candidates).
Proof.
  repeat (constructor; [repeat split; by eexists|]). constructor.
Qed.

